(** * Peer2Peer-Chat: the datagram dispatcher and the chat session of
      [p2p_chat.py], embedded and verified.

    The development follows the source file top-down:

    - Python strings and bytes ([str.startswith], [str.strip],
      [bytes.decode], [str.encode]);
    - the wire format, [json.dumps] / [json.loads], for the values the
      program exchanges;
    - insertion-ordered dictionaries (the peer registry [self.peers] and
      the decoded messages);
    - the class [P2PChat] as a record, with its methods as computations in
      a state-and-exception monad that also records what is printed and
      what is sent;
    - the properties of the dispatcher, of the session pointer
      [current_chat], of the listing and of the discovery probe.

    Conventions.  A Python [str] is a list of code points ([N]); a
    [bytes] object is a list of [Byte.byte].  A reading of [time.time()]
    is the integer count of nanoseconds the interpreter obtains from the
    clock ([Z]); the rounding to a binary64 float is not part of the
    model, so arithmetic on readings is exact, and a reading is written
    on the wire in positional decimal notation.  A [print] is recorded as
    an event carrying the values that are formatted, without the colour
    codes and without the wall-clock prefix.  Each call of
    [handle_message] is taken as one atomic step (the program starts a
    thread per datagram; interleavings are not modelled).

    The methods are given twice.  In the modules [Chat] and [Session] a
    [print] always succeeds and [json.loads] always answers.  The module
    [Strict], further down, gives the methods that print what a datagram
    brought with the two failures the interpreter adds
    ([UnicodeEncodeError] on a lone surrogate, [RecursionError] on deep
    nesting), and the module [Listener] gives the thread of the listener
    without the handlers it starts. *)

From Stdlib Require Import List NArith ZArith Bool Lia String.
From Stdlib.Strings Require Import Byte.
From Stdlib Require Decimal DecimalFacts DecimalPos DecimalN.
Import ListNotations.

Set Implicit Arguments.
Set Warnings "-register-all".

(* ===================================================================== *)
(** * Python strings *)
(* ===================================================================== *)

Module PyStr.

Local Open Scope N_scope.

(** A [str]: the sequence of its code points. *)
Definition pystr := list N.

(** A string literal of the source (ASCII only). *)
Definition lit (s : string) : pystr :=
  List.map Byte.to_N (list_byte_of_string s).

Definition QUOTE : N := 34.        (* the double quote *)
Definition BACKSLASH : N := 92.
Definition SLASH : N := 47.

Fixpoint eqb (a b : pystr) : bool :=
  match a, b with
  | [], [] => true
  | x :: a', y :: b' => (x =? y) && eqb a' b'
  | _, _ => false
  end.

(** [s.startswith(prefix)] *)
Fixpoint startswith (prefix s : pystr) : bool :=
  match prefix, s with
  | [], _ => true
  | p :: prefix', c :: s' => (p =? c) && startswith prefix' s'
  | _ :: _, [] => false
  end.

(** [str.isspace] on one code point: the characters [str.strip()]
    removes. *)
Definition isspace (c : N) : bool :=
  ((9 <=? c) && (c <=? 13)) || ((28 <=? c) && (c <=? 32))
  || (c =? 133) || (c =? 160) || (c =? 5760)
  || ((8192 <=? c) && (c <=? 8202))
  || (c =? 8232) || (c =? 8233) || (c =? 8239) || (c =? 8287)
  || (c =? 12288).

Fixpoint lstrip (s : pystr) : pystr :=
  match s with
  | c :: s' => if isspace c then lstrip s' else s
  | [] => []
  end.

Definition rstrip (s : pystr) : pystr := rev (lstrip (rev s)).

(** [s.strip()] *)
Definition strip (s : pystr) : pystr := rstrip (lstrip s).

(** [s[n:]] *)
Definition slice_from (n : nat) (s : pystr) : pystr := skipn n s.

(** [s[:n]] *)
Definition slice_to (n : nat) (s : pystr) : pystr := firstn n s.

(** [os.path.basename] (posixpath): what follows the last slash. *)
Fixpoint basename_aux (s acc : pystr) : pystr :=
  match s with
  | [] => acc
  | c :: s' => if c =? SLASH then basename_aux s' s' else basename_aux s' acc
  end.

Definition basename (p : pystr) : pystr := basename_aux p p.

(** Truth value of a [str]: non-empty. *)
Definition truthy (s : pystr) : bool :=
  match s with [] => false | _ :: _ => true end.

Lemma eqb_spec (a b : pystr) : reflect (a = b) (eqb a b).
Proof.
  revert b; induction a as [|x a IH]; intros [|y b]; simpl;
    try (constructor; congruence).
  destruct (N.eqb_spec x y) as [->|Hxy]; simpl.
  - destruct (IH b) as [->|Hab]; constructor; congruence.
  - constructor; congruence.
Qed.

Lemma eqb_refl (a : pystr) : eqb a a = true.
Proof. destruct (eqb_spec a a); congruence. Qed.

Lemma eqb_eq (a b : pystr) : eqb a b = true <-> a = b.
Proof. destruct (eqb_spec a b); split; congruence. Qed.

Lemma eqb_neq (a b : pystr) : eqb a b = false <-> a <> b.
Proof. destruct (eqb_spec a b); split; congruence. Qed.

Lemma startswith_app (p s : pystr) : startswith p (p ++ s) = true.
Proof. induction p; simpl; auto. now rewrite N.eqb_refl. Qed.

Lemma startswith_inv (p s : pystr) :
  startswith p s = true -> s = p ++ skipn (List.length p) s.
Proof.
  revert s; induction p as [|c p IH]; intros [|d s]; simpl; try easy.
  intros H; apply andb_true_iff in H as [Hc Hp].
  apply N.eqb_eq in Hc; subst. f_equal. now apply IH.
Qed.

End PyStr.

Import PyStr.

(* ===================================================================== *)
(** * [bytes.decode()] and [str.encode()]: UTF-8 *)
(* ===================================================================== *)

Module Utf8.

Local Open Scope N_scope.

Definition bytes := list byte.

Definition is_cont (b : N) : bool := (128 <=? b) && (b <=? 191).

Definition between (lo hi b : N) : bool := (lo <=? b) && (b <=? hi).

(** The strict decoder, on the numeric values of the bytes: shortest
    forms only, no surrogates, nothing above U+10FFFF. *)
Fixpoint decode_values (bs : list N) : option pystr :=
  match bs with
  | [] => Some []
  | b0 :: r0 =>
    if b0 <? 128 then option_map (cons b0) (decode_values r0)
    else if between 194 223 b0 then
      match r0 with
      | b1 :: r1 =>
        if is_cont b1
        then option_map
               (cons (N.lor (N.shiftl (N.land b0 31) 6) (N.land b1 63)))
               (decode_values r1)
        else None
      | _ => None
      end
    else if between 224 239 b0 then
      match r0 with
      | b1 :: b2 :: r2 =>
        if (if b0 =? 224 then between 160 191 b1
            else if b0 =? 237 then between 128 159 b1
            else is_cont b1) && is_cont b2
        then option_map
               (cons (N.lor (N.shiftl (N.land b0 15) 12)
                        (N.lor (N.shiftl (N.land b1 63) 6) (N.land b2 63))))
               (decode_values r2)
        else None
      | _ => None
      end
    else if between 240 244 b0 then
      match r0 with
      | b1 :: b2 :: b3 :: r3 =>
        if (if b0 =? 240 then between 144 191 b1
            else if b0 =? 244 then between 128 143 b1
            else is_cont b1) && is_cont b2 && is_cont b3
        then option_map
               (cons (N.lor (N.shiftl (N.land b0 7) 18)
                        (N.lor (N.shiftl (N.land b1 63) 12)
                           (N.lor (N.shiftl (N.land b2 63) 6)
                              (N.land b3 63)))))
               (decode_values r3)
        else None
      | _ => None
      end
    else None
  end.

(** [data.decode()]; [None] is [UnicodeDecodeError]. *)
Definition bytes_decode (data : bytes) : option pystr :=
  decode_values (List.map Byte.to_N data).

Definition encode_code_point (c : N) : option (list N) :=
  if c <? 128 then Some [c]
  else if c <? 2048 then
    Some [N.lor 192 (N.shiftr c 6); N.lor 128 (N.land c 63)]
  else if between 55296 57343 c then None
  else if c <? 65536 then
    Some [N.lor 224 (N.shiftr c 12);
          N.lor 128 (N.land (N.shiftr c 6) 63);
          N.lor 128 (N.land c 63)]
  else if c <? 1114112 then
    Some [N.lor 240 (N.shiftr c 18);
          N.lor 128 (N.land (N.shiftr c 12) 63);
          N.lor 128 (N.land (N.shiftr c 6) 63);
          N.lor 128 (N.land c 63)]
  else None.

Fixpoint encode_values (s : pystr) : option (list N) :=
  match s with
  | [] => Some []
  | c :: s' =>
    match encode_code_point c, encode_values s' with
    | Some bs, Some r => Some (bs ++ r)
    | _, _ => None
    end
  end.

Fixpoint to_bytes (vs : list N) : option bytes :=
  match vs with
  | [] => Some []
  | v :: vs' =>
    match Byte.of_N v, to_bytes vs' with
    | Some b, Some r => Some (b :: r)
    | _, _ => None
    end
  end.

(** [s.encode()]; [None] is [UnicodeEncodeError]. *)
Definition str_encode (s : pystr) : option bytes :=
  match encode_values s with
  | Some vs => to_bytes vs
  | None => None
  end.

(** A string of ASCII characters only. *)
Definition ascii_only (s : pystr) : Prop := Forall (fun c => c < 128) s.

Lemma ascii_only_app (a b : pystr) :
  ascii_only a -> ascii_only b -> ascii_only (a ++ b).
Proof. intros; apply Forall_app; auto. Qed.

Lemma encode_values_ascii (s : pystr) :
  ascii_only s -> encode_values s = Some s.
Proof.
  induction 1 as [|c s Hc _ IH]; simpl; auto.
  unfold encode_code_point.
  apply N.ltb_lt in Hc. now rewrite Hc, IH.
Qed.

Lemma to_bytes_ascii (s : pystr) :
  ascii_only s ->
  exists data, to_bytes s = Some data /\ List.map Byte.to_N data = s.
Proof.
  induction 1 as [|c s Hc _ (data & Hd & Hm)]; simpl.
  - now exists [].
  - destruct (Byte.of_N c) as [b|] eqn:Hb.
    + exists (b :: data). rewrite Hd. split; auto.
      simpl. f_equal; auto. now apply Byte.to_of_N.
    + apply Byte.of_N_None_iff in Hb. lia.
Qed.

Lemma decode_values_ascii (s : pystr) :
  ascii_only s -> decode_values s = Some s.
Proof.
  induction 1 as [|c s Hc _ IH]; simpl; auto.
  apply N.ltb_lt in Hc. now rewrite Hc, IH.
Qed.

(** On ASCII text [encode] never fails and [decode] undoes it. *)
Lemma encode_decode_ascii (s : pystr) :
  ascii_only s ->
  exists data, str_encode s = Some data /\ bytes_decode data = Some s.
Proof.
  intros Hs. destruct (to_bytes_ascii Hs) as (data & Hd & Hm).
  exists data. unfold str_encode, bytes_decode.
  rewrite (encode_values_ascii Hs), Hd, Hm. split; auto.
  now apply decode_values_ascii.
Qed.

End Utf8.

Import Utf8.

(* ===================================================================== *)
(** * Dictionaries *)
(* ===================================================================== *)

(** A Python [dict] with [str] keys, in insertion order: assigning to a
    key that is present keeps its position, a new key goes last. *)
Module PyDict.

Section Dict.

Variable V : Type.

Definition pydict := list (pystr * V).

(** [d.get(k)] *)
Fixpoint get (k : pystr) (d : pydict) : option V :=
  match d with
  | [] => None
  | (k', v) :: d' => if PyStr.eqb k k' then Some v else get k d'
  end.

(** [k in d] *)
Definition mem (k : pystr) (d : pydict) : bool :=
  match get k d with Some _ => true | None => false end.

(** [d[k] = v] *)
Fixpoint set (k : pystr) (v : V) (d : pydict) : pydict :=
  match d with
  | [] => [(k, v)]
  | (k', v') :: d' =>
    if PyStr.eqb k k' then (k, v) :: d' else (k', v') :: set k v d'
  end.

(** [del d[k]] for a key that is present.  A [dict] holds a key once; on
    a list that holds it several times every entry for it goes. *)
Definition del (k : pystr) (d : pydict) : pydict :=
  filter (fun kv => negb (PyStr.eqb k (fst kv))) d.

Definition keys (d : pydict) : list pystr := List.map fst d.

(** [dict(pairs)]: a later pair for the same key replaces the value. *)
Definition of_pairs (kvs : list (pystr * V)) : pydict :=
  fold_left (fun d kv => set (fst kv) (snd kv) d) kvs [].

Lemma get_set_same k v d : get k (set k v d) = Some v.
Proof.
  induction d as [|[k' v'] d IH]; simpl.
  - now rewrite PyStr.eqb_refl.
  - destruct (PyStr.eqb k k') eqn:E; simpl; rewrite ?PyStr.eqb_refl, ?E; auto.
Qed.

Lemma get_set_other k k' v d : k <> k' -> get k' (set k v d) = get k' d.
Proof.
  intros Hk. induction d as [|[k0 v0] d IH]; simpl.
  - apply not_eq_sym, PyStr.eqb_neq in Hk. now rewrite Hk.
  - destruct (PyStr.eqb k k0) eqn:E; simpl.
    + apply PyStr.eqb_eq in E; subst k0.
      apply not_eq_sym, PyStr.eqb_neq in Hk. now rewrite Hk.
    + now rewrite IH.
Qed.

Lemma get_del_same k d : get k (del k d) = None.
Proof.
  induction d as [|[k' v'] d IH]; simpl; auto.
  destruct (PyStr.eqb k k') eqn:E; simpl; auto. now rewrite E.
Qed.

Lemma get_del_other k k' d : k <> k' -> get k' (del k d) = get k' d.
Proof.
  intros Hk. induction d as [|[k0 v0] d IH]; simpl; auto.
  destruct (PyStr.eqb k k0) eqn:E; simpl.
  - apply PyStr.eqb_eq in E; subst k0.
    apply not_eq_sym, PyStr.eqb_neq in Hk. now rewrite Hk.
  - now rewrite IH.
Qed.

Lemma get_none_keys k d : get k d = None <-> ~ In k (keys d).
Proof.
  induction d as [|[k' v'] d IH]; simpl.
  - tauto.
  - destruct (PyStr.eqb_spec k k') as [->|Hk].
    + split; [discriminate | tauto].
    + rewrite IH. split; [intros H [E|I]; [congruence | tauto] | tauto].
Qed.

Lemma mem_keys k d : mem k d = true <-> In k (keys d).
Proof.
  unfold mem. destruct (get k d) eqn:E.
  - split; auto. intros _.
    destruct (in_dec (list_eq_dec N.eq_dec) k (keys d)) as [I|I]; auto.
    apply get_none_keys in I. congruence.
  - apply get_none_keys in E. split; [discriminate | tauto].
Qed.

Lemma mem_false k d : mem k d = false <-> get k d = None.
Proof. unfold mem. destruct (get k d); split; congruence. Qed.

Lemma get_in k v d : get k d = Some v -> In (k, v) d.
Proof.
  induction d as [|[k' v'] d IH]; simpl; [discriminate|].
  destruct (PyStr.eqb_spec k k') as [->|Hk].
  - intros [= ->]. now left.
  - intros H. right. now apply IH.
Qed.

Lemma keys_set k v d k' : In k' (keys (set k v d)) <-> k' = k \/ In k' (keys d).
Proof.
  induction d as [|[k0 v0] d IH]; simpl.
  - intuition.
  - destruct (PyStr.eqb_spec k k0) as [->|Hk]; simpl.
    + intuition.
    + rewrite IH. intuition.
Qed.

Lemma keys_del k d k' : In k' (keys (del k d)) <-> k' <> k /\ In k' (keys d).
Proof.
  unfold keys, del. rewrite !in_map_iff. split.
  - intros ([k0 v0] & <- & Hin). apply filter_In in Hin as [Hin Hf].
    simpl in *. apply negb_true_iff, PyStr.eqb_neq in Hf.
    split; [congruence|]. now exists (k0, v0).
  - intros (Hk & [k0 v0] & <- & Hin). exists (k0, v0). split; auto.
    apply filter_In. split; auto. simpl in *.
    apply negb_true_iff, PyStr.eqb_neq. congruence.
Qed.

Lemma set_fresh k v d : ~ In k (keys d) -> set k v d = d ++ [(k, v)].
Proof.
  induction d as [|[k0 v0] d IH]; simpl; auto.
  intros H. destruct (PyStr.eqb_spec k k0) as [->|Hk]; [tauto|].
  f_equal. apply IH. tauto.
Qed.

Lemma of_pairs_app_nodup (kvs acc : pydict) :
  NoDup (keys (acc ++ kvs)) ->
  fold_left (fun d kv => set (fst kv) (snd kv) d) kvs acc = acc ++ kvs.
Proof.
  revert acc; induction kvs as [|[k v] kvs IH]; intros acc Hnd; simpl.
  - now rewrite app_nil_r.
  - rewrite set_fresh.
    + rewrite IH; rewrite <- app_assoc; auto.
    + unfold keys in *. rewrite map_app in Hnd. simpl in Hnd.
      apply NoDup_remove_2 in Hnd. rewrite in_app_iff in Hnd. tauto.
Qed.

(** A dictionary display with distinct keys is the dictionary itself. *)
Lemma of_pairs_nodup (kvs : pydict) : NoDup (keys kvs) -> of_pairs kvs = kvs.
Proof. intros H. unfold of_pairs. now rewrite of_pairs_app_nodup. Qed.

End Dict.

End PyDict.

Import PyDict.

(* ===================================================================== *)
(** * The wire format: [json.dumps] and [json.loads] *)
(* ===================================================================== *)

Module Json.

Local Open Scope N_scope.

(** What [json.loads] can return.  A float is carried as its literal (the
    text [repr] writes and [float] reads); the binary64 value is not
    modelled.  An object is a [dict] in insertion order. *)
Inductive json : Type :=
| JNull
| JBool (b : bool)
| JInt (z : Z)
| JFloat (literal : pystr)
| JStr (s : pystr)
| JArr (items : list json)
| JObj (members : list (pystr * json)).

(** [v == s] for a [str] [s]. *)
Definition eq_str (v : json) (s : pystr) : bool :=
  match v with JStr s' => PyStr.eqb s' s | _ => false end.

(** ** Encoding *)

Definition hexdigit (d : N) : N := if d <? 10 then 48 + d else 87 + d.

(** ['\\u{0:04x}'.format(v)] *)
Definition escape_u (v : N) : pystr :=
  [BACKSLASH; 117; hexdigit (v / 4096 mod 16); hexdigit (v / 256 mod 16);
   hexdigit (v / 16 mod 16); hexdigit (v mod 16)].

(** One character under [ensure_ascii=True]. *)
Definition escape_char (c : N) : pystr :=
  if (32 <=? c) && (c <=? 126) && negb (c =? QUOTE) && negb (c =? BACKSLASH)
  then [c]
  else if c =? BACKSLASH then [BACKSLASH; BACKSLASH]
  else if c =? QUOTE then [BACKSLASH; QUOTE]
  else if c =? 8 then [BACKSLASH; 98]
  else if c =? 12 then [BACKSLASH; 102]
  else if c =? 10 then [BACKSLASH; 110]
  else if c =? 13 then [BACKSLASH; 114]
  else if c =? 9 then [BACKSLASH; 116]
  else if c <? 65536 then escape_u c
  else
    let v := c - 65536 in
    escape_u (N.lor 55296 (N.land (N.shiftr v 10) 1023))
    ++ escape_u (N.lor 56320 (N.land v 1023)).

Definition escape_chars (s : pystr) : pystr := flat_map escape_char s.

(** [encode_basestring_ascii] *)
Definition encode_string (s : pystr) : pystr :=
  QUOTE :: escape_chars s ++ [QUOTE].

Fixpoint uint_chars (u : Decimal.uint) : pystr :=
  match u with
  | Decimal.Nil => []
  | Decimal.D0 u' => 48 :: uint_chars u'
  | Decimal.D1 u' => 49 :: uint_chars u'
  | Decimal.D2 u' => 50 :: uint_chars u'
  | Decimal.D3 u' => 51 :: uint_chars u'
  | Decimal.D4 u' => 52 :: uint_chars u'
  | Decimal.D5 u' => 53 :: uint_chars u'
  | Decimal.D6 u' => 54 :: uint_chars u'
  | Decimal.D7 u' => 55 :: uint_chars u'
  | Decimal.D8 u' => 56 :: uint_chars u'
  | Decimal.D9 u' => 57 :: uint_chars u'
  end.

(** [str(n)] for a natural number. *)
Definition repr_nat (n : N) : pystr := uint_chars (N.to_uint n).

(** [int.__repr__] *)
Definition repr_int (z : Z) : pystr :=
  if (z <? 0)%Z then 45 :: repr_nat (Z.abs_N z) else repr_nat (Z.abs_N z).

Fixpoint join (sep : pystr) (parts : list pystr) : pystr :=
  match parts with
  | [] => []
  | [p] => p
  | p :: ps => p ++ sep ++ join sep ps
  end.

(** [json.dumps(v)] with the default separators. *)
Fixpoint dumps (v : json) : pystr :=
  match v with
  | JNull => lit "null"
  | JBool true => lit "true"
  | JBool false => lit "false"
  | JInt z => repr_int z
  | JFloat l => l
  | JStr s => encode_string s
  | JArr items => lit "[" ++ join (lit ", ") (List.map dumps items) ++ lit "]"
  | JObj members =>
    lit "{"
    ++ join (lit ", ")
         (List.map (fun kv => encode_string (fst kv) ++ lit ": " ++ dumps (snd kv))
            members)
    ++ lit "}"
  end.

(** ** Decoding *)

Definition is_digit (c : N) : bool := (48 <=? c) && (c <=? 57).

Definition hexval (c : N) : option N :=
  if is_digit c then Some (c - 48)
  else if (97 <=? c) && (c <=? 102) then Some (c - 87)
  else if (65 <=? c) && (c <=? 70) then Some (c - 55)
  else None.

(** [_decode_uXXXX] *)
Definition decode_hex4 (h1 h2 h3 h4 : N) : option N :=
  match hexval h1, hexval h2, hexval h3, hexval h4 with
  | Some a, Some b, Some c, Some d => Some (((a * 16 + b) * 16 + c) * 16 + d)
  | _, _, _, _ => None
  end.

(** The table [BACKSLASH] of the decoder. *)
Definition unescape (e : N) : option N :=
  if e =? QUOTE then Some QUOTE
  else if e =? BACKSLASH then Some BACKSLASH
  else if e =? SLASH then Some SLASH
  else if e =? 98 then Some 8
  else if e =? 102 then Some 12
  else if e =? 110 then Some 10
  else if e =? 114 then Some 13
  else if e =? 116 then Some 9
  else None.

Definition is_high_surrogate (u : N) : bool := (55296 <=? u) && (u <=? 56319).
Definition is_low_surrogate (u : N) : bool := (56320 <=? u) && (u <=? 57343).

Definition join_surrogates (hi lo : N) : N :=
  65536 + N.lor (N.shiftl (hi - 55296) 10) (lo - 56320).

Definition push (c : N) (r : option (pystr * pystr)) : option (pystr * pystr) :=
  match r with
  | Some (s, rest) => Some (c :: s, rest)
  | None => None
  end.

(** [scanstring], strict, from just after the opening quote: the decoded
    string and what follows the closing quote.  [None] is
    [JSONDecodeError]. *)
Fixpoint scanstring (s : pystr) : option (pystr * pystr) :=
  match s with
  | [] => None
  | c :: r =>
    if c =? QUOTE then Some ([], r)
    else if c =? BACKSLASH then
      match r with
      | [] => None
      | e :: r1 =>
        if e =? 117 then
          match r1 with
          | h1 :: h2 :: h3 :: h4 :: r2 =>
            match decode_hex4 h1 h2 h3 h4 with
            | None => None
            | Some uni =>
              if is_high_surrogate uni then
                match r2 with
                | b :: u :: r3 =>
                  if (b =? BACKSLASH) && (u =? 117) then
                    match r3 with
                    | g1 :: g2 :: g3 :: g4 :: r4 =>
                      match decode_hex4 g1 g2 g3 g4 with
                      | None => None
                      | Some uni2 =>
                        if is_low_surrogate uni2
                        then push (join_surrogates uni uni2) (scanstring r4)
                        else push uni (scanstring r2)
                      end
                    | _ => None
                    end
                  else push uni (scanstring r2)
                | _ => push uni (scanstring r2)
                end
              else push uni (scanstring r2)
            end
          | _ => None
          end
        else
          match unescape e with
          | Some ch => push ch (scanstring r1)
          | None => None
          end
      end
    else if c <=? 31 then None
    else push c (scanstring r)
  end.

Definition is_ws (c : N) : bool :=
  (c =? 32) || (c =? 9) || (c =? 10) || (c =? 13).

Fixpoint skip_ws (s : pystr) : pystr :=
  match s with
  | c :: r => if is_ws c then skip_ws r else s
  | [] => []
  end.

Fixpoint span_digits (s : pystr) : pystr * pystr :=
  match s with
  | c :: r =>
    if is_digit c then let (ds, rest) := span_digits r in (c :: ds, rest)
    else ([], s)
  | [] => ([], [])
  end.

Definition digit_cons (c : N) (u : Decimal.uint) : Decimal.uint :=
  match c - 48 with
  | 0 => Decimal.D0 u
  | 1 => Decimal.D1 u
  | 2 => Decimal.D2 u
  | 3 => Decimal.D3 u
  | 4 => Decimal.D4 u
  | 5 => Decimal.D5 u
  | 6 => Decimal.D6 u
  | 7 => Decimal.D7 u
  | 8 => Decimal.D8 u
  | _ => Decimal.D9 u
  end.

Definition chars_uint (ds : pystr) : Decimal.uint :=
  fold_right digit_cons Decimal.Nil ds.

(** [int(text)] on a run of decimal digits. *)
Definition int_of_digits (ds : pystr) : Z := Z.of_N (N.of_uint (chars_uint ds)).

(** The number matcher of the scanner: an optional minus sign; then a
    single 0, or a digit from 1 to 9 followed by digits; then, optionally,
    a dot and at least one digit; then, optionally, e or E, an optional
    sign and at least one digit.  With a fraction or an exponent the
    number is a float, otherwise an int. *)

(** The integer part and what follows it. *)
Definition match_int_part (s : pystr) : option (pystr * pystr) :=
  match s with
  | [] => None
  | c :: r =>
    if c =? 48 then Some ([c], r)
    else if is_digit c then let (ds, r') := span_digits r in Some (c :: ds, r')
    else None
  end.

(** The fraction (empty if there is none) and what follows it. *)
Definition match_frac (s : pystr) : pystr * pystr :=
  match s with
  | p :: d :: r =>
    if (p =? 46) && is_digit d
    then let (ds, r') := span_digits r in (p :: d :: ds, r')
    else ([], s)
  | _ => ([], s)
  end.

(** The exponent (empty if there is none) and what follows it. *)
Definition match_exp (s : pystr) : pystr * pystr :=
  match s with
  | e :: r =>
    if (e =? 101) || (e =? 69) then
      let (sg, r') :=
        match r with
        | c :: t => if (c =? 43) || (c =? 45) then ([c], t) else ([], r)
        | [] => ([], r)
        end in
      let (ds, r'') := span_digits r' in
      match ds with
      | [] => ([], s)
      | _ :: _ => (e :: sg ++ ds, r'')
      end
    else ([], s)
  | [] => ([], s)
  end.

Definition match_unsigned (sign s : pystr) : option (json * pystr) :=
  match match_int_part s with
  | None => None
  | Some (ip, r1) =>
    let (frac, r2) := match_frac r1 in
    let (exp, r3) := match_exp r2 in
    match frac, exp with
    | [], [] =>
      Some (JInt (match sign with
                  | [] => int_of_digits ip
                  | _ :: _ => - int_of_digits ip
                  end)%Z, r3)
    | _, _ => Some (JFloat (sign ++ ip ++ frac ++ exp), r3)
    end
  end.

Definition match_number (s : pystr) : option (json * pystr) :=
  match s with
  | c :: r => if c =? 45 then match_unsigned [c] r else match_unsigned [] s
  | [] => None
  end.

(** Outcome of the recursive scanner: a value and the rest of the text,
    [JSONDecodeError], or the recursion bound of the model reached. *)
Inductive scan (A : Type) : Type :=
| Scanned (a : A) (rest : pystr)
| DecodeError
| OutOfFuel.

Arguments DecodeError {A}.
Arguments OutOfFuel {A}.

Definition of_option {A} (r : option (A * pystr)) : scan A :=
  match r with
  | Some (a, rest) => Scanned a rest
  | None => DecodeError
  end.

(** [scan_once], [JSONObject] and [JSONArray].  [scan_members] starts
    where a property name is expected, [scan_items] where an array
    element is expected; [acc] holds what was read so far. *)
Fixpoint scan_once (fuel : nat) (s : pystr) {struct fuel} : scan json :=
  match fuel with
  | O => OutOfFuel
  | S f =>
    match s with
    | [] => DecodeError
    | c :: r =>
      if c =? QUOTE then
        match scanstring r with
        | Some (str, rest) => Scanned (JStr str) rest
        | None => DecodeError
        end
      else if c =? 123 then
        match skip_ws r with
        | c' :: r' =>
          if c' =? 125 then Scanned (JObj []) r'
          else scan_members f [] (c' :: r')
        | [] => DecodeError
        end
      else if c =? 91 then
        match skip_ws r with
        | c' :: r' =>
          if c' =? 93 then Scanned (JArr []) r'
          else scan_items f [] (c' :: r')
        | [] => DecodeError
        end
      else if (c =? 110) && startswith (lit "ull") r then
        Scanned JNull (skipn 3 r)
      else if (c =? 116) && startswith (lit "rue") r then
        Scanned (JBool true) (skipn 3 r)
      else if (c =? 102) && startswith (lit "alse") r then
        Scanned (JBool false) (skipn 4 r)
      else if (c =? 78) && startswith (lit "aN") r then
        Scanned (JFloat (lit "NaN")) (skipn 2 r)
      else if (c =? 73) && startswith (lit "nfinity") r then
        Scanned (JFloat (lit "Infinity")) (skipn 7 r)
      else if (c =? 45) && startswith (lit "Infinity") r then
        Scanned (JFloat (lit "-Infinity")) (skipn 8 r)
      else of_option (match_number s)
    end
  end

with scan_members (fuel : nat) (acc : list (pystr * json)) (s : pystr)
       {struct fuel} : scan json :=
  match fuel with
  | O => OutOfFuel
  | S f =>
    match s with
    | c :: r =>
      if c =? QUOTE then
        match scanstring r with
        | None => DecodeError
        | Some (key, r1) =>
          match skip_ws r1 with
          | c1 :: r2 =>
            if c1 =? 58 then
              match scan_once f (skip_ws r2) with
              | Scanned v r3 =>
                match skip_ws r3 with
                | c3 :: r4 =>
                  if c3 =? 125
                  then Scanned (JObj (of_pairs (acc ++ [(key, v)]))) r4
                  else if c3 =? 44
                  then scan_members f (acc ++ [(key, v)]) (skip_ws r4)
                  else DecodeError
                | [] => DecodeError
                end
              | DecodeError => DecodeError
              | OutOfFuel => OutOfFuel
              end
            else DecodeError
          | [] => DecodeError
          end
        end
      else DecodeError
    | [] => DecodeError
    end
  end

with scan_items (fuel : nat) (acc : list json) (s : pystr)
       {struct fuel} : scan json :=
  match fuel with
  | O => OutOfFuel
  | S f =>
    match scan_once f s with
    | Scanned v r1 =>
      match skip_ws r1 with
      | c1 :: r2 =>
        if c1 =? 93 then Scanned (JArr (acc ++ [v])) r2
        else if c1 =? 44 then scan_items f (acc ++ [v]) (skip_ws r2)
        else DecodeError
      | [] => DecodeError
      end
    | DecodeError => DecodeError
    | OutOfFuel => OutOfFuel
    end
  end.

(** The recursion bound given to the scanner: never reached (lemma
    [scan_once_fuel] below). *)
Definition fuel_for (s : pystr) : nat := 2 * List.length s + 1.

(** [json.loads(s)] for a [str]; [None] is [JSONDecodeError].  Two
    limits of the interpreter are not modelled: the recursion limit
    ([RecursionError] on a text nested about a thousand deep) and the
    limit on the digits of an integer ([ValueError] past 4300 digits,
    more than the 4096 bytes that [recvfrom] reads). *)
Definition loads (s : pystr) : option json :=
  match s with
  | 65279 :: _ => None
  | _ =>
    let s0 := skip_ws s in
    match scan_once (fuel_for s0) s0 with
    | Scanned v rest =>
      match skip_ws rest with
      | [] => Some v
      | _ :: _ => None
      end
    | _ => None
    end
  end.

End Json.

Import Json.

(* ===================================================================== *)
(** * Messages on the wire *)
(* ===================================================================== *)

Module Wire.

Local Open Scope N_scope.

(** The six kinds of datagram, with the fields the [send_*] methods put
    in the dictionary they serialise.  No method of the source sends a
    read receipt; its fields are those the dispatcher reads
    ([to_username], [from_username]) and a timestamp like every other
    kind. *)
Inductive Message : Type :=
| Presence (username : pystr) (timestamp : Z)
| Chat (from_username to_username text : pystr) (timestamp : Z)
| Typing (from_username to_username : pystr) (timestamp : Z)
| ReadReceipt (from_username to_username : pystr) (timestamp : Z)
| FileOffer (from_username to_username filename : pystr) (size : N)
            (hash : pystr) (timestamp : Z)
| Disconnect (username : pystr) (timestamp : Z).

Fixpoint pad_digits (k : nat) (r : N) : pystr :=
  match k with
  | O => []
  | S k' => pad_digits k' (r / 10) ++ [48 + r mod 10]
  end.

Fixpoint drop_zeros (ds : pystr) : pystr :=
  match ds with
  | c :: ds' => if c =? 48 then drop_zeros ds' else ds
  | [] => []
  end.

(** The digits after the point: nine places, trailing zeros removed, one
    digit at least. *)
Definition frac_digits (r : N) : pystr :=
  match List.rev (drop_zeros (List.rev (pad_digits 9 r))) with
  | [] => [48]
  | ds => ds
  end.

(** [float.__repr__] of a clock reading of [t] nanoseconds, in seconds. *)
Definition repr_time (t : Z) : pystr :=
  (if (t <? 0)%Z then [45] else [])
  ++ repr_nat (Z.abs_N t / 1000000000)
  ++ [46] ++ frac_digits (Z.abs_N t mod 1000000000).

Definition tag (m : Message) : pystr :=
  match m with
  | Presence _ _ => lit "presence"
  | Chat _ _ _ _ => lit "message"
  | Typing _ _ _ => lit "typing"
  | ReadReceipt _ _ _ => lit "read_receipt"
  | FileOffer _ _ _ _ _ _ => lit "file_offer"
  | Disconnect _ _ => lit "disconnect"
  end.

(** The dictionary built for each kind (lines 167-171, 243-249, 263-268,
    277-281, 290-294, 310-318 of the source). *)
Definition to_dict (m : Message) : json :=
  match m with
  | Presence u ts =>
    JObj [(lit "type", JStr (lit "presence"));
          (lit "username", JStr u);
          (lit "timestamp", JFloat (repr_time ts))]
  | Chat f t text ts =>
    JObj [(lit "type", JStr (lit "message"));
          (lit "from_username", JStr f);
          (lit "to_username", JStr t);
          (lit "text", JStr text);
          (lit "timestamp", JFloat (repr_time ts))]
  | Typing f t ts =>
    JObj [(lit "type", JStr (lit "typing"));
          (lit "from_username", JStr f);
          (lit "to_username", JStr t);
          (lit "timestamp", JFloat (repr_time ts))]
  | ReadReceipt f t ts =>
    JObj [(lit "type", JStr (lit "read_receipt"));
          (lit "from_username", JStr f);
          (lit "to_username", JStr t);
          (lit "timestamp", JFloat (repr_time ts))]
  | FileOffer f t name size hash ts =>
    JObj [(lit "type", JStr (lit "file_offer"));
          (lit "from_username", JStr f);
          (lit "to_username", JStr t);
          (lit "filename", JStr name);
          (lit "size", JInt (Z.of_N size));
          (lit "hash", JStr hash);
          (lit "timestamp", JFloat (repr_time ts))]
  | Disconnect u ts =>
    JObj [(lit "type", JStr (lit "disconnect"));
          (lit "username", JStr u);
          (lit "timestamp", JFloat (repr_time ts))]
  end.

(** [json.dumps(message).encode()] *)
Definition encode_json (v : json) : option bytes := str_encode (dumps v).

Definition encode (m : Message) : option bytes := encode_json (to_dict m).

(** Why [json.loads(data.decode())] raised. *)
Inductive decode_error : Type :=
| NotUtf8        (* UnicodeDecodeError *)
| NotJson.       (* json.JSONDecodeError *)

(** [json.loads(data.decode())] *)
Definition decode (data : bytes) : decode_error + json :=
  match bytes_decode data with
  | None => inl NotUtf8
  | Some text =>
    match loads text with
    | None => inl NotJson
    | Some v => inr v
    end
  end.

(** Text that holds Unicode scalar values only: what decoding UTF-8
    yields. *)
Definition scalar (c : N) : Prop :=
  c < 55296 \/ (57344 <= c /\ c < 1114112).

Definition valid_text (s : pystr) : Prop := Forall scalar s.

Definition valid (m : Message) : Prop :=
  match m with
  | Presence u _ | Disconnect u _ => valid_text u
  | Chat f t text _ => valid_text f /\ valid_text t /\ valid_text text
  | Typing f t _ | ReadReceipt f t _ => valid_text f /\ valid_text t
  | FileOffer f t name _ hash _ =>
    valid_text f /\ valid_text t /\ valid_text name /\ valid_text hash
  end.

End Wire.

Import Wire.

(* ===================================================================== *)
(** * The class [P2PChat] *)
(* ===================================================================== *)

Module Chat.

Local Open Scope Z_scope.

(** An entry of [self.peers]:
    [{'username': username, 'last_seen': timestamp}].  The name is the
    value found in the datagram, whatever its JSON type. *)
Record peer : Type := Peer {
  peer_username : json;
  last_seen : Z
}.

(** The attributes of the object that the methods read or assign. *)
Record P2PChat : Type := Build {
  username : pystr;
  port : Z;
  running : bool;
  peers : pydict peer;
  current_chat : option pystr
}.

Definition address : Type := pystr * Z.

Inductive exn : Type :=
| UnicodeDecodeError
| UnicodeEncodeError
| JSONDecodeError
| AttributeError
| TypeError
| KeyError (key : pystr)
| EOFError
| OSError
| SocketTimeout
| RecursionError.

Inductive liveness : Type := Active | Inactive.

(** What the program prints or sends, in order.  The comment gives the
    line of the source. *)
Inductive output : Type :=
| PrintChat (sender : json) (ip text : pystr)            (* 106 *)
| PrintTyping (sender : json)                            (* 115 *)
| PrintReadReceipt (sender : json)                       (* 120 *)
| PrintDisconnected (name : json) (ip : pystr)           (* 130 *)
| PrintInvalidMessage (ip : pystr)                       (* 136 *)
| PrintHandlerError (e : exn)                            (* 138 *)
| PrintNowChatting (name : json) (target : pystr)        (* 147 *)
| PrintUserNotFound (target : pystr)                     (* 149 *)
| PrintLeftChat (name : json)                            (* 158 *)
| PrintYou (text : pystr)                                (* 256 *)
| PrintSendFailed (e : exn)                              (* 259 *)
| PrintFileNotFound (filename : pystr)                   (* 304 *)
| PrintFileOfferSent (name : pystr) (size : N)           (* 322 *)
| PrintWaiting                                           (* 323 *)
| PrintOfferFailed (e : exn)                             (* 326 *)
| PrintFileOfferFrom (sender : json) (ip : pystr)        (* 335 *)
| PrintFilename (name : json)                            (* 336 *)
| PrintSize (size : json)                                (* 337 *)
| PrintHash (prefix : json)                              (* 338 *)
| PromptAccept                                           (* 340 *)
| PrintTransferStarting                                  (* 344 *)
| PrintNotImplemented                                    (* 345 *)
| PrintFileRejected                                      (* 347 *)
| PrintPeersHeader                                       (* 359 *)
| PrintNoPeers                                           (* 361 *)
| PrintPeer (name : json) (ip : pystr) (status : liveness) (* 365 *)
| PrintBlank                                             (* 366 *)
| PrintDiscovering                                       (* 370 *)
| PrintHelp                                              (* 433 *)
| Sent (data : bytes) (dest : address).        (* socket.sendto *)

(** ** Computations *)

(** Running a method: it returns or raises, and leaves the object in a
    state, having produced some output. *)
Record outcome (A : Type) : Type := Outcome {
  result : exn + A;
  final : P2PChat;
  printed : list output
}.

Definition M (A : Type) : Type := P2PChat -> outcome A.

Definition ret {A} (a : A) : M A :=
  fun self => Outcome (inr a) self [].

Definition raise {A} (e : exn) : M A :=
  fun self => Outcome (inl e) self [].

Definition bind {A B} (m : M A) (k : A -> M B) : M B :=
  fun self =>
    let r := m self in
    match result r with
    | inl e => Outcome (inl e) (final r) (printed r)
    | inr a =>
      let r' := k a (final r) in
      Outcome (result r') (final r') (printed r ++ printed r')
    end.

(** [try: m except Exception as e: h e] *)
Definition catch {A} (m : M A) (h : exn -> M A) : M A :=
  fun self =>
    let r := m self in
    match result r with
    | inl e =>
      let r' := h e (final r) in
      Outcome (result r') (final r') (printed r ++ printed r')
    | inr a => r
    end.

Definition get_self : M P2PChat :=
  fun self => Outcome (inr self) self [].

Definition emit (o : output) : M unit :=
  fun self => Outcome (inr tt) self [o].

Definition set_current_chat (c : option pystr) : M unit :=
  fun self =>
    Outcome (inr tt)
      (Build (username self) (port self) (running self) (peers self) c) [].

Definition set_peers (d : pydict peer) : M unit :=
  fun self =>
    Outcome (inr tt)
      (Build (username self) (port self) (running self) d (current_chat self))
      [].

Declare Scope chat_scope.
Delimit Scope chat_scope with chat.
Notation "x <- m ;; k" := (bind m (fun x => k))
  (at level 61, m at next level, right associativity) : chat_scope.
Notation "m ;; k" := (bind m (fun _ => k))
  (at level 61, right associativity) : chat_scope.
Local Open Scope chat_scope.

(** [d[key]] *)
Definition subscript {V} (d : pydict V) (key : pystr) : M V :=
  match PyDict.get key d with
  | Some v => ret v
  | None => raise (KeyError key)
  end.

(** Truth value of [self.current_chat] and of [from_ip]. *)
Definition is_set (c : option pystr) : bool :=
  match c with
  | Some s => PyStr.truthy s
  | None => false
  end.

(** ** [list_peers] (lines 357-366) *)

(** One second, in the unit of the clock. *)
Definition SECOND : Z := 1000000000.

Definition SIXTY_SECONDS : Z := 60 * SECOND.

(** ["Active" if time.time() - info['last_seen'] < 60 else "Inactive"] *)
Definition status (now : Z) (info : peer) : liveness :=
  if now - last_seen info <? SIXTY_SECONDS then Active else Inactive.

Fixpoint for_each {A} (l : list A) (body : A -> M unit) : M unit :=
  match l with
  | [] => ret tt
  | x :: l' => body x ;; for_each l' body
  end.

Definition list_peers (now : Z) : M unit :=
  emit PrintPeersHeader ;;
  self <- get_self ;;
  match peers self with
  | [] => emit PrintNoPeers
  | _ :: _ =>
    for_each (peers self)
      (fun item => emit (PrintPeer (peer_username (snd item)) (fst item)
                           (status now (snd item))))
  end ;;
  emit PrintBlank.

Definition show_help : M unit := emit PrintHelp.

(** ** [handle_command] (lines 140-162) *)

Definition handle_command (now : Z) (command : pystr) (from_ip : option pystr)
  : M unit :=
  if startswith (lit "/msg ") command then
    let target := strip (slice_from 5 command) in
    self <- get_self ;;
    if PyDict.mem target (peers self) then
      set_current_chat (Some target) ;;
      info <- subscript (peers self) target ;;
      emit (PrintNowChatting (peer_username info) target)
    else
      emit (PrintUserNotFound target)
  else if PyStr.eqb command (lit "/list") then
    list_peers now
  else if PyStr.eqb command (lit "/quit") && is_set from_ip then
    self <- get_self ;;
    match current_chat self with
    | Some partner =>
      if PyStr.truthy partner then
        info <- subscript (peers self) partner ;;
        emit (PrintLeftChat (peer_username info)) ;;
        set_current_chat None
      else ret tt
    | None => ret tt
    end
  else if PyStr.eqb command (lit "/help") then
    show_help
  else ret tt.

(** ** [handle_file_offer] (lines 328-347) *)

(** [file_hash[:16]]: defined on strings and lists.  Every other JSON
    value raises: [TypeError], which is what the model says, except for
    an object on Python 3.12 and later, where the exception is a
    [KeyError]. *)
Definition first16 (v : json) : M json :=
  match v with
  | JStr s => ret (JStr (slice_to 16 s))
  | JArr l => ret (JArr (firstn 16 l))
  | _ => raise TypeError
  end.

(** [input(prompt)]: [stdin] is the line read, [None] at end of file. *)
Definition input (stdin : option pystr) : M pystr :=
  emit PromptAccept ;;
  match stdin with
  | Some line => ret line
  | None => raise EOFError
  end.

(** [response.lower() == 'y'] *)
Definition says_yes (response : pystr) : bool :=
  PyStr.eqb response (lit "y") || PyStr.eqb response (lit "Y").

Definition handle_file_offer (stdin : option pystr) (offer : pydict json)
    (from_ip : pystr) : M unit :=
  filename <- subscript offer (lit "filename") ;;
  file_size <- subscript offer (lit "size") ;;
  file_hash <- subscript offer (lit "hash") ;;
  sender <- subscript offer (lit "from_username") ;;
  emit (PrintFileOfferFrom sender from_ip) ;;
  emit (PrintFilename filename) ;;
  emit (PrintSize file_size) ;;
  prefix <- first16 file_hash ;;
  emit (PrintHash prefix) ;;
  response <- input stdin ;;
  if says_yes response then
    emit PrintTransferStarting ;;
    emit PrintNotImplemented
  else
    emit PrintFileRejected.

(** ** [handle_message] (lines 82-138) *)

(** [message.get('type', 'message')] *)
Definition type_of (d : pydict json) : json :=
  match PyDict.get (lit "type") d with
  | Some v => v
  | None => JStr (lit "message")
  end.

(** [message.get]: only a [dict] has the method. *)
Definition as_dict (message : json) : M (pydict json) :=
  match message with
  | JObj d => ret d
  | _ => raise AttributeError
  end.

(** [message.get('to_username') == self.username] *)
Definition addressed_to (d : pydict json) (name : pystr) : bool :=
  match PyDict.get (lit "to_username") d with
  | Some v => eq_str v name
  | None => false
  end.

(** [message['text'].startswith('/')]: only a [str] has the method. *)
Definition as_text (v : json) : M pystr :=
  match v with
  | JStr s => ret s
  | _ => raise AttributeError
  end.

(** [json.loads(data.decode())] *)
Definition load (data : bytes) : M json :=
  match decode data with
  | inr v => ret v
  | inl NotUtf8 => raise UnicodeDecodeError
  | inl NotJson => raise JSONDecodeError
  end.

(** The body of the [try] statement. *)
Definition dispatch (now : Z) (stdin : option pystr) (data : bytes)
    (addr : address) : M unit :=
  message <- load data ;;
  d <- as_dict message ;;
  let msg_type := type_of d in
  let from_ip := fst addr in
  if eq_str msg_type (lit "presence") then
    name <- subscript d (lit "username") ;;
    self <- get_self ;;
    set_peers (PyDict.set from_ip (Peer name now) (peers self))
  else if eq_str msg_type (lit "message") then
    self <- get_self ;;
    if addressed_to d (username self) then
      sender <- subscript d (lit "from_username") ;;
      body <- subscript d (lit "text") ;;
      text <- as_text body ;;
      (if startswith (lit "/") text
       then handle_command now text (Some from_ip)
       else emit (PrintChat sender from_ip text)) ;;
      self' <- get_self ;;
      if negb (is_set (current_chat self'))
      then set_current_chat (Some from_ip)
      else ret tt
    else ret tt
  else if eq_str msg_type (lit "typing") then
    self <- get_self ;;
    if addressed_to d (username self) then
      sender <- subscript d (lit "from_username") ;;
      emit (PrintTyping sender)
    else ret tt
  else if eq_str msg_type (lit "read_receipt") then
    self <- get_self ;;
    if addressed_to d (username self) then
      sender <- subscript d (lit "from_username") ;;
      emit (PrintReadReceipt sender)
    else ret tt
  else if eq_str msg_type (lit "file_offer") then
    self <- get_self ;;
    if addressed_to d (username self) then
      handle_file_offer stdin d from_ip
    else ret tt
  else if eq_str msg_type (lit "disconnect") then
    self <- get_self ;;
    if PyDict.mem from_ip (peers self) then
      info <- subscript (peers self) from_ip ;;
      emit (PrintDisconnected (peer_username info) from_ip) ;;
      (match current_chat self with
       | Some partner =>
         if PyStr.eqb partner from_ip then set_current_chat None else ret tt
       | None => ret tt
       end) ;;
      self' <- get_self ;;
      set_peers (PyDict.del from_ip (peers self'))
    else ret tt
  else ret tt.

Definition handle_message (now : Z) (stdin : option pystr) (data : bytes)
    (addr : address) : M unit :=
  catch (dispatch now stdin data addr)
    (fun e =>
       match e with
       | JSONDecodeError => emit (PrintInvalidMessage (fst addr))
       | _ => emit (PrintHandlerError e)
       end).

(** ** Sending (lines 241-326) *)

(** [self.socket.sendto(payload, dest)]: [up] tells whether the network
    takes the datagram; if not the call raises [OSError]. *)
Definition sendto (up : bool) (payload : bytes) (dest : address) : M unit :=
  if up then emit (Sent payload dest) else raise OSError.

(** [json.dumps(message).encode()] *)
Definition serialise (m : Message) : M bytes :=
  match encode m with
  | Some data => ret data
  | None => raise UnicodeEncodeError
  end.

Definition send_message (up : bool) (now : Z) (text peer_ip peer_username : pystr)
    (peer_port : Z) : M unit :=
  self <- get_self ;;
  let message := Chat (username self) peer_username text now in
  catch (payload <- serialise message ;;
         sendto up payload (peer_ip, peer_port) ;;
         emit (PrintYou text))
    (fun e => emit (PrintSendFailed e)).

Definition send_typing (up : bool) (now : Z) (peer_ip peer_username : pystr)
    (peer_port : Z) : M unit :=
  self <- get_self ;;
  let message := Typing (username self) peer_username now in
  catch (payload <- serialise message ;;
         sendto up payload (peer_ip, peer_port))
    (fun _ => ret tt).

Definition send_presence (up : bool) (now : Z) (peer_ip : pystr) (peer_port : Z)
  : M unit :=
  self <- get_self ;;
  let message := Presence (username self) now in
  catch (payload <- serialise message ;;
         sendto up payload (peer_ip, peer_port))
    (fun _ => ret tt).

Definition send_disconnect (up : bool) (now : Z) (peer_ip : pystr)
    (peer_port : Z) : M unit :=
  self <- get_self ;;
  let message := Disconnect (username self) now in
  catch (payload <- serialise message ;;
         sendto up payload (peer_ip, peer_port))
    (fun _ => ret tt).

(** What a path names.  A regular file comes with its size and with the
    SHA-256 digest of its content in hexadecimal (line 355); [hashlib] is
    not modelled. *)
Inductive node : Type :=
| RegularFile (size : N) (sha256_hex : pystr)
| Directory (size : N).

(** The file system: [None] where [os.path.exists] is false. *)
Definition filesystem : Type := pystr -> option node.

(** [os.path.getsize] *)
Definition getsize (n : node) : N :=
  match n with
  | RegularFile size _ => size
  | Directory size => size
  end.

(** [calculate_file_hash] (lines 349-355): [open] fails on a directory. *)
Definition calculate_file_hash (n : node) : M pystr :=
  match n with
  | RegularFile _ digest => ret digest
  | Directory _ => raise OSError
  end.

Definition send_file_offer (up : bool) (fs : filesystem) (now : Z)
    (filename peer_ip peer_username : pystr) (peer_port : Z) : M unit :=
  match fs filename with
  | None => emit (PrintFileNotFound filename)
  | Some n =>
    let file_size := getsize n in
    file_hash <- calculate_file_hash n ;;
    self <- get_self ;;
    let message :=
      FileOffer (username self) peer_username (basename filename) file_size
        file_hash now in
    catch (payload <- serialise message ;;
           sendto up payload (peer_ip, peer_port) ;;
           emit (PrintFileOfferSent (basename filename) file_size) ;;
           emit PrintWaiting)
      (fun e => emit (PrintOfferFailed e))
  end.

(** ** [discover_peers] (lines 368-404) *)

(** What one call of [recvfrom] gives. *)
Inductive received : Type :=
| RecvTimeout                                  (* socket.timeout *)
| RecvFailed                                   (* another exception *)
| Datagram (data : bytes) (addr : address).

(** One turn of the [while] loop as the environment drives it: the clock
    at the loop test, what [recvfrom] gives, what [get_local_ip()]
    answers and the clock at line 397. *)
Record tick : Type := Tick {
  reading : Z;
  recv : received;
  local_ip : pystr;
  stamp : Z
}.

Definition recvfrom (r : received) : M (bytes * address) :=
  match r with
  | RecvTimeout => raise SocketTimeout
  | RecvFailed => raise OSError
  | Datagram data addr => ret (data, addr)
  end.

(** The body of the loop (lines 390-402). *)
Definition discover_step (t : tick) : M unit :=
  catch (packet <- recvfrom (recv t) ;;
         let addr := snd packet in
         message <- load (fst packet) ;;
         d <- as_dict message ;;
         if match PyDict.get (lit "type") d with
            | Some v => eq_str v (lit "presence")
            | None => false
            end
            && negb (PyStr.eqb (fst addr) (local_ip t))
         then
           name <- subscript d (lit "username") ;;
           self <- get_self ;;
           set_peers (PyDict.set (fst addr) (Peer name (stamp t)) (peers self))
         else ret tt)
    (fun _ => ret tt).

(** [while time.time() - start_time < timeout].  The result tells whether
    the loop was left: [false] means that the given turns all fall
    inside the window, so that the run goes on beyond them. *)
Fixpoint discover_loop (start_time timeout : Z) (ticks : list tick) : M bool :=
  match ticks with
  | [] => ret false
  | t :: ticks' =>
    if reading t - start_time <? timeout
    then discover_step t ;; discover_loop start_time timeout ticks'
    else ret true
  end.

Definition BROADCAST : pystr := lit "255.255.255.255".

(** [discover_peers(timeout)], [timeout] in seconds.  [sent_at],
    [start_time] and [listed_at] are the readings of the clock at lines
    379, 386 and 364. *)
Definition discover_peers (up : bool) (sent_at start_time listed_at : Z)
    (ticks : list tick) (timeout : Z) : M bool :=
  emit PrintDiscovering ;;
  self <- get_self ;;
  payload <- serialise (Presence (username self) sent_at) ;;
  sendto up payload (BROADCAST, port self) ;;
  set_peers [] ;;
  left <- discover_loop start_time (timeout * SECOND) ticks ;;
  if left then list_peers listed_at ;; ret true else ret false.

End Chat.

(* ===================================================================== *)
(** * The codec: what [loads] reads back from [dumps] *)
(* ===================================================================== *)

Module JsonFacts.

Local Open Scope N_scope.

#[local] Arguments N.add : simpl never.
#[local] Arguments N.sub : simpl never.
#[local] Arguments N.mul : simpl never.
#[local] Arguments N.div : simpl never.
#[local] Arguments N.modulo : simpl never.
#[local] Arguments N.lor : simpl never.
#[local] Arguments N.land : simpl never.
#[local] Arguments N.shiftl : simpl never.
#[local] Arguments N.shiftr : simpl never.

(** Decide the comparisons on code points that occur in the goal. *)
Ltac tests :=
  repeat match goal with
         | |- context [N.eqb ?a ?b] =>
           destruct (N.eqb_spec a b); try (exfalso; lia)
         | |- context [N.leb ?a ?b] =>
           destruct (N.leb_spec a b); try (exfalso; lia)
         | |- context [N.ltb ?a ?b] =>
           destruct (N.ltb_spec a b); try (exfalso; lia)
         end;
  cbn [andb orb negb].

(** ** Hexadecimal escapes *)

Lemma hexval_hexdigit (d : N) : d < 16 -> hexval (hexdigit d) = Some d.
Proof.
  intros Hd. unfold hexval, hexdigit, is_digit.
  tests; try (f_equal; lia); exfalso; lia.
Qed.

Lemma decode_hex4_escape (v : N) :
  v < 65536 ->
  decode_hex4 (hexdigit (v / 4096 mod 16)) (hexdigit (v / 256 mod 16))
    (hexdigit (v / 16 mod 16)) (hexdigit (v mod 16)) = Some v.
Proof.
  intros Hv. unfold decode_hex4.
  rewrite !hexval_hexdigit by (apply N.mod_lt; lia).
  f_equal.
  pose proof (N.div_mod v 16 ltac:(lia)).
  pose proof (N.div_mod (v / 16) 16 ltac:(lia)).
  pose proof (N.div_mod (v / 16 / 16) 16 ltac:(lia)).
  replace (v / 256) with (v / 16 / 16) by (rewrite N.Div0.div_div; reflexivity).
  replace (v / 4096) with (v / 16 / 16 / 16)
    by (rewrite !N.Div0.div_div; reflexivity).
  assert (v / 16 / 16 / 16 < 16).
  { rewrite !N.Div0.div_div. apply N.Div0.div_lt_upper_bound. simpl. lia. }
  rewrite (N.mod_small (v / 16 / 16 / 16) 16) by lia.
  lia.
Qed.

Lemma lor_disjoint (a b n : N) : b < 2 ^ n -> N.lor (a * 2 ^ n) b = a * 2 ^ n + b.
Proof.
  intros Hb.
  assert (Hland : N.land (a * 2 ^ n) b = 0).
  { apply N.bits_inj. intros i. rewrite N.land_spec, N.bits_0.
    destruct (N.lt_ge_cases i n) as [Hi|Hi].
    - now rewrite N.mul_pow2_bits_low.
    - destruct (N.eq_dec b 0) as [->|Hb0].
      + now rewrite N.bits_0, andb_false_r.
      + rewrite (N.bits_above_log2 b i), andb_false_r; auto.
        apply N.lt_le_trans with n; auto.
        apply N.log2_lt_pow2; lia. }
  rewrite <- N.lxor_lor by assumption.
  symmetry. now apply N.add_nocarry_lxor.
Qed.

Definition high_of (c : N) : N :=
  N.lor 55296 (N.land (N.shiftr (c - 65536) 10) 1023).

Definition low_of (c : N) : N := N.lor 56320 (N.land (c - 65536) 1023).

Lemma high_of_eq (c : N) :
  65536 <= c < 1114112 -> high_of c = 55296 + (c - 65536) / 1024.
Proof.
  intros Hc. unfold high_of.
  change 1023 with (N.ones 10). rewrite N.land_ones, N.shiftr_div_pow2.
  change (2 ^ 10) with 1024.
  assert ((c - 65536) / 1024 < 1024)
    by (apply N.Div0.div_lt_upper_bound; lia).
  rewrite N.mod_small by assumption.
  change 55296 with (54 * 2 ^ 10). now apply lor_disjoint.
Qed.

Lemma low_of_eq (c : N) : low_of c = 56320 + (c - 65536) mod 1024.
Proof.
  unfold low_of. change 1023 with (N.ones 10). rewrite N.land_ones.
  change (2 ^ 10) with 1024.
  change 56320 with (55 * 2 ^ 10). apply lor_disjoint.
  apply N.mod_lt. discriminate.
Qed.

Lemma join_surrogates_of (c : N) :
  65536 <= c < 1114112 -> join_surrogates (high_of c) (low_of c) = c.
Proof.
  intros Hc. unfold join_surrogates.
  rewrite high_of_eq, low_of_eq by assumption.
  assert (Hcancel : forall a b, a + b - a = b) by (intros; lia).
  rewrite !Hcancel.
  rewrite N.shiftl_mul_pow2, lor_disjoint by (apply N.mod_lt; discriminate).
  change (2 ^ 10) with 1024.
  pose proof (N.div_mod (c - 65536) 1024 ltac:(lia)) as Hdm.
  revert Hdm.
  generalize ((c - 65536) / 1024), ((c - 65536) mod 1024). intros q r Hdm.
  lia.
Qed.

Lemma high_of_range (c : N) :
  65536 <= c < 1114112 -> 55296 <= high_of c <= 56319.
Proof.
  intros Hc. rewrite high_of_eq by assumption.
  assert (Hq : (c - 65536) / 1024 < 1024)
    by (apply N.Div0.div_lt_upper_bound; lia).
  revert Hq. generalize ((c - 65536) / 1024). intros q Hq. lia.
Qed.

Lemma low_of_range (c : N) : 56320 <= low_of c <= 57343.
Proof.
  rewrite low_of_eq.
  pose proof (N.mod_lt (c - 65536) 1024 ltac:(discriminate)) as Hr.
  revert Hr. generalize ((c - 65536) mod 1024). intros r Hr. lia.
Qed.

(** ** Strings *)

Lemma scanstring_plain (c : N) (rest : pystr) :
  32 <= c -> c <> QUOTE -> c <> BACKSLASH ->
  scanstring (c :: rest) = push c (scanstring rest).
Proof.
  unfold QUOTE, BACKSLASH. intros H1 H2 H3. simpl.
  unfold QUOTE, BACKSLASH. tests. reflexivity.
Qed.

Lemma scanstring_short (e ch : N) (rest : pystr) :
  e <> 117 -> unescape e = Some ch ->
  scanstring (BACKSLASH :: e :: rest) = push ch (scanstring rest).
Proof.
  intros He Hu. simpl.
  destruct (N.eqb_spec e 117); [contradiction|]. now rewrite Hu.
Qed.

Lemma scanstring_u (v : N) (rest : pystr) :
  v < 65536 -> is_high_surrogate v = false ->
  scanstring (escape_u v ++ rest) = push v (scanstring rest).
Proof.
  intros Hv Hs. unfold escape_u. simpl.
  rewrite decode_hex4_escape by assumption. now rewrite Hs.
Qed.

Lemma scanstring_pair (hi lo : N) (rest : pystr) :
  hi < 65536 -> lo < 65536 ->
  is_high_surrogate hi = true -> is_low_surrogate lo = true ->
  scanstring (escape_u hi ++ escape_u lo ++ rest)
  = push (join_surrogates hi lo) (scanstring rest).
Proof.
  intros Hhi Hlo Hh Hl. unfold escape_u. simpl.
  rewrite decode_hex4_escape by assumption. rewrite Hh.
  rewrite decode_hex4_escape by assumption. now rewrite Hl.
Qed.

(** One escaped character is read back as that character. *)
Lemma scanstring_escape_char (c : N) (rest : pystr) :
  scalar c ->
  scanstring (escape_char c ++ rest) = push c (scanstring rest).
Proof.
  intros Hc. unfold escape_char, QUOTE, BACKSLASH.
  destruct ((32 <=? c) && (c <=? 126) && negb (c =? 34) && negb (c =? 92))
    eqn:Hplain.
  - apply andb_true_iff in Hplain as [Hplain H92].
    apply andb_true_iff in Hplain as [Hplain H34].
    apply andb_true_iff in Hplain as [H32 H126].
    apply N.leb_le in H32. apply negb_true_iff, N.eqb_neq in H34, H92.
    now apply scanstring_plain.
  - destruct (N.eqb_spec c 92) as [->|N92]; [reflexivity|].
    destruct (N.eqb_spec c 34) as [->|N34]; [reflexivity|].
    destruct (N.eqb_spec c 8) as [->|N8]; [reflexivity|].
    destruct (N.eqb_spec c 12) as [->|N12]; [reflexivity|].
    destruct (N.eqb_spec c 10) as [->|N10]; [reflexivity|].
    destruct (N.eqb_spec c 13) as [->|N13]; [reflexivity|].
    destruct (N.eqb_spec c 9) as [->|N9]; [reflexivity|].
    destruct (N.ltb_spec c 65536) as [Hlt|Hge].
    + apply scanstring_u; auto.
      unfold is_high_surrogate. unfold scalar in Hc. tests; reflexivity.
    + assert (Hr : 65536 <= c < 1114112) by (unfold scalar in Hc; lia).
      fold (high_of c). fold (low_of c).
      pose proof (high_of_range Hr). pose proof (low_of_range c).
      rewrite <- app_assoc, scanstring_pair.
      * now rewrite join_surrogates_of.
      * lia.
      * lia.
      * unfold is_high_surrogate. tests; reflexivity.
      * unfold is_low_surrogate. tests; reflexivity.
Qed.

(** [scanstring] undoes [encode_string]. *)
Lemma scanstring_escape_chars (s rest : pystr) :
  valid_text s ->
  scanstring (escape_chars s ++ QUOTE :: rest) = Some (s, rest).
Proof.
  induction 1 as [|c s Hc _ IH]; [reflexivity|].
  unfold escape_chars in *. cbn [flat_map].
  rewrite <- app_assoc, scanstring_escape_char by assumption.
  now rewrite IH.
Qed.

(** ** Numbers *)

Definition digits (ds : pystr) : Prop := Forall (fun c => is_digit c = true) ds.

(** The text stops a run of digits. *)
Definition stops (rest : pystr) : Prop :=
  match rest with
  | [] => True
  | c :: _ => is_digit c = false
  end.

(** The text cannot continue a number. *)
Definition ends_number (rest : pystr) : Prop :=
  match rest with
  | [] => True
  | c :: _ => is_digit c = false /\ c <> 46 /\ c <> 101 /\ c <> 69
  end.

Lemma ends_number_stops (rest : pystr) : ends_number rest -> stops rest.
Proof. destruct rest; simpl; tauto. Qed.

Lemma span_digits_app (ds rest : pystr) :
  digits ds -> stops rest -> span_digits (ds ++ rest) = (ds, rest).
Proof.
  intros Hds Hrest. induction Hds as [|c ds Hc _ IH]; simpl.
  - destruct rest as [|c rest]; simpl in *; auto. now rewrite Hrest.
  - now rewrite Hc, IH.
Qed.

Lemma digits_uint_chars (u : Decimal.uint) : digits (uint_chars u).
Proof. induction u; simpl; constructor; auto. Qed.

Lemma chars_uint_chars (u : Decimal.uint) : chars_uint (uint_chars u) = u.
Proof.
  unfold chars_uint. induction u; simpl; auto; rewrite IHu; reflexivity.
Qed.

Lemma int_of_digits_repr (n : N) : int_of_digits (repr_nat n) = Z.of_N n.
Proof.
  unfold int_of_digits, repr_nat.
  now rewrite chars_uint_chars, DecimalN.Unsigned.of_to.
Qed.

Lemma nzhead_head (u : Decimal.uint) :
  match Decimal.nzhead u with Decimal.D0 _ => False | _ => True end.
Proof. induction u; simpl; auto. Qed.

(** The decimal writing of a natural number: a single 0, or digits that
    start with one from 1 to 9. *)
Lemma repr_nat_shape (n : N) :
  repr_nat n = [48]
  \/ exists c ds, repr_nat n = c :: ds /\ 49 <= c <= 57 /\ digits ds.
Proof.
  unfold repr_nat. destruct n as [|p].
  - now left.
  - right. simpl.
    assert (Hnorm : Decimal.unorm (Pos.to_uint p) = Pos.to_uint p).
    { rewrite <- DecimalPos.Unsigned.to_of.
      now rewrite DecimalPos.Unsigned.of_to. }
    pose proof (DecimalPos.Unsigned.to_uint_nonzero p) as Hnz.
    pose proof (nzhead_head (Pos.to_uint p)) as Hhead.
    unfold Decimal.unorm in Hnorm.
    destruct (Decimal.nzhead (Pos.to_uint p)) eqn:E;
      try contradiction; rewrite <- Hnorm in *;
      try (exfalso; apply Hnz; reflexivity);
      simpl; eexists; eexists; (split; [reflexivity|]);
      (split; [lia | apply digits_uint_chars]).
Qed.

Lemma match_int_part_repr (n : N) (rest : pystr) :
  stops rest ->
  match_int_part (repr_nat n ++ rest) = Some (repr_nat n, rest).
Proof.
  intros Hrest. destruct (repr_nat_shape n) as [->|(c & ds & -> & Hc & Hds)].
  - reflexivity.
  - cbn [app match_int_part]. unfold is_digit. tests.
    now rewrite span_digits_app.
Qed.

Lemma match_frac_none (rest : pystr) :
  ends_number rest -> match_frac rest = ([], rest).
Proof.
  destruct rest as [|c [|d rest]]; simpl; auto.
  intros (_ & Hc & _). apply N.eqb_neq in Hc. now rewrite Hc.
Qed.

Lemma match_exp_none (rest : pystr) :
  ends_number rest -> match_exp rest = ([], rest).
Proof.
  destruct rest as [|c rest]; simpl; auto.
  intros (_ & _ & H1 & H2). apply N.eqb_neq in H1, H2. now rewrite H1, H2.
Qed.

Lemma match_frac_some (ds rest : pystr) :
  digits ds -> ds <> [] -> stops rest ->
  match_frac (46 :: ds ++ rest) = (46 :: ds, rest).
Proof.
  intros Hds Hne Hrest. destruct Hds as [|d ds Hd Hds]; [congruence|].
  cbn [app match_frac]. rewrite Hd. cbn [N.eqb Pos.eqb andb].
  now rewrite span_digits_app.
Qed.

(** A natural number is read back as that number. *)
Lemma match_unsigned_nat (n : N) (rest : pystr) :
  ends_number rest ->
  match_unsigned [] (repr_nat n ++ rest) = Some (JInt (Z.of_N n), rest).
Proof.
  intros Hrest. unfold match_unsigned.
  rewrite match_int_part_repr by now apply ends_number_stops.
  rewrite match_frac_none, match_exp_none by assumption.
  now rewrite int_of_digits_repr.
Qed.

Lemma repr_nat_head (n : N) (rest : pystr) :
  exists c r, repr_nat n ++ rest = c :: r /\ is_digit c = true.
Proof.
  destruct (repr_nat_shape n) as [->|(c & ds & -> & Hc & Hds)].
  - now exists 48, rest.
  - exists c, (ds ++ rest). split; auto. unfold is_digit. tests. reflexivity.
Qed.

(** [int.__repr__] is read back by the number matcher. *)
Lemma match_number_int (z : Z) (rest : pystr) :
  ends_number rest ->
  match_number (repr_int z ++ rest) = Some (JInt z, rest).
Proof.
  intros Hrest. unfold repr_int. destruct (Z.ltb_spec z 0) as [Hneg|Hpos].
  - cbn [app match_number N.eqb Pos.eqb]. unfold match_unsigned.
    rewrite match_int_part_repr by now apply ends_number_stops.
    rewrite match_frac_none, match_exp_none by assumption.
    rewrite int_of_digits_repr. do 2 f_equal. f_equal. lia.
  - destruct (repr_nat_head (Z.abs_N z) rest) as (c & r & E & Hc).
    unfold match_number. rewrite E.
    destruct (N.eqb_spec c 45) as [->|_]; [discriminate|].
    rewrite <- E, match_unsigned_nat by assumption.
    do 2 f_equal. f_equal. lia.
Qed.

(** ** Clock readings *)

Lemma digits_pad (k : nat) (r : N) : digits (pad_digits k r).
Proof.
  revert r; induction k as [|k IH]; intros r; simpl.
  - constructor.
  - apply Forall_app; split; [apply IH|]. constructor; [|constructor].
    pose proof (N.mod_lt r 10 ltac:(discriminate)) as Hr.
    revert Hr. generalize (r mod 10). intros m Hm.
    unfold is_digit. tests. reflexivity.
Qed.

Lemma digits_drop_zeros (ds : pystr) : digits ds -> digits (drop_zeros ds).
Proof.
  induction 1 as [|c ds Hc Hds IH]; simpl; [constructor|].
  destruct (c =? 48); auto. now constructor.
Qed.

Lemma digits_frac (r : N) : digits (frac_digits r) /\ frac_digits r <> [].
Proof.
  unfold frac_digits.
  assert (H : digits (List.rev (drop_zeros (List.rev (pad_digits 9 r))))).
  { apply Forall_rev, digits_drop_zeros, Forall_rev, digits_pad. }
  destruct (List.rev (drop_zeros (List.rev (pad_digits 9 r)))).
  - split; [repeat constructor | discriminate].
  - split; [assumption | discriminate].
Qed.

Lemma match_unsigned_decimal (sign : pystr) (n : N) (frac rest : pystr) :
  digits frac -> frac <> [] -> ends_number rest ->
  match_unsigned sign (repr_nat n ++ 46 :: frac ++ rest)
  = Some (JFloat (sign ++ repr_nat n ++ 46 :: frac), rest).
Proof.
  intros Hfrac Hne Hrest. unfold match_unsigned.
  rewrite match_int_part_repr by reflexivity.
  rewrite match_frac_some by (auto using ends_number_stops).
  rewrite match_exp_none by assumption.
  now rewrite app_nil_r.
Qed.

(** The literal of a clock reading is read back as that literal. *)
Lemma match_number_time (t : Z) (rest : pystr) :
  ends_number rest ->
  match_number (repr_time t ++ rest) = Some (JFloat (repr_time t), rest).
Proof.
  intros Hrest. unfold repr_time.
  destruct (digits_frac (Z.abs_N t mod 1000000000)) as [Hd Hne].
  destruct (t <? 0)%Z.
  - cbn [app match_number N.eqb Pos.eqb].
    rewrite <- !app_assoc. cbn [app].
    now rewrite match_unsigned_decimal.
  - cbn [app]. rewrite <- !app_assoc. cbn [app].
    destruct (repr_nat_head (Z.abs_N t / 1000000000)
                (46 :: frac_digits (Z.abs_N t mod 1000000000) ++ rest))
      as (c & r & E & Hc).
    unfold match_number. rewrite E.
    destruct (N.eqb_spec c 45) as [->|_]; [discriminate|].
    rewrite <- E. now rewrite match_unsigned_decimal.
Qed.

(** ** Everything written is ASCII *)

Lemma ascii_hexdigit (d : N) : d < 16 -> hexdigit d < 128.
Proof. intros Hd. unfold hexdigit. tests; lia. Qed.

Lemma ascii_escape_u (v : N) : ascii_only (escape_u v).
Proof.
  unfold escape_u, BACKSLASH.
  repeat constructor; apply ascii_hexdigit; apply N.mod_lt; discriminate.
Qed.

Lemma ascii_escape_char (c : N) : ascii_only (escape_char c).
Proof.
  unfold escape_char, QUOTE, BACKSLASH.
  destruct ((32 <=? c) && (c <=? 126) && negb (c =? 34) && negb (c =? 92))
    eqn:Hplain.
  - apply andb_true_iff in Hplain as [Hplain _].
    apply andb_true_iff in Hplain as [Hplain _].
    apply andb_true_iff in Hplain as [_ H126]. apply N.leb_le in H126.
    repeat constructor. lia.
  - repeat match goal with
           | |- context [if ?b then _ else _] => destruct b
           end;
      try (repeat constructor; lia);
      try apply ascii_only_app; apply ascii_escape_u.
Qed.

Lemma ascii_encode_string (s : pystr) : ascii_only (encode_string s).
Proof.
  unfold encode_string, QUOTE. constructor; [lia|].
  apply ascii_only_app; [|repeat constructor; lia].
  unfold escape_chars. induction s as [|c s IH]; simpl; [constructor|].
  apply ascii_only_app; auto using ascii_escape_char.
Qed.

Lemma ascii_digits (ds : pystr) : digits ds -> ascii_only ds.
Proof.
  induction 1 as [|c ds Hc _ IH]; constructor; auto.
  unfold is_digit in Hc. apply andb_true_iff in Hc as [_ Hc].
  apply N.leb_le in Hc. lia.
Qed.

Lemma ascii_repr_nat (n : N) : ascii_only (repr_nat n).
Proof. apply ascii_digits, digits_uint_chars. Qed.

Lemma ascii_repr_int (z : Z) : ascii_only (repr_int z).
Proof.
  unfold repr_int. destruct (z <? 0)%Z; [constructor; [lia|]|];
    apply ascii_repr_nat.
Qed.

Lemma ascii_repr_time (t : Z) : ascii_only (repr_time t).
Proof.
  unfold repr_time. repeat apply ascii_only_app.
  - destruct (t <? 0)%Z; repeat constructor; lia.
  - apply ascii_repr_nat.
  - repeat constructor; lia.
  - apply ascii_digits, digits_frac.
Qed.

(** ** Values without nesting *)

(** The values the program puts in a message: strings, integers, clock
    readings (and the constants). *)
Inductive atom : json -> Prop :=
| atom_null : atom JNull
| atom_bool (b : bool) : atom (JBool b)
| atom_int (z : Z) : atom (JInt z)
| atom_time (t : Z) : atom (JFloat (repr_time t))
| atom_str (s : pystr) : valid_text s -> atom (JStr s).

(** Whenever the number matcher accepts, the scanner reaches it. *)
Lemma scan_once_number (f : nat) (s rest : pystr) (v : json) :
  match_number s = Some (v, rest) -> scan_once (S f) s = Scanned v rest.
Proof.
  destruct s as [|c r]; [discriminate|]. intros H.
  assert (Hhead : is_digit c = true
                  \/ (c = 45 /\ exists d r', r = d :: r' /\ is_digit d = true)).
  { unfold match_number in H. destruct (N.eqb_spec c 45) as [->|Hc].
    - right. split; auto. unfold match_unsigned, match_int_part in H.
      destruct r as [|d r']; [discriminate|]. exists d, r'. split; auto.
      destruct (N.eqb_spec d 48) as [->|_]; [reflexivity|].
      destruct (is_digit d); [reflexivity|discriminate].
    - left. unfold match_unsigned, match_int_part in H.
      destruct (N.eqb_spec c 48) as [->|_]; [reflexivity|].
      destruct (is_digit c); [reflexivity|discriminate]. }
  cbn [scan_once]. unfold of_option. rewrite H.
  destruct Hhead as [Hd|(-> & d & r' & -> & Hd)].
  - unfold is_digit in Hd. apply andb_true_iff in Hd as [H1 H2].
    apply N.leb_le in H1, H2. unfold QUOTE. tests. reflexivity.
  - unfold is_digit in Hd. apply andb_true_iff in Hd as [H1 H2].
    apply N.leb_le in H1, H2.
    unfold QUOTE. change (lit "Infinity") with (73 :: lit "nfinity").
    cbn [startswith]. tests. reflexivity.
Qed.

Lemma scan_once_atom (f : nat) (v : json) (rest : pystr) :
  atom v -> ends_number rest ->
  scan_once (S f) (dumps v ++ rest) = Scanned v rest.
Proof.
  intros Hv Hrest. destruct Hv as [|[|]|z|t|s Hs].
  - reflexivity.
  - reflexivity.
  - reflexivity.
  - apply scan_once_number. now apply match_number_int.
  - apply scan_once_number. now apply match_number_time.
  - cbn [dumps encode_string app scan_once].
    rewrite N.eqb_refl, <- app_assoc. cbn [app].
    now rewrite scanstring_escape_chars.
Qed.

Lemma skip_ws_head (c : N) (r : pystr) :
  is_ws c = false -> skip_ws (c :: r) = c :: r.
Proof. intros H. simpl. now rewrite H. Qed.

(** A written atom starts with a character that is not white space. *)
Lemma dumps_atom_head (v : json) (rest : pystr) :
  atom v -> exists c r, dumps v ++ rest = c :: r /\ is_ws c = false.
Proof.
  intros Hv. destruct Hv as [|[|]|z|t|s Hs];
    try (eexists; eexists; split; [reflexivity|reflexivity]).
  - unfold dumps, repr_int. destruct (z <? 0)%Z.
    + eexists; eexists; split; reflexivity.
    + destruct (repr_nat_head (Z.abs_N z) rest) as (c & r & E & Hc).
      exists c, r. split; auto. unfold is_digit in Hc.
      apply andb_true_iff in Hc as [H1 H2]. apply N.leb_le in H1, H2.
      unfold is_ws. tests. reflexivity.
  - unfold dumps, repr_time. destruct (t <? 0)%Z.
    + eexists; eexists; split; reflexivity.
    + cbn [app]. rewrite <- app_assoc.
      destruct (repr_nat_head (Z.abs_N t / 1000000000)
                  (([46] ++ frac_digits (Z.abs_N t mod 1000000000)) ++ rest))
        as (c & r & E & Hc).
      exists c, r. split; auto. unfold is_digit in Hc.
      apply andb_true_iff in Hc as [H1 H2]. apply N.leb_le in H1, H2.
      unfold is_ws. tests. reflexivity.
Qed.

Lemma skip_ws_atom (v : json) (rest : pystr) :
  atom v -> skip_ws (dumps v ++ rest) = dumps v ++ rest.
Proof.
  intros Hv. destruct (dumps_atom_head rest Hv) as (c & r & E & Hc).
  rewrite E. now apply skip_ws_head.
Qed.

(** ** Objects without nesting *)

Definition member_text (kv : pystr * json) : pystr :=
  encode_string (fst kv) ++ lit ": " ++ dumps (snd kv).

Definition members_text (kvs : list (pystr * json)) : pystr :=
  join (lit ", ") (List.map member_text kvs).

Definition flat (kvs : list (pystr * json)) : Prop :=
  Forall (fun kv => valid_text (fst kv) /\ atom (snd kv)) kvs.

Lemma dumps_object (kvs : list (pystr * json)) :
  dumps (JObj kvs) = 123 :: members_text kvs ++ [125].
Proof. reflexivity. Qed.

Lemma members_text_cons (kv : pystr * json) (kvs : list (pystr * json)) :
  kvs <> [] ->
  members_text (kv :: kvs) = member_text kv ++ 44 :: 32 :: members_text kvs.
Proof. destruct kvs; [congruence|]. reflexivity. Qed.

Lemma members_text_head (kvs : list (pystr * json)) :
  kvs <> [] -> exists r, members_text kvs = QUOTE :: r.
Proof.
  destruct kvs as [|kv [|kv' kvs]]; [congruence| |]; intros _;
    eexists; reflexivity.
Qed.

(** One member, up to the delimiter that follows it. *)
Lemma scan_members_member (f : nat) (acc : list (pystr * json)) (k : pystr)
    (v : json) (tail : pystr) :
  valid_text k -> atom v -> ends_number tail ->
  scan_members (S (S f)) acc (member_text (k, v) ++ tail)
  = match skip_ws tail with
    | c :: r =>
      if c =? 125 then Scanned (JObj (of_pairs (acc ++ [(k, v)]))) r
      else if c =? 44
           then scan_members (S f) (acc ++ [(k, v)]) (skip_ws r)
           else DecodeError
    | [] => DecodeError
    end.
Proof.
  intros Hk Hv Htail.
  assert (Htext : member_text (k, v) ++ tail
                  = QUOTE :: escape_chars k
                      ++ QUOTE :: 58 :: 32 :: dumps v ++ tail).
  { unfold member_text, encode_string. cbn [fst snd].
    change (lit ": ") with [58; 32].
    cbn [app]. rewrite <- !app_assoc. reflexivity. }
  rewrite Htext. cbn [scan_members]. rewrite N.eqb_refl.
  rewrite scanstring_escape_chars by assumption.
  cbn [skip_ws is_ws N.eqb Pos.eqb orb].
  rewrite skip_ws_atom by assumption.
  rewrite scan_once_atom by assumption.
  reflexivity.
Qed.

Lemma scan_members_flat (kvs : list (pystr * json)) :
  flat kvs -> kvs <> [] ->
  forall (f : nat) (acc : list (pystr * json)) (rest : pystr),
    (List.length kvs < f)%nat ->
    scan_members f acc (members_text kvs ++ 125 :: rest)
    = Scanned (JObj (of_pairs (acc ++ kvs))) rest.
Proof.
  induction 1 as [|[k v] kvs [Hk Hv] Hkvs IH]; [congruence|].
  intros _ f acc rest Hf. cbn [fst snd] in Hk, Hv.
  destruct f as [|[|f]]; [simpl in Hf; lia | simpl in Hf; lia |].
  destruct kvs as [|kv' kvs].
  - (* the last member *)
    unfold members_text. cbn [List.map join].
    rewrite scan_members_member by (auto; repeat split; discriminate).
    reflexivity.
  - (* a member followed by others *)
    rewrite members_text_cons by discriminate.
    rewrite <- app_assoc. cbn [app].
    rewrite scan_members_member by (auto; repeat split; discriminate).
    cbn [skip_ws is_ws N.eqb Pos.eqb orb].
    destruct (members_text_head (kvs := kv' :: kvs) ltac:(discriminate))
      as (r & Hr).
    rewrite Hr. cbn [app]. rewrite skip_ws_head by reflexivity.
    rewrite app_comm_cons, <- Hr.
    rewrite IH by (simpl in *; try discriminate; lia).
    now rewrite <- app_assoc.
Qed.

Lemma length_members_text (kvs : list (pystr * json)) :
  (List.length kvs <= List.length (members_text kvs))%nat.
Proof.
  induction kvs as [|kv kvs IH]; [simpl; lia|].
  destruct kvs as [|kv' kvs].
  - unfold members_text, member_text, encode_string. simpl. lia.
  - rewrite members_text_cons by discriminate.
    rewrite length_app. simpl List.length at 1 3. simpl in IH |- *. lia.
Qed.

(** [loads] reads back an object of atoms with distinct keys. *)
Theorem loads_dumps_flat (kvs : list (pystr * json)) :
  flat kvs -> kvs <> [] -> NoDup (keys kvs) ->
  loads (dumps (JObj kvs)) = Some (JObj kvs).
Proof.
  intros Hflat Hne Hnd. rewrite dumps_object. unfold loads.
  rewrite skip_ws_head by reflexivity.
  unfold fuel_for. rewrite Nat.add_1_r.
  remember (Nat.mul 2 (List.length (123 :: members_text kvs ++ [125])))
    as F eqn:HF.
  assert (Hfuel : (List.length kvs < F)%nat).
  { pose proof (length_members_text kvs) as Hlen.
    cbn [List.length] in HF. rewrite length_app in HF. lia. }
  clear HF. cbn [scan_once]. cbn [N.eqb Pos.eqb QUOTE].
  destruct (members_text_head Hne) as (r & Hr).
  rewrite Hr. cbn [app]. rewrite skip_ws_head by reflexivity.
  cbn [QUOTE N.eqb Pos.eqb].
  rewrite app_comm_cons. change 34 with QUOTE. rewrite <- Hr.
  rewrite scan_members_flat by auto.
  cbn [skip_ws app]. now rewrite of_pairs_nodup.
Qed.

(** A value without nesting is written in ASCII, whatever its
    characters. *)
Definition plain (v : json) : Prop :=
  match v with
  | JArr _ | JObj _ => False
  | JFloat l => ascii_only l
  | _ => True
  end.

Lemma plain_atom (v : json) : atom v -> plain v.
Proof. intros [|b|z|t|s Hs]; simpl; auto. apply ascii_repr_time. Qed.

Lemma ascii_plain (v : json) : plain v -> ascii_only (dumps v).
Proof.
  destruct v as [|[|]|z|l|s|l|kvs]; cbn [dumps plain]; intros Hv;
    try contradiction; try (repeat constructor; lia); auto.
  - apply ascii_repr_int.
  - apply ascii_encode_string.
Qed.

Lemma ascii_members_text (kvs : list (pystr * json)) :
  Forall (fun kv => plain (snd kv)) kvs -> ascii_only (members_text kvs).
Proof.
  induction 1 as [|[k v] kvs Hv Hkvs IH]; [constructor|].
  assert (Hm : ascii_only (member_text (k, v))).
  { unfold member_text. repeat apply ascii_only_app.
    - apply ascii_encode_string.
    - repeat constructor; lia.
    - now apply ascii_plain. }
  destruct kvs as [|kv' kvs]; [exact Hm|].
  rewrite members_text_cons by discriminate.
  apply ascii_only_app; auto. repeat constructor; try lia. exact IH.
Qed.

Lemma ascii_dumps_object (kvs : list (pystr * json)) :
  Forall (fun kv => plain (snd kv)) kvs -> ascii_only (dumps (JObj kvs)).
Proof.
  intros H. rewrite dumps_object. constructor; [lia|].
  apply ascii_only_app; [now apply ascii_members_text|].
  repeat constructor; lia.
Qed.

(** Encoding such an object always succeeds, and the bytes hold its
    text. *)
Lemma encode_json_object (kvs : list (pystr * json)) :
  Forall (fun kv => plain (snd kv)) kvs ->
  exists data, encode_json (JObj kvs) = Some data
               /\ bytes_decode data = Some (dumps (JObj kvs)).
Proof. intros H. apply encode_decode_ascii. now apply ascii_dumps_object. Qed.

Lemma flat_plain (kvs : list (pystr * json)) :
  flat kvs -> Forall (fun kv => plain (snd kv)) kvs.
Proof.
  intros H. eapply Forall_impl; [|exact H].
  intros kv [_ Hv]. now apply plain_atom.
Qed.

(** The bytes written for such an object decode to it. *)
Theorem decode_encode_flat (kvs : list (pystr * json)) :
  flat kvs -> kvs <> [] -> NoDup (keys kvs) ->
  exists data, encode_json (JObj kvs) = Some data
               /\ decode data = inr (JObj kvs).
Proof.
  intros Hflat Hne Hnd.
  destruct (encode_json_object (flat_plain Hflat)) as (data & He & Hd).
  exists data. split; [exact He|].
  unfold decode. now rewrite Hd, loads_dumps_flat.
Qed.

(** ** The recursion bound is never reached *)

Lemma length_skip_ws (s : pystr) :
  (List.length (skip_ws s) <= List.length s)%nat.
Proof.
  induction s as [|c s IH]; simpl; [lia|].
  destruct (is_ws c); simpl; lia.
Qed.

(** [scanstring] consumes the closing quote at least. *)
Lemma length_scanstring (s str rest : pystr) :
  scanstring s = Some (str, rest) -> (List.length rest < List.length s)%nat.
Proof.
  remember (List.length s) as n eqn:Hn.
  assert (Hle : (List.length s <= n)%nat) by lia. clear Hn.
  revert s str rest Hle. induction n as [|n IH]; intros s str rest Hle H.
  - destruct s; [discriminate | simpl in Hle; lia].
  - assert (Hrec : forall s', (List.length s' <= n)%nat ->
                     forall c, forall str' rest',
                       push c (scanstring s') = Some (str', rest') ->
                       (List.length rest' < S n)%nat).
    { intros s' Hs' c str' rest' Hp.
      destruct (scanstring s') as [[str'' rest'']|] eqn:E; [|discriminate].
      cbn [push] in Hp. injection Hp as _ <-.
      apply IH in E; auto. }
    destruct s as [|c r]; [discriminate|].
    cbn [scanstring] in H. cbn [List.length] in Hle.
    destruct (c =? QUOTE).
    { injection H as _ <-. lia. }
    destruct (c =? BACKSLASH).
    + destruct r as [|e r1]; [discriminate|]. cbn [List.length] in Hle.
      destruct (e =? 117).
      * destruct r1 as [|h1 [|h2 [|h3 [|h4 r2]]]]; try discriminate.
        cbn [List.length] in Hle.
        destruct (decode_hex4 h1 h2 h3 h4) as [uni|]; [|discriminate].
        destruct (is_high_surrogate uni).
        -- destruct r2 as [|b [|u r3]];
             try (apply Hrec in H; [lia | cbn [List.length]; lia]).
           cbn [List.length] in Hle.
           destruct ((b =? BACKSLASH) && (u =? 117)).
           ++ destruct r3 as [|g1 [|g2 [|g3 [|g4 r4]]]]; try discriminate.
              cbn [List.length] in Hle.
              destruct (decode_hex4 g1 g2 g3 g4) as [uni2|]; [|discriminate].
              destruct (is_low_surrogate uni2);
                (apply Hrec in H; [lia | cbn [List.length]; lia]).
           ++ apply Hrec in H; [lia | cbn [List.length]; lia].
        -- apply Hrec in H; [lia | lia].
      * destruct (unescape e) as [ch|]; [|discriminate].
        apply Hrec in H; [lia | lia].
    + destruct (c <=? 31); [discriminate|].
      apply Hrec in H; [lia | lia].
Qed.

Lemma length_span_digits (s ds rest : pystr) :
  span_digits s = (ds, rest) -> (List.length rest <= List.length s)%nat.
Proof.
  revert ds rest. induction s as [|c s IH]; intros ds rest H; simpl in H.
  - injection H as _ <-. simpl. lia.
  - destruct (is_digit c).
    + destruct (span_digits s) as [ds' rest'] eqn:E.
      injection H as _ <-. specialize (IH _ _ eq_refl). simpl. lia.
    + injection H as _ <-. simpl. lia.
Qed.

Lemma length_match_int_part (s ip rest : pystr) :
  match_int_part s = Some (ip, rest) ->
  (List.length rest < List.length s)%nat.
Proof.
  unfold match_int_part. destruct s as [|c r]; [discriminate|].
  destruct (c =? 48).
  - intros [= _ <-]. simpl. lia.
  - destruct (is_digit c); [|discriminate].
    destruct (span_digits r) as [ds r'] eqn:E. intros [= _ <-].
    apply length_span_digits in E. simpl. lia.
Qed.

Lemma length_match_frac (s frac rest : pystr) :
  match_frac s = (frac, rest) -> (List.length rest <= List.length s)%nat.
Proof.
  unfold match_frac. destruct s as [|p [|d r]]; try (intros [= _ <-]; lia).
  destruct ((p =? 46) && is_digit d).
  - destruct (span_digits r) as [ds r'] eqn:E. intros [= _ <-].
    apply length_span_digits in E. simpl. lia.
  - intros [= _ <-]. lia.
Qed.

Lemma length_match_exp (s exp rest : pystr) :
  match_exp s = (exp, rest) -> (List.length rest <= List.length s)%nat.
Proof.
  unfold match_exp. destruct s as [|e r]; [intros [= _ <-]; lia|].
  destruct ((e =? 101) || (e =? 69)); [|intros [= _ <-]; lia].
  destruct (match r with
            | [] => ([], r)
            | c' :: t => if (c' =? 43) || (c' =? 45) then ([c'], t) else ([], r)
            end) as [sg r'] eqn:Hsg.
  assert (Hr' : (List.length r' <= List.length r)%nat).
  { destruct r as [|c' t]; [injection Hsg as _ <-; lia|].
    destruct ((c' =? 43) || (c' =? 45)); injection Hsg as _ <-; simpl; lia. }
  destruct (span_digits r') as [ds r''] eqn:E.
  apply length_span_digits in E.
  destruct ds; intros [= _ <-]; simpl; lia.
Qed.

Lemma length_match_number (s rest : pystr) (v : json) :
  match_number s = Some (v, rest) -> (List.length rest < List.length s)%nat.
Proof.
  assert (Hu : forall sign s', match_unsigned sign s' = Some (v, rest) ->
                 (List.length rest < List.length s')%nat).
  { intros sign s'. unfold match_unsigned.
    destruct (match_int_part s') as [[ip r1]|] eqn:E1; [|discriminate].
    destruct (match_frac r1) as [frac r2] eqn:E2.
    destruct (match_exp r2) as [exp r3] eqn:E3.
    apply length_match_int_part in E1. apply length_match_frac in E2.
    apply length_match_exp in E3.
    destruct frac, exp; intros [= _ <-]; lia. }
  unfold match_number. destruct s as [|c r]; [discriminate|].
  destruct (c =? 45); intros H; apply Hu in H; simpl in *; lia.
Qed.

(** The scanner gave a result, and one that consumed some text. *)
Definition progress (r : scan json) (s : pystr) : Prop :=
  match r with
  | Scanned _ rest => (List.length rest < List.length s)%nat
  | DecodeError => True
  | OutOfFuel => False
  end.

Lemma progress_skipn (v : json) (n : nat) (c : N) (r : pystr) :
  progress (Scanned v (skipn n r)) (c :: r).
Proof.
  cbn [progress List.length]. pose proof (length_skipn n r). lia.
Qed.

Lemma progress_weaken (r : scan json) (s s' : pystr) :
  (List.length s <= List.length s')%nat -> progress r s -> progress r s'.
Proof. destruct r; cbn [progress]; auto. lia. Qed.

Lemma scan_fuel (f : nat) :
  (forall s, (2 * List.length s + 1 <= f)%nat -> progress (scan_once f s) s)
  /\ (forall acc s, (2 * List.length s + 2 <= f)%nat ->
        progress (scan_members f acc s) s)
  /\ (forall acc s, (2 * List.length s + 2 <= f)%nat ->
        progress (scan_items f acc s) s).
Proof.
  induction f as [|f (IHonce & IHmembers & IHitems)].
  - repeat split; intros; lia.
  - split; [|split].
    + (* scan_once *)
      intros s Hf. cbn [scan_once].
      destruct s as [|c r]; [exact I|]. cbn [List.length] in Hf.
      destruct (c =? QUOTE).
      { destruct (scanstring r) as [[str rest]|] eqn:E; [|exact I].
        apply length_scanstring in E. cbn [progress List.length]. lia. }
      destruct (c =? 123).
      { pose proof (length_skip_ws r) as Hws.
        destruct (skip_ws r) as [|c' r'] eqn:E; [exact I|].
        cbn [List.length] in Hws.
        destruct (c' =? 125); [cbn [progress List.length]; lia|].
        apply progress_weaken with (c' :: r'); [cbn [List.length]; lia|].
        apply IHmembers. cbn [List.length]. lia. }
      destruct (c =? 91).
      { pose proof (length_skip_ws r) as Hws.
        destruct (skip_ws r) as [|c' r'] eqn:E; [exact I|].
        cbn [List.length] in Hws.
        destruct (c' =? 93); [cbn [progress List.length]; lia|].
        apply progress_weaken with (c' :: r'); [cbn [List.length]; lia|].
        apply IHitems. cbn [List.length]. lia. }
      repeat match goal with
             | |- context [if ?b then Scanned ?v (skipn ?n r) else _] =>
               destruct b; [apply progress_skipn|]
             end.
      unfold of_option.
      destruct (match_number (c :: r)) as [[v rest]|] eqn:E; [|exact I].
      apply length_match_number in E. exact E.
    + (* scan_members *)
      intros acc s Hf. cbn [scan_members].
      destruct s as [|c r]; [exact I|]. cbn [List.length] in Hf.
      destruct (c =? QUOTE); [|exact I].
      destruct (scanstring r) as [[key r1]|] eqn:Ekey; [|exact I].
      apply length_scanstring in Ekey.
      pose proof (length_skip_ws r1) as Hws1.
      destruct (skip_ws r1) as [|c1 r2]; [exact I|]. cbn [List.length] in Hws1.
      destruct (c1 =? 58); [|exact I].
      pose proof (length_skip_ws r2) as Hws2.
      pose proof (IHonce (skip_ws r2) ltac:(lia)) as Hval.
      destruct (scan_once f (skip_ws r2)) as [v r3| |]; [|exact I|contradiction].
      cbn [progress] in Hval.
      pose proof (length_skip_ws r3) as Hws3.
      destruct (skip_ws r3) as [|c3 r4]; [exact I|]. cbn [List.length] in Hws3.
      destruct (c3 =? 125); [cbn [progress List.length]; lia|].
      destruct (c3 =? 44); [|exact I].
      pose proof (length_skip_ws r4) as Hws4.
      apply progress_weaken with (skip_ws r4); [cbn [List.length]; lia|].
      apply IHmembers. lia.
    + (* scan_items *)
      intros acc s Hf. cbn [scan_items].
      pose proof (IHonce s ltac:(lia)) as Hval.
      destruct (scan_once f s) as [v r1| |]; [|exact I|contradiction].
      cbn [progress] in Hval.
      pose proof (length_skip_ws r1) as Hws1.
      destruct (skip_ws r1) as [|c1 r2]; [exact I|]. cbn [List.length] in Hws1.
      destruct (c1 =? 93); [cbn [progress]; lia|].
      destruct (c1 =? 44); [|exact I].
      pose proof (length_skip_ws r2) as Hws2.
      apply progress_weaken with (skip_ws r2); [lia|].
      apply IHitems. lia.
Qed.

(** With the bound that [loads] gives it the scanner always comes to a
    result: a value or [JSONDecodeError]. *)
Theorem scan_once_fuel (s : pystr) : scan_once (fuel_for s) s <> OutOfFuel.
Proof.
  pose proof (proj1 (scan_fuel (fuel_for s)) s) as H.
  unfold fuel_for in *. specialize (H ltac:(lia)).
  intros E. rewrite E in H. exact H.
Qed.

End JsonFacts.

Import Chat.

(* ===================================================================== *)
(** * The dictionary of a message determines the message *)
(* ===================================================================== *)

Module WireFacts.

Import JsonFacts.

Local Open Scope N_scope.

Lemma repr_nat_inj (n n' : N) : repr_nat n = repr_nat n' -> n = n'.
Proof.
  unfold repr_nat. intros H. apply DecimalN.Unsigned.to_uint_inj.
  rewrite <- (chars_uint_chars (N.to_uint n)), H.
  apply chars_uint_chars.
Qed.

(** A run of digits followed by a point is cut at the point. *)
Lemma split_at_point (a a' f f' : pystr) :
  digits a -> digits a' ->
  a ++ 46 :: f = a' ++ 46 :: f' -> a = a' /\ f = f'.
Proof.
  intros Ha. revert a'. induction Ha as [|c a Hc _ IH]; intros a' Ha' H.
  - destruct Ha' as [|c' a' Hc' _]; cbn [app] in H.
    + injection H as <-. auto.
    + injection H as <- _. discriminate Hc'.
  - destruct Ha' as [|c' a' Hc' Ha']; cbn [app] in H.
    + injection H as -> _. discriminate Hc.
    + injection H as <- H. destruct (IH a' Ha' H) as [<- <-]. auto.
Qed.

(** The number that a run of digits writes. *)
Definition value (ds : pystr) : N :=
  fold_left (fun acc c => acc * 10 + (c - 48)) ds 0.

Lemma value_snoc (ds : pystr) (c : N) :
  value (ds ++ [c]) = value ds * 10 + (c - 48).
Proof. unfold value. now rewrite fold_left_app. Qed.

Lemma value_pad (k : nat) (r : N) :
  value (pad_digits k r) = r mod 10 ^ N.of_nat k.
Proof.
  revert r. induction k as [|k IH]; intros r.
  - cbn [pad_digits]. change (10 ^ N.of_nat 0) with 1. now rewrite N.mod_1_r.
  - cbn [pad_digits]. rewrite value_snoc, IH.
    replace (N.of_nat (S k)) with (N.succ (N.of_nat k)) by lia.
    rewrite N.pow_succ_r', N.Div0.mod_mul_r.
    generalize (r mod 10), ((r / 10) mod 10 ^ N.of_nat k). intros x y. lia.
Qed.

Lemma length_pad (k : nat) (r : N) : List.length (pad_digits k r) = k.
Proof.
  revert r. induction k as [|k IH]; intros r; cbn [pad_digits]; auto.
  rewrite length_app, IH. cbn. lia.
Qed.

Lemma drop_zeros_split (l : pystr) :
  l = repeat 48 (List.length l - List.length (drop_zeros l)) ++ drop_zeros l.
Proof.
  induction l as [|c l IH]; [reflexivity|]. cbn [drop_zeros].
  destruct (N.eqb_spec c 48) as [->|Hc].
  - pose proof (length_skipn 0 l) as _.
    assert (Hle : (List.length (drop_zeros l) <= List.length l)%nat).
    { clear IH. induction l as [|d l IHl]; cbn [drop_zeros]; auto.
      destruct (d =? 48); cbn [List.length]; lia. }
    cbn [List.length].
    replace (S (List.length l) - List.length (drop_zeros l))%nat
      with (S (List.length l - List.length (drop_zeros l))) by lia.
    cbn [repeat app]. now rewrite <- IH.
  - now rewrite Nat.sub_diag.
Qed.

Lemma rev_repeat (c : N) (n : nat) : List.rev (repeat c n) = repeat c n.
Proof.
  induction n as [|n IH]; [reflexivity|].
  cbn [repeat List.rev]. rewrite IH. symmetry. apply repeat_cons.
Qed.

(** The nine places are the digits kept, then zeros. *)
Lemma pad_frac_digits (r : N) :
  pad_digits 9 r
  = frac_digits r ++ repeat 48 (9 - List.length (frac_digits r)).
Proof.
  unfold frac_digits.
  pose proof (drop_zeros_split (List.rev (pad_digits 9 r))) as Hsplit.
  apply (f_equal (@List.rev N)) in Hsplit.
  rewrite rev_involutive, rev_app_distr, rev_repeat in Hsplit.
  pose proof (length_pad 9 r) as Hlen.
  rewrite length_rev in Hsplit.
  remember (List.rev (drop_zeros (List.rev (pad_digits 9 r)))) as ds eqn:Hds.
  assert (Hlds : List.length (drop_zeros (List.rev (pad_digits 9 r)))
                 = List.length ds) by (subst ds; now rewrite length_rev).
  rewrite Hlds, Hlen in Hsplit.
  destruct ds as [|d ds]; exact Hsplit.
Qed.

Lemma frac_digits_inj (r r' : N) :
  r < 1000000000 -> r' < 1000000000 ->
  frac_digits r = frac_digits r' -> r = r'.
Proof.
  intros Hr Hr' H.
  assert (Hpad : pad_digits 9 r = pad_digits 9 r')
    by (now rewrite !pad_frac_digits, H).
  apply (f_equal value) in Hpad. rewrite !value_pad in Hpad.
  change (10 ^ N.of_nat 9) with 1000000000 in Hpad.
  now rewrite !N.mod_small in Hpad.
Qed.

Lemma unsigned_time_inj (a a' : N) :
  repr_nat (a / 1000000000) ++ [46] ++ frac_digits (a mod 1000000000)
  = repr_nat (a' / 1000000000) ++ [46] ++ frac_digits (a' mod 1000000000) ->
  a = a'.
Proof.
  intros H. cbn [app] in H.
  apply split_at_point in H as [Hq Hr]; try apply digits_uint_chars.
  apply repr_nat_inj in Hq.
  apply frac_digits_inj in Hr; try (apply N.mod_lt; discriminate).
  rewrite (N.div_mod a 1000000000), (N.div_mod a' 1000000000) by discriminate.
  now rewrite Hq, Hr.
Qed.

(** Two clock readings with the same literal are equal. *)
Lemma repr_time_inj (t t' : Z) : repr_time t = repr_time t' -> t = t'.
Proof.
  unfold repr_time. intros H.
  destruct (Z.ltb_spec t 0) as [Ht|Ht], (Z.ltb_spec t' 0) as [Ht'|Ht'].
  - cbn [app] in H. injection H as H. apply unsigned_time_inj in H. lia.
  - exfalso.
    destruct (repr_nat_head (Z.abs_N t' / 1000000000)
                ([46] ++ frac_digits (Z.abs_N t' mod 1000000000)))
      as (c & r & E & Hc).
    cbn [app] in H, E. rewrite E in H. injection H as <- _. discriminate Hc.
  - exfalso.
    destruct (repr_nat_head (Z.abs_N t / 1000000000)
                ([46] ++ frac_digits (Z.abs_N t mod 1000000000)))
      as (c & r & E & Hc).
    cbn [app] in H, E. rewrite E in H. injection H as -> _. discriminate Hc.
  - cbn [app] in H. apply unsigned_time_inj in H. lia.
Qed.

(** What the dispatcher reads as the type of a message is its tag. *)
Lemma type_of_to_dict (m : Message) :
  match to_dict m with
  | JObj d => PyDict.get (lit "type") d
  | _ => None
  end = Some (JStr (tag m)).
Proof. destruct m; reflexivity. Qed.

(** Distinct messages have distinct dictionaries: equality of the
    dictionaries is equality of the messages. *)
Theorem to_dict_inj (m m' : Message) : to_dict m = to_dict m' -> m = m'.
Proof.
  intros H.
  assert (Htag : tag m = tag m').
  { pose proof (type_of_to_dict m) as H1.
    pose proof (type_of_to_dict m') as H2.
    rewrite H in H1. congruence. }
  destruct m, m'; try (vm_compute in Htag; discriminate Htag);
    cbn [to_dict] in H; injection H; intros; subst;
    repeat match goal with
           | E : repr_time _ = repr_time _ |- _ =>
             apply repr_time_inj in E; subst
           | E : Z.of_N _ = Z.of_N _ |- _ => apply N2Z.inj in E; subst
           end;
    reflexivity.
Qed.

End WireFacts.

(* ===================================================================== *)
(** * Reasoning about methods *)
(* ===================================================================== *)

Module Logic.

Local Open Scope chat_scope.

(** [I] is an invariant of [m]: it holds where [m] leaves the object,
    whether [m] returns or raises, if it held where [m] started. *)
Definition stable {A} (I : P2PChat -> Prop) (m : M A) : Prop :=
  forall st, I st -> I (final (m st)).

(** [m] looks at nothing and changes nothing: it only returns or
    raises. *)
Definition pure {A} (m : M A) (r : exn + A) : Prop :=
  forall st, m st = Outcome r st [].

(** [m] leaves the object as it found it. *)
Definition silent {A} (m : M A) : Prop := forall st, final (m st) = st.

Section Rules.

Context {A B : Type} (I : P2PChat -> Prop).

Lemma stable_ret (a : A) : stable I (ret a).
Proof. intros st H. exact H. Qed.

Lemma stable_raise (e : exn) : stable I (@raise A e).
Proof. intros st H. exact H. Qed.

Lemma stable_emit (o : output) : stable I (emit o).
Proof. intros st H. exact H. Qed.

Lemma stable_silent (m : M A) : silent m -> stable I m.
Proof. intros Hm st H. now rewrite Hm. Qed.

Lemma stable_bind (m : M A) (k : A -> M B) :
  stable I m -> (forall a, stable I (k a)) -> stable I (bind m k).
Proof.
  intros Hm Hk st H. unfold bind. specialize (Hm st H).
  destruct (result (m st)) as [e|a]; cbn [final]; auto. now apply Hk.
Qed.

(** After [self <- get_self] the invariant is known of [self]. *)
Lemma stable_bind_get (k : P2PChat -> M B) :
  (forall self, I self -> stable I (k self)) -> stable I (bind get_self k).
Proof. intros Hk st H. unfold bind, get_self. cbn. now apply Hk. Qed.

(** After a pure step its result is known. *)
Lemma stable_bind_pure (m : M A) (r : exn + A) (k : A -> M B) :
  pure m r -> (forall a, r = inr a -> stable I (k a)) -> stable I (bind m k).
Proof.
  intros Hm Hk st H. unfold bind. cbv zeta. rewrite !Hm.
  destruct r as [e|a]; cbn [result final]; auto. now apply Hk.
Qed.

Lemma stable_catch (m : M A) (h : exn -> M A) :
  stable I m -> (forall e, stable I (h e)) -> stable I (catch m h).
Proof.
  intros Hm Hh st H. unfold catch. specialize (Hm st H).
  destruct (result (m st)) as [e|a]; cbn [final]; auto. now apply Hh.
Qed.

End Rules.

(** ** The methods that only print *)

Lemma silent_ret {A} (a : A) : silent (ret a).
Proof. intros st. reflexivity. Qed.

Lemma silent_raise {A} (e : exn) : silent (@raise A e).
Proof. intros st. reflexivity. Qed.

Lemma silent_emit (o : output) : silent (emit o).
Proof. intros st. reflexivity. Qed.

Lemma silent_get_self : silent get_self.
Proof. intros st. reflexivity. Qed.

Lemma silent_bind {A B} (m : M A) (k : A -> M B) :
  silent m -> (forall a, silent (k a)) -> silent (bind m k).
Proof.
  intros Hm Hk st. unfold bind.
  destruct (result (m st)) as [e|a]; cbn [final]; auto.
  now rewrite Hk, Hm.
Qed.

Lemma silent_catch {A} (m : M A) (h : exn -> M A) :
  silent m -> (forall e, silent (h e)) -> silent (catch m h).
Proof.
  intros Hm Hh st. unfold catch.
  destruct (result (m st)) as [e|a]; cbn [final]; auto.
  now rewrite Hh, Hm.
Qed.

Lemma silent_pure {A} (m : M A) (r : exn + A) : pure m r -> silent m.
Proof. intros Hm st. now rewrite Hm. Qed.

Lemma pure_subscript {V} (d : pydict V) (key : pystr) :
  pure (subscript d key)
    (match PyDict.get key d with Some v => inr v | None => inl (KeyError key) end).
Proof. intros st. unfold subscript. now destruct (PyDict.get key d). Qed.

Lemma pure_as_dict (message : json) :
  pure (as_dict message)
    (match message with JObj d => inr d | _ => inl AttributeError end).
Proof. intros st. now destruct message. Qed.

Lemma pure_as_text (v : json) :
  pure (as_text v) (match v with JStr s => inr s | _ => inl AttributeError end).
Proof. intros st. now destruct v. Qed.

Lemma pure_first16 (v : json) :
  pure (first16 v)
    (match v with
     | JStr s => inr (JStr (slice_to 16 s))
     | JArr l => inr (JArr (firstn 16 l))
     | _ => inl TypeError
     end).
Proof. intros st. now destruct v. Qed.

Lemma pure_load (data : bytes) :
  pure (load data)
    (match decode data with
     | inr v => inr v
     | inl NotUtf8 => inl UnicodeDecodeError
     | inl NotJson => inl JSONDecodeError
     end).
Proof. intros st. unfold load. now destruct (decode data) as [[|]|v]. Qed.

Lemma pure_recvfrom (r : received) :
  pure (recvfrom r)
    (match r with
     | RecvTimeout => inl SocketTimeout
     | RecvFailed => inl OSError
     | Datagram data addr => inr (data, addr)
     end).
Proof. intros st. now destruct r. Qed.

Lemma silent_for_each {A} (l : list A) (body : A -> M unit) :
  (forall x, silent (body x)) -> silent (for_each l body).
Proof.
  intros Hbody. induction l as [|x l IH]; cbn [for_each].
  - apply silent_ret.
  - apply silent_bind; auto.
Qed.

Lemma silent_list_peers (now : Z) : silent (list_peers now).
Proof.
  unfold list_peers.
  apply silent_bind; [apply silent_emit|intros _].
  apply silent_bind; [apply silent_get_self|intros self].
  apply silent_bind; [|intros _; apply silent_emit].
  destruct (peers self); [apply silent_emit|].
  apply silent_for_each. intros x. apply silent_emit.
Qed.

Lemma silent_input (stdin : option pystr) : silent (input stdin).
Proof.
  unfold input. apply silent_bind; [apply silent_emit|intros _].
  destruct stdin; [apply silent_ret | apply silent_raise].
Qed.

Lemma silent_handle_file_offer (stdin : option pystr) (offer : pydict json)
    (from_ip : pystr) : silent (handle_file_offer stdin offer from_ip).
Proof.
  unfold handle_file_offer.
  repeat first
    [ apply silent_emit
    | apply silent_bind; [|intros ?]
    | eapply silent_pure; apply pure_subscript
    | eapply silent_pure; apply pure_first16
    | apply silent_input
    | match goal with |- silent (if ?b then _ else _) => destruct b end ].
Qed.

End Logic.

Import JsonFacts Logic.

Unset Implicit Arguments.

(* ===================================================================== *)
(** * Datagrams for the examples *)
(* ===================================================================== *)

(** The bytes of a JSON text, written with an apostrophe where the text
    has a double quote. *)
Definition datagram (s : string) : bytes :=
  List.map (fun b => if Byte.eqb b x27 then x22 else b) (list_byte_of_string s).

(** The object the examples run in: user alice, no peer known, no
    conversation. *)
Definition alice : P2PChat := Build (lit "alice") 5000 true [] None.

(* ===================================================================== *)
(** * The codec on messages *)
(* ===================================================================== *)

Fixpoint distinct (l : list pystr) : bool :=
  match l with
  | [] => true
  | x :: l' => negb (existsb (PyStr.eqb x) l') && distinct l'
  end.

Lemma distinct_NoDup (l : list pystr) : distinct l = true -> NoDup l.
Proof.
  induction l as [|x l IH]; simpl; [constructor|].
  intros H. apply andb_true_iff in H as [Hx Hl]. constructor; auto.
  intros Hin. apply negb_true_iff in Hx.
  assert (existsb (PyStr.eqb x) l = true); [|congruence].
  apply existsb_exists. exists x. split; auto. apply PyStr.eqb_refl.
Qed.

Lemma valid_text_lit (s : string) : valid_text (lit s).
Proof.
  unfold valid_text, lit. apply Forall_map, Forall_forall. intros b _.
  left. pose proof (Byte.to_N_bounded b). lia.
Qed.

(** The dictionary of a message: a non-empty object with distinct keys,
    whose values are atoms when the message is valid. *)
Lemma to_dict_object (m : Message) :
  exists kvs, to_dict m = JObj kvs /\ kvs <> [] /\ NoDup (keys kvs)
              /\ (valid m -> flat kvs).
Proof.
  destruct m; eexists; (split; [reflexivity|]); (split; [discriminate|]);
    (split; [apply distinct_NoDup; vm_compute; reflexivity|]);
    cbn [valid]; intros Hvalid; unfold flat;
    repeat (constructor;
            [cbn [fst snd]; split;
             [apply valid_text_lit
             |first [apply atom_time | apply atom_int
                    |apply atom_str; first [apply valid_text_lit | tauto]]]
            |]);
    constructor.
Qed.

(** C1.  For every valid message of the six kinds (its strings hold
    Unicode scalar values), encoding never fails, and decoding the bytes
    that encoding produces yields the dictionary of the message again:
    [json.loads(json.dumps(m).encode().decode()) == m]. *)
Theorem message_round_trip (m : Message) :
  valid m ->
  exists data, encode m = Some data /\ decode data = inr (to_dict m).
Proof.
  intros Hvalid.
  destruct (to_dict_object m) as (kvs & Hm & Hne & Hnd & Hflat).
  unfold encode. rewrite Hm. apply decode_encode_flat; auto.
Qed.

Lemma message_round_trip_witness :
  valid (Chat (lit "bob") (lit "alice") (lit "hi") 1730000000250000000)
  /\ exists data,
       encode (Chat (lit "bob") (lit "alice") (lit "hi") 1730000000250000000)
       = Some data
       /\ decode data
          = inr (to_dict (Chat (lit "bob") (lit "alice") (lit "hi")
                            1730000000250000000)).
Proof.
  assert (Hv : valid (Chat (lit "bob") (lit "alice") (lit "hi")
                        1730000000250000000)).
  { cbn [valid]. repeat split; apply valid_text_lit. }
  split; [exact Hv|].
  exact (message_round_trip
           (Chat (lit "bob") (lit "alice") (lit "hi") 1730000000250000000) Hv).
Defined.

(* ===================================================================== *)
(** * Binding a computation that changes nothing *)
(* ===================================================================== *)

Lemma bind_pure_raise {A B} (m : M A) (e : exn) (k : A -> M B) (st : P2PChat) :
  pure m (inl e) -> bind m k st = Outcome (inl e) st [].
Proof. intros Hm. unfold bind. cbv zeta. now rewrite !Hm. Qed.

Lemma bind_pure_ret {A B} (m : M A) (a : A) (k : A -> M B) (st : P2PChat) :
  pure m (inr a) -> bind m k st = k a st.
Proof.
  intros Hm. unfold bind. cbv zeta. rewrite !Hm. cbn.
  now destruct (k a st).
Qed.

(* ===================================================================== *)
(** * Commands *)
(* ===================================================================== *)

Lemma slice_msg_target (a : pystr) : slice_from 5 (lit "/msg " ++ a) = a.
Proof. reflexivity. Qed.

(* ===================================================================== *)
(** * File offers *)
(* ===================================================================== *)

(** C9.  For every path at which [os.path.exists] is false,
    [send_file_offer] prints the file-not-found line and returns: nothing
    is sent and the object (session pointer and registry included) is
    unchanged. *)
Theorem send_file_offer_missing_file (st : P2PChat) (up : bool)
    (fs : filesystem) (now : Z) (filename peer_ip peer_username : pystr)
    (peer_port : Z) :
  fs filename = None ->
  let r := send_file_offer up fs now filename peer_ip peer_username
             peer_port st in
  result r = inr tt /\ final r = st
  /\ printed r = [PrintFileNotFound filename]
  /\ forall data dest, ~ In (Sent data dest) (printed r).
Proof.
  intros Hmissing. unfold send_file_offer. rewrite Hmissing. cbn.
  repeat split. intros data dest [H|[]]. discriminate H.
Qed.

Lemma send_file_offer_missing_file_witness :
  (fun _ : pystr => @None node) (lit "/tmp/report.txt") = None
  /\ let r := send_file_offer true (fun _ => None) 0 (lit "/tmp/report.txt")
                (lit "10.0.0.7") (lit "bob") 5000 alice in
     result r = inr tt /\ final r = alice
     /\ printed r = [PrintFileNotFound (lit "/tmp/report.txt")]
     /\ forall data dest, ~ In (Sent data dest) (printed r).
Proof.
  split; [reflexivity|].
  exact (send_file_offer_missing_file alice true (fun _ => None) 0
           (lit "/tmp/report.txt") (lit "10.0.0.7") (lit "bob") 5000 eq_refl).
Defined.

(* ===================================================================== *)
(** * The session pointer: two runs *)
(* ===================================================================== *)

Local Open Scope Z_scope.

Definition bob_ip : pystr := lit "10.0.0.7".
Definition eve_ip : pystr := lit "10.0.0.9".

(** A chat message of bob for alice. *)
Definition hello_from_bob : bytes :=
  datagram
    "{'type': 'message', 'from_username': 'bob', 'to_username': 'alice', 'text': 'hi', 'timestamp': 1730000000.5}".

Definition bob_disconnects : bytes :=
  datagram "{'type': 'disconnect', 'username': 'bob', 'timestamp': 1730000009.5}".

(** A chat message of eve for alice whose text is the quit command. *)
Definition quit_from_eve : bytes :=
  datagram
    "{'type': 'message', 'from_username': 'eve', 'to_username': 'alice', 'text': '/quit', 'timestamp': 1730000005.5}".

(** Alice after the first chat message of bob, of whom she had seen no
    presence datagram. *)
Definition alice_adopts_bob : P2PChat :=
  final (handle_message 1730000001 None hello_from_bob (bob_ip, 5000) alice).

(** C2, the run on which the code departs from the claim.  Alice is idle
    and her registry is empty.  The chat message of bob makes him the
    partner (line 110) but puts no entry in the registry: only a presence
    datagram does (line 91).  The disconnect datagram of bob is then
    ignored, because line 129 looks for him in the registry: the session
    stays with bob and nothing is printed. *)
Theorem disconnect_of_adopted_partner_ignored :
  current_chat alice = None
  /\ PyDict.mem bob_ip (peers alice) = false
  /\ current_chat alice_adopts_bob = Some bob_ip
  /\ PyDict.mem bob_ip (peers alice_adopts_bob) = false
  /\ (let r := handle_message 1730000010 None bob_disconnects (bob_ip, 5000)
                 alice_adopts_bob in
      result r = inr tt /\ printed r = []
      /\ current_chat (final r) = Some bob_ip).
Proof. vm_compute. repeat split. Qed.

(** C10, the run on which the code departs from the claim.  Alice has
    adopted bob as above, so that her partner is not in the registry.
    The quit command of eve reaches line 158, where
    [self.peers[self.current_chat]] raises [KeyError]: line 159 is not
    executed, the exception leaves [handle_command] and the block of
    line 109, and the handler of line 137 prints it.  The partner is
    still bob, not eve. *)
Theorem remote_quit_raises_for_adopted_partner :
  current_chat alice_adopts_bob = Some bob_ip
  /\ PyDict.mem bob_ip (peers alice_adopts_bob) = false
  /\ (let r := handle_message 1730000006 None quit_from_eve (eve_ip, 5000)
                 alice_adopts_bob in
      result r = inr tt
      /\ printed r = [PrintHandlerError (KeyError bob_ip)]
      /\ current_chat (final r) = Some bob_ip
      /\ current_chat (final r) <> Some eve_ip).
Proof. vm_compute. repeat split. discriminate. Qed.

(* ===================================================================== *)
(** * Invariants of the dispatcher *)
(* ===================================================================== *)

(** Take a method apart along its structure, down to the assignments. *)
Ltac walk_step :=
  lazymatch goal with
  | |- stable _ (ret _) => apply stable_ret
  | |- stable _ (raise _) => apply stable_raise
  | |- stable _ (emit _) => apply stable_emit
  | |- stable _ (list_peers _) => apply stable_silent, silent_list_peers
  | |- stable _ (handle_file_offer _ _ _) =>
    apply stable_silent, silent_handle_file_offer
  | |- stable _ (bind get_self _) => apply stable_bind_get; intros ? ?
  | |- stable _ (bind (load _) _) =>
    eapply stable_bind_pure; [apply pure_load | intros ? ?]
  | |- stable _ (bind (as_dict _) _) =>
    eapply stable_bind_pure; [apply pure_as_dict | intros ? ?]
  | |- stable _ (bind (subscript _ _) _) =>
    eapply stable_bind_pure; [apply pure_subscript | intros ? ?]
  | |- stable _ (bind (as_text _) _) =>
    eapply stable_bind_pure; [apply pure_as_text | intros ? ?]
  | |- stable _ (bind (recvfrom _) _) =>
    eapply stable_bind_pure; [apply pure_recvfrom | intros ? ?]
  | |- stable _ (bind _ _) => apply stable_bind; [|intros ?]
  | |- stable _ (catch _ _) => apply stable_catch; [|intros ?]
  | |- stable _ (if ?b then _ else _) => destruct b eqn:?
  | |- stable _ (match ?x with _ => _ end) => destruct x eqn:?
  end.

Ltac walk := repeat walk_step.

(** ** What depends on the registry only *)

Section RegistryInvariant.

Variable P : pydict peer -> Prop.

Let I (st : P2PChat) : Prop := P (peers st).

Lemma stable_set_current_chat (c : option pystr) :
  stable I (set_current_chat c).
Proof. intros st H. exact H. Qed.

Lemma stable_handle_command (now : Z) (command : pystr)
    (from_ip : option pystr) :
  stable I (handle_command now command from_ip).
Proof.
  unfold handle_command, show_help. walk; apply stable_set_current_chat.
Qed.

End RegistryInvariant.

Lemma load_inv (data : bytes) (v : json) :
  match decode data with
  | inr v => inr v
  | inl NotUtf8 => inl UnicodeDecodeError
  | inl NotJson => inl JSONDecodeError
  end = inr v ->
  decode data = inr v.
Proof. destruct (decode data) as [[|]|v']; congruence. Qed.

Lemma as_dict_inv (message : json) (d : pydict json) :
  match message with JObj d => inr d | _ => inl AttributeError end = inr d ->
  message = JObj d.
Proof. destruct message; congruence. Qed.

Lemma subscript_inv {V} (d : pydict V) (key : pystr) (v : V) :
  match PyDict.get key d with Some v => inr v | None => inl (KeyError key) end
  = inr v ->
  PyDict.get key d = Some v.
Proof. destruct (PyDict.get key d); congruence. Qed.

Lemma as_text_inv (v : json) (s : pystr) :
  match v with JStr s => inr s | _ => inl AttributeError end = inr s ->
  v = JStr s.
Proof. destruct v; congruence. Qed.

(** Turn what the pure steps returned into facts about the datagram. *)
Ltac known :=
  repeat match goal with
         | H : _ = inr _ |- _ =>
           first [ apply load_inv in H | apply as_dict_inv in H
                 | apply subscript_inv in H | apply as_text_inv in H ]
         end;
  subst.

(** ** Datagrams that the dispatcher takes for a disconnect *)

(** The dispatcher takes the datagram for a disconnect. *)
Definition is_disconnect (data : bytes) : bool :=
  match decode data with
  | inr (JObj d) => eq_str (type_of d) (lit "disconnect")
  | _ => false
  end.

(* ===================================================================== *)
(** * The active partner *)
(* ===================================================================== *)

(** The session is Active(p): the pointer holds the address [p], which
    is a non-empty string (the test of lines 109 and 157 is then true). *)
Definition active (st : P2PChat) (p : pystr) : Prop :=
  current_chat st = Some p /\ p <> [].

(** The datagram is a chat message for [name] whose text is one of the
    two commands that assign the session pointer. *)
Definition session_command (name : pystr) (data : bytes) : bool :=
  match decode data with
  | inr (JObj d) =>
    eq_str (type_of d) (lit "message") && addressed_to d name
    && match PyDict.get (lit "text") d with
       | Some (JStr text) =>
         PyStr.eqb text (lit "/quit") || startswith (lit "/msg ") text
       | _ => false
       end
  | _ => false
  end.

(** A command other than those two changes nothing. *)
Lemma silent_handle_command (now : Z) (command : pystr)
    (from_ip : option pystr) :
  PyStr.eqb command (lit "/quit") = false ->
  startswith (lit "/msg ") command = false ->
  silent (handle_command now command from_ip).
Proof.
  intros Hquit Hmsg. unfold handle_command, show_help.
  rewrite Hmsg, Hquit. cbn [andb].
  destruct (PyStr.eqb command (lit "/list")); [apply silent_list_peers|].
  destruct (PyStr.eqb command (lit "/help")); [apply silent_emit|].
  apply silent_ret.
Qed.

Lemma partner_invariant (st0 : P2PChat) (p : pystr) (now : Z)
    (stdin : option pystr) (data : bytes) (addr : address) :
  p <> [] -> fst addr <> p ->
  session_command (username st0) data = false ->
  stable (fun st => current_chat st = Some p /\ username st = username st0)
    (handle_message now stdin data addr).
Proof.
  intros Hp Haddr Hcmd. unfold handle_message, dispatch. cbv zeta. walk;
    known.
  - (* presence *)
    intros st' Hst'. exact Hst'.
  - (* a command in a chat message: neither of the two *)
    apply stable_silent.
    match goal with
    | Hself : _ /\ username _ = username st0 |- _ => destruct Hself as [_ Hname]
    end.
    unfold session_command in Hcmd.
    repeat match goal with
           | H : decode data = _ |- _ => rewrite H in Hcmd; clear H
           | H : eq_str (type_of _) (lit "message") = true |- _ =>
             rewrite H in Hcmd; clear H
           | H : addressed_to _ _ = true |- _ =>
             rewrite Hname in H; rewrite H in Hcmd; clear H
           | H : PyDict.get (lit "text") _ = Some _ |- _ =>
             rewrite H in Hcmd; clear H
           end.
    cbn [andb] in Hcmd. apply orb_false_iff in Hcmd as [Hquit Hmsg].
    now apply silent_handle_command.
  - (* line 109: the pointer is set, nothing is adopted *)
    exfalso.
    match goal with
    | Hself : current_chat ?s = Some p /\ _,
      Hidle : negb (is_set (current_chat ?s)) = true |- _ =>
      destruct Hself as [Hcur _]; rewrite Hcur in Hidle;
      destruct p; [congruence | discriminate Hidle]
    end.
  - (* line 131: the sender is not the partner *)
    exfalso.
    match goal with
    | Hself : Some ?q = Some p /\ _,
      Heq : PyStr.eqb ?q (fst addr) = true |- _ =>
      destruct Hself as [Hcur _]; apply PyStr.eqb_eq in Heq; congruence
    end.
  - (* line 133 *)
    intros st' Hst'. exact Hst'.
Qed.

(** The claim C5 as the specification states it, at one input. *)
Definition partner_kept (st : P2PChat) (now : Z) (stdin : option pystr)
    (data : bytes) (addr : address) (p : pystr) : Prop :=
  active st p -> fst addr <> p ->
  current_chat (final (handle_message now stdin data addr st)) = Some p.

(** Alice in conversation with bob, who is in her registry. *)
Definition alice_with_bob : P2PChat :=
  Build (lit "alice") 5000 true
    [(bob_ip, Peer (JStr (lit "bob")) 1730000000)] (Some bob_ip).

(** C5, counterexample.  While alice is in conversation with bob, the
    chat message of eve whose text is the quit command is handed to
    [handle_command] (line 104), which clears the pointer (line 159);
    line 110 then makes eve the partner. *)
Lemma remote_quit_changes_partner :
  ~ partner_kept alice_with_bob 1730000006 None quit_from_eve (eve_ip, 5000)
      bob_ip.
Proof.
  unfold partner_kept. intros H.
  assert (Hactive : active alice_with_bob bob_ip)
    by (split; [reflexivity | discriminate]).
  assert (Hother : fst (eve_ip, 5000) <> bob_ip) by discriminate.
  specialize (H Hactive Hother). vm_compute in H. discriminate H.
Qed.

(** C5, amended.  While the session is Active(p), handling a datagram
    from an address other than [p] leaves the partner equal to [p],
    unless the datagram is a chat message addressed to the local name
    whose text is the quit command or starts with the msg command: the
    dispatcher executes the commands it receives. *)
Theorem other_traffic_keeps_partner (st : P2PChat) (now : Z)
    (stdin : option pystr) (data : bytes) (addr : address) (p : pystr) :
  active st p -> fst addr <> p ->
  session_command (username st) data = false ->
  current_chat (final (handle_message now stdin data addr st)) = Some p.
Proof.
  intros [Hcur Hp] Haddr Hcmd.
  now apply (partner_invariant st p now stdin data addr Hp Haddr Hcmd st).
Qed.

Lemma other_traffic_keeps_partner_witness :
  active alice_with_bob bob_ip
  /\ fst (eve_ip, 5000) <> bob_ip
  /\ session_command (username alice_with_bob)
       (datagram "{'type': 'message', 'from_username': 'eve', 'to_username': 'alice', 'text': 'hello'}")
     = false
  /\ current_chat
       (final (handle_message 1730000006 None
                 (datagram "{'type': 'message', 'from_username': 'eve', 'to_username': 'alice', 'text': 'hello'}")
                 (eve_ip, 5000) alice_with_bob))
     = Some bob_ip.
Proof.
  assert (Hactive : active alice_with_bob bob_ip)
    by (split; [reflexivity | discriminate]).
  assert (Hother : fst (eve_ip, 5000) <> bob_ip) by discriminate.
  split; [exact Hactive|]. split; [exact Hother|]. split; [reflexivity|].
  exact (other_traffic_keeps_partner alice_with_bob 1730000006 None
           (datagram "{'type': 'message', 'from_username': 'eve', 'to_username': 'alice', 'text': 'hello'}")
           (eve_ip, 5000) bob_ip Hactive Hother eq_refl).
Defined.

(* ===================================================================== *)
(** * Presence: the upsert *)
(* ===================================================================== *)

Lemma load_decoded (data : bytes) (v : json) :
  decode data = inr v -> pure (load data) (inr v).
Proof. intros H. pose proof (pure_load data) as Hp. now rewrite H in Hp. Qed.

Lemma subscript_present {V} (d : pydict V) (key : pystr) (v : V) :
  PyDict.get key d = Some v -> pure (subscript d key) (inr v).
Proof.
  intros H. pose proof (pure_subscript d key) as Hp. now rewrite H in Hp.
Qed.

(** The upsert: what handling a presence datagram does. *)
Lemma handle_presence (st : P2PChat) (now : Z) (stdin : option pystr)
    (data : bytes) (addr : address) (d : pydict json) (name : json) :
  decode data = inr (JObj d) ->
  eq_str (type_of d) (lit "presence") = true ->
  PyDict.get (lit "username") d = Some name ->
  handle_message now stdin data addr st
  = Outcome (inr tt)
      (Build (username st) (port st) (running st)
         (PyDict.set (fst addr) (Peer name now) (peers st))
         (current_chat st))
      [].
Proof.
  intros Hdata Hkind Hname. unfold handle_message, catch, dispatch. cbv zeta.
  rewrite !(bind_pure_ret _ _ _ _ (load_decoded _ _ Hdata)).
  rewrite !(bind_pure_ret _ _ _ _ (pure_as_dict (JObj d))).
  rewrite Hkind.
  rewrite !(bind_pure_ret _ _ _ _ (subscript_present _ _ _ Hname)).
  reflexivity.
Qed.

(** A presence datagram of bob. *)
Definition presence_of_bob : bytes :=
  datagram "{'type': 'presence', 'username': 'bob', 'timestamp': 1730000000.5}".

(* ===================================================================== *)
(** * The discovery probe *)
(* ===================================================================== *)

(** Encoding a message never fails. *)
Lemma encode_total (m : Message) : exists data, encode m = Some data.
Proof.
  assert (H : exists data, encode m = Some data
                           /\ bytes_decode data = Some (dumps (to_dict m))).
  { destruct m; apply encode_json_object;
      repeat (constructor; [cbn [snd plain]; try exact I|]);
      try apply ascii_repr_time; constructor. }
  destruct H as (data & H & _). now exists data.
Qed.

Definition with_peers (st : P2PChat) (registry : pydict peer) : P2PChat :=
  Build (username st) (port st) (running st) registry (current_chat st).






(* ===================================================================== *)
(** * The dispatcher, kind by kind *)
(* ===================================================================== *)

Lemma bind_get_self {B} (k : P2PChat -> M B) (st : P2PChat) :
  bind get_self k st = k st st.
Proof. unfold bind, get_self. cbn. now destruct (k st st). Qed.

Lemma bind_outcome {A B} (m : M A) (k : A -> M B) (st : P2PChat)
    (r : outcome A) :
  m st = r ->
  bind m k st
  = match result r with
    | inl e => Outcome (inl e) (final r) (printed r)
    | inr a =>
      Outcome (result (k a (final r))) (final (k a (final r)))
        (printed r ++ printed (k a (final r)))
    end.
Proof. intros <-. reflexivity. Qed.

Lemma bind_emit {B} (o : output) (k : unit -> M B) (st : P2PChat) :
  bind (emit o) k st
  = Outcome (result (k tt st)) (final (k tt st)) (o :: printed (k tt st)).
Proof. reflexivity. Qed.

Lemma eq_str_other (v : json) (a b : pystr) :
  eq_str v a = true -> a <> b -> eq_str v b = false.
Proof.
  destruct v; try discriminate. cbn [eq_str]. intros Ha Hab.
  apply PyStr.eqb_eq in Ha. subst. now apply PyStr.eqb_neq.
Qed.

Definition with_chat (st : P2PChat) (c : option pystr) : P2PChat :=
  Build (username st) (port st) (running st) (peers st) c.

Lemma with_chat_same (st : P2PChat) : with_chat st (current_chat st) = st.
Proof. now destruct st. Qed.

(** A chat message for the local user whose text is not a command is
    printed, and its sender becomes the partner if there is none. *)
Lemma handle_chat (st : P2PChat) (now : Z) (stdin : option pystr)
    (data : bytes) (addr : address) (d : pydict json) (sender : json)
    (text : pystr) :
  decode data = inr (JObj d) ->
  eq_str (type_of d) (lit "message") = true ->
  addressed_to d (username st) = true ->
  PyDict.get (lit "from_username") d = Some sender ->
  PyDict.get (lit "text") d = Some (JStr text) ->
  startswith (lit "/") text = false ->
  handle_message now stdin data addr st
  = Outcome (inr tt)
      (with_chat st (if is_set (current_chat st) then current_chat st
                     else Some (fst addr)))
      [PrintChat sender (fst addr) text].
Proof.
  intros Hdata Hkind Hto Hfrom Htext Hplain.
  assert (Hrun : dispatch now stdin data addr st
                 = Outcome (inr tt)
                     (with_chat st (if is_set (current_chat st)
                                    then current_chat st
                                    else Some (fst addr)))
                     [PrintChat sender (fst addr) text]).
  { unfold dispatch. cbv zeta.
    rewrite (bind_pure_ret _ _ _ _ (load_decoded _ _ Hdata)).
    rewrite (bind_pure_ret _ _ _ _ (pure_as_dict (JObj d))).
    rewrite (eq_str_other _ _ (lit "presence") Hkind) by discriminate.
    rewrite Hkind, bind_get_self, Hto.
    rewrite (bind_pure_ret _ _ _ _ (subscript_present _ _ _ Hfrom)).
    rewrite (bind_pure_ret _ _ _ _ (subscript_present _ _ _ Htext)).
    rewrite (bind_pure_ret _ _ _ _ (pure_as_text (JStr text))).
    rewrite Hplain, bind_emit, bind_get_self.
    destruct (is_set (current_chat st)); cbn; [|reflexivity].
    now rewrite with_chat_same. }
  unfold handle_message, catch. cbv zeta. now rewrite !Hrun.
Qed.

(** A disconnect from an address that is not in the registry does
    nothing at all (line 129). *)
Lemma handle_disconnect_unknown (st : P2PChat) (now : Z)
    (stdin : option pystr) (data : bytes) (addr : address) (d : pydict json) :
  decode data = inr (JObj d) ->
  eq_str (type_of d) (lit "disconnect") = true ->
  PyDict.mem (fst addr) (peers st) = false ->
  handle_message now stdin data addr st = Outcome (inr tt) st [].
Proof.
  intros Hdata Hkind Hmem.
  assert (Hrun : dispatch now stdin data addr st = Outcome (inr tt) st []).
  { unfold dispatch. cbv zeta.
    rewrite (bind_pure_ret _ _ _ _ (load_decoded _ _ Hdata)).
    rewrite (bind_pure_ret _ _ _ _ (pure_as_dict (JObj d))).
    rewrite (eq_str_other _ _ (lit "presence") Hkind) by discriminate.
    rewrite (eq_str_other _ _ (lit "message") Hkind) by discriminate.
    rewrite (eq_str_other _ _ (lit "typing") Hkind) by discriminate.
    rewrite (eq_str_other _ _ (lit "read_receipt") Hkind) by discriminate.
    rewrite (eq_str_other _ _ (lit "file_offer") Hkind) by discriminate.
    rewrite Hkind, bind_get_self, Hmem. reflexivity. }
  unfold handle_message, catch. cbv zeta. now rewrite !Hrun.
Qed.

(** A disconnect from a registered address is announced, ends the
    session if the sender was the partner, and removes the entry. *)
Lemma handle_disconnect_known (st : P2PChat) (now : Z)
    (stdin : option pystr) (data : bytes) (addr : address) (d : pydict json)
    (info : peer) :
  decode data = inr (JObj d) ->
  eq_str (type_of d) (lit "disconnect") = true ->
  PyDict.get (fst addr) (peers st) = Some info ->
  handle_message now stdin data addr st
  = Outcome (inr tt)
      (Build (username st) (port st) (running st)
         (PyDict.del (fst addr) (peers st))
         (match current_chat st with
          | Some partner =>
            if PyStr.eqb partner (fst addr) then None else Some partner
          | None => None
          end))
      [PrintDisconnected (peer_username info) (fst addr)].
Proof.
  intros Hdata Hkind Hget.
  assert (Hmem : PyDict.mem (fst addr) (peers st) = true)
    by (unfold PyDict.mem; now rewrite Hget).
  assert (Hrun : dispatch now stdin data addr st
                 = Outcome (inr tt)
                     (Build (username st) (port st) (running st)
                        (PyDict.del (fst addr) (peers st))
                        (match current_chat st with
                         | Some partner =>
                           if PyStr.eqb partner (fst addr) then None
                           else Some partner
                         | None => None
                         end))
                     [PrintDisconnected (peer_username info) (fst addr)]).
  { unfold dispatch. cbv zeta.
    rewrite (bind_pure_ret _ _ _ _ (load_decoded _ _ Hdata)).
    rewrite (bind_pure_ret _ _ _ _ (pure_as_dict (JObj d))).
    rewrite (eq_str_other _ _ (lit "presence") Hkind) by discriminate.
    rewrite (eq_str_other _ _ (lit "message") Hkind) by discriminate.
    rewrite (eq_str_other _ _ (lit "typing") Hkind) by discriminate.
    rewrite (eq_str_other _ _ (lit "read_receipt") Hkind) by discriminate.
    rewrite (eq_str_other _ _ (lit "file_offer") Hkind) by discriminate.
    rewrite Hkind, bind_get_self, Hmem.
    rewrite (bind_pure_ret _ _ _ _ (subscript_present _ _ _ Hget)).
    rewrite bind_emit.
    destruct (current_chat st) as [partner|] eqn:Hcur.
    - destruct (PyStr.eqb partner (fst addr)); cbn; rewrite ?Hcur;
        reflexivity.
    - cbn. now rewrite Hcur. }
  unfold handle_message, catch. cbv zeta. now rewrite !Hrun.
Qed.

(** The quit command, when it comes from the network. *)
Lemma handle_quit_command (st : P2PChat) (now : Z) (ip : pystr) :
  ip <> [] ->
  handle_command now (lit "/quit") (Some ip) st
  = match current_chat st with
    | Some partner =>
      if PyStr.truthy partner then
        match PyDict.get partner (peers st) with
        | Some info =>
          Outcome (inr tt) (with_chat st None)
            [PrintLeftChat (peer_username info)]
        | None => Outcome (inl (KeyError partner)) st []
        end
      else Outcome (inr tt) st []
    | None => Outcome (inr tt) st []
    end.
Proof.
  intros Hip. unfold handle_command.
  change (startswith (lit "/msg ") (lit "/quit")) with false.
  change (PyStr.eqb (lit "/quit") (lit "/list")) with false.
  change (PyStr.eqb (lit "/quit") (lit "/quit")) with true.
  destruct ip as [|c ip]; [congruence|]. cbn [is_set PyStr.truthy andb].
  rewrite bind_get_self.
  destruct (current_chat st) as [partner|]; [|reflexivity].
  destruct (PyStr.truthy partner); [|reflexivity].
  pose proof (pure_subscript (peers st) partner) as Hsub.
  destruct (PyDict.get partner (peers st)) as [info|].
  - rewrite (bind_pure_ret _ _ _ _ Hsub). reflexivity.
  - now rewrite (bind_pure_raise _ _ _ _ Hsub).
Qed.

Section RemoteQuit.

Variables (st : P2PChat) (now : Z) (stdin : option pystr) (data : bytes)
          (addr : address) (d : pydict json) (sender : json).

Hypothesis Hdata : decode data = inr (JObj d).
Hypothesis Hkind : eq_str (type_of d) (lit "message") = true.
Hypothesis Hto : addressed_to d (username st) = true.
Hypothesis Hfrom : PyDict.get (lit "from_username") d = Some sender.
Hypothesis Htext : PyDict.get (lit "text") d = Some (JStr (lit "/quit")).
Hypothesis Haddr : fst addr <> [].

Lemma dispatch_quit :
  dispatch now stdin data addr st
  = bind (handle_command now (lit "/quit") (Some (fst addr)))
      (fun _ =>
         bind get_self
           (fun self' =>
              if negb (is_set (current_chat self'))
              then set_current_chat (Some (fst addr))
              else ret tt))
      st.
Proof.
  unfold dispatch. cbv zeta.
  rewrite (bind_pure_ret _ _ _ _ (load_decoded _ _ Hdata)).
  rewrite (bind_pure_ret _ _ _ _ (pure_as_dict (JObj d))).
  rewrite (eq_str_other _ _ (lit "presence") Hkind) by discriminate.
  rewrite Hkind, bind_get_self, Hto.
  rewrite (bind_pure_ret _ _ _ _ (subscript_present _ _ _ Hfrom)).
  rewrite (bind_pure_ret _ _ _ _ (subscript_present _ _ _ Htext)).
  rewrite (bind_pure_ret _ _ _ _ (pure_as_text (JStr (lit "/quit")))).
  reflexivity.
Qed.

(** Where it does not: the partner is not in the registry.  Line 158
    raises, the object is left as it was and the error is printed. *)
Theorem remote_quit_raises (partner : pystr) :
  current_chat st = Some partner -> partner <> [] ->
  PyDict.mem partner (peers st) = false ->
  handle_message now stdin data addr st
  = Outcome (inr tt) st [PrintHandlerError (KeyError partner)].
Proof.
  intros Hcur Hne Hmem. unfold handle_message, catch. cbv zeta.
  rewrite !dispatch_quit.
  rewrite !(bind_outcome _ _ _ _ (handle_quit_command st now (fst addr) Haddr)).
  rewrite Hcur. destruct partner as [|c partner]; [congruence|].
  cbn [PyStr.truthy]. apply mem_false in Hmem. rewrite Hmem. reflexivity.
Qed.

End RemoteQuit.

(* ===================================================================== *)
(** * From [send_message] to [handle_message] *)
(* ===================================================================== *)

(** X20.  What one user sends with [send_message] is what the dispatcher of
    the user it is addressed to prints, with the name of the sender; the
    receiver adopts the sender if it has no partner. *)
Theorem chat_delivery (sender receiver : P2PChat) (sent_at received_at : Z)
    (stdin : option pystr) (text peer_ip : pystr) (peer_port : Z)
    (from : address) :
  valid_text (username sender) -> valid_text (username receiver) ->
  valid_text text -> startswith (lit "/") text = false ->
  exists data,
    send_message true sent_at text peer_ip (username receiver) peer_port sender
    = Outcome (inr tt) sender [Sent data (peer_ip, peer_port); PrintYou text]
    /\ handle_message received_at stdin data from receiver
       = Outcome (inr tt)
           (with_chat receiver
              (if is_set (current_chat receiver) then current_chat receiver
               else Some (fst from)))
           [PrintChat (JStr (username sender)) (fst from) text].
Proof.
  intros Hs Hr Ht Hplain.
  set (m := Chat (username sender) (username receiver) text sent_at).
  destruct (to_dict_object m) as (kvs & Hm & Hne & Hnd & Hflat).
  assert (Hvalid : valid m) by (cbn [valid m]; auto).
  destruct (decode_encode_flat (Hflat Hvalid) Hne Hnd) as (data & Henc & Hdec).
  rewrite <- Hm in Henc, Hdec. fold (encode m) in Henc. subst m.
  exists data. split.
  - unfold send_message. rewrite bind_get_self. cbv zeta.
    unfold catch, serialise. rewrite Henc. reflexivity.
  - cbn [to_dict] in Hdec.
    eapply handle_chat; [exact Hdec | reflexivity | | reflexivity
                        | reflexivity | exact Hplain].
    unfold addressed_to. cbn. apply PyStr.eqb_refl.
Qed.

(* ===================================================================== *)
(** * The probe when the broadcast cannot be sent *)
(* ===================================================================== *)

(** X21.  Line 383 is outside any [try]: when [sendto] raises, the probe ends
    with that exception before line 387, and the registry is as it was. *)
Theorem discover_peers_send_fails (st : P2PChat)
    (sent_at start_time listed_at timeout : Z) (ticks : list tick) :
  discover_peers false sent_at start_time listed_at ticks timeout st
  = Outcome (inl OSError) st [PrintDiscovering].
Proof.
  destruct (encode_total (Presence (username st) sent_at)) as (payload & Hp).
  unfold discover_peers. rewrite bind_emit, bind_get_self.
  unfold bind at 1. unfold serialise. rewrite Hp. reflexivity.
Qed.

(* ===================================================================== *)
(** * Reading a datagram *)
(* ===================================================================== *)

(** The dictionary of a datagram, when its bytes decode to an object. *)
Definition parsed (data : bytes) : option (pydict json) :=
  match decode data with
  | inr (JObj d) => Some d
  | _ => None
  end.

(** [msg_type == kind] at lines 89-127. *)
Definition has_kind (data : bytes) (kind : string) : bool :=
  match parsed data with
  | Some d => eq_str (type_of d) (lit kind)
  | None => false
  end.

(** The value the datagram has at [key], if any. *)
Definition field_of (data : bytes) (key : string) : option json :=
  match parsed data with
  | Some d => PyDict.get (lit key) d
  | None => None
  end.

(** [message.get('to_username') == self.username] *)
Definition to_user (data : bytes) (name : pystr) : bool :=
  match parsed data with
  | Some d => addressed_to d name
  | None => false
  end.

Lemma parsed_decode (data : bytes) (d : pydict json) :
  parsed data = Some d -> decode data = inr (JObj d).
Proof.
  unfold parsed. destruct (decode data) as [err|[| | | | | |d']]; congruence.
Qed.

Lemma has_kind_inv (data : bytes) (kind : string) :
  has_kind data kind = true ->
  exists d, parsed data = Some d /\ eq_str (type_of d) (lit kind) = true.
Proof.
  unfold has_kind. destruct (parsed data) as [d|]; [|discriminate].
  intros H. now exists d.
Qed.

(** Open the datagram of the goal: name its dictionary and restate what
    is known of its kind, its fields and its addressee. *)
Ltac open_datagram Hkind d Hdata Hd :=
  apply has_kind_inv in Hkind as (d & Hd & Hkind);
  pose proof (parsed_decode _ _ Hd) as Hdata;
  unfold has_kind, field_of, to_user in *;
  rewrite ?Hd in *.

(** Follow the dispatcher to the branch of the datagram's kind. *)
Ltac enter Hdata Hkind :=
  unfold dispatch; cbv zeta;
  rewrite (bind_pure_ret _ _ _ _ (load_decoded _ _ Hdata));
  rewrite (bind_pure_ret _ _ _ _ (pure_as_dict (JObj _)));
  repeat (rewrite (eq_str_other _ _ _ Hkind) by discriminate);
  rewrite Hkind.

(** What the two handlers of [handle_message] add when the body of the
    [try] statement has run. *)
Lemma handle_message_run (now : Z) (stdin : option pystr) (data : bytes)
    (addr : address) (st : P2PChat) (r : outcome unit) :
  dispatch now stdin data addr st = r ->
  handle_message now stdin data addr st
  = match result r with
    | inr _ => r
    | inl JSONDecodeError =>
      Outcome (inr tt) (final r) (printed r ++ [PrintInvalidMessage (fst addr)])
    | inl e => Outcome (inr tt) (final r) (printed r ++ [PrintHandlerError e])
    end.
Proof.
  intros <-. unfold handle_message, catch. cbv zeta.
  destruct (result (dispatch now stdin data addr st)) as [[]|[]];
    reflexivity.
Qed.

(* ===================================================================== *)
(** * Datagrams the dispatcher passes over *)
(* ===================================================================== *)

(** The kinds that are handled only when the datagram names the local
    user (lines 98, 114, 119 and 124). *)
Definition for_a_user (data : bytes) : bool :=
  has_kind data "message" || has_kind data "typing"
  || has_kind data "read_receipt" || has_kind data "file_offer".

(** X1.  A chat message, a typing notice, a read receipt or a file offer whose
    [to_username] is absent or is not the local user name is dropped:
    [handle_message] returns, prints nothing and leaves the object as it
    was, whatever else the datagram holds and whoever sent it. *)
Theorem datagram_for_another_user_dropped (st : P2PChat) (now : Z)
    (stdin : option pystr) (data : bytes) (addr : address) :
  for_a_user data = true ->
  to_user data (username st) = false ->
  handle_message now stdin data addr st = Outcome (inr tt) st [].
Proof.
  unfold for_a_user. intros Hkind Hto.
  rewrite (handle_message_run now stdin data addr st (Outcome (inr tt) st []));
    [reflexivity|].
  repeat (apply orb_true_iff in Hkind as [Hkind|Hkind]);
    open_datagram Hkind d Hdata Hd;
    enter Hdata Hkind; now rewrite bind_get_self, Hto.
Qed.

Lemma datagram_for_another_user_dropped_witness :
  let data :=
    datagram "{'type': 'message', 'from_username': 'bob', 'to_username': 'carol', 'text': '/quit'}" in
  for_a_user data = true
  /\ to_user data (username alice_with_bob) = false
  /\ handle_message 1730000006 None data (bob_ip, 5000) alice_with_bob
     = Outcome (inr tt) alice_with_bob [].
Proof.
  intros data. split; [reflexivity|]. split; [reflexivity|].
  exact (datagram_for_another_user_dropped alice_with_bob 1730000006 None data
           (bob_ip, 5000) eq_refl eq_refl).
Defined.

(** The six kinds the dispatcher knows. *)
Definition known_kind (data : bytes) : bool :=
  has_kind data "presence" || has_kind data "message"
  || has_kind data "typing" || has_kind data "read_receipt"
  || has_kind data "file_offer" || has_kind data "disconnect".

(** X2.  A JSON object whose [type] is none of the six kinds (a string the
    dispatcher does not know, or a value that is not a string) is
    dropped in the same way: no branch of lines 89-133 is taken, nothing
    is printed, not even an error, and the object is unchanged. *)
Theorem unknown_kind_dropped (st : P2PChat) (now : Z) (stdin : option pystr)
    (data : bytes) (addr : address) :
  parsed data <> None ->
  known_kind data = false ->
  handle_message now stdin data addr st = Outcome (inr tt) st [].
Proof.
  unfold known_kind, has_kind. intros Hobj Hkind.
  destruct (parsed data) as [d|] eqn:Hd; [clear Hobj|congruence].
  pose proof (parsed_decode _ _ Hd) as Hdata.
  repeat (apply orb_false_iff in Hkind as [Hkind ?]).
  rewrite (handle_message_run now stdin data addr st (Outcome (inr tt) st []));
    [reflexivity|].
  unfold dispatch. cbv zeta.
  rewrite (bind_pure_ret _ _ _ _ (load_decoded _ _ Hdata)).
  rewrite (bind_pure_ret _ _ _ _ (pure_as_dict (JObj _))).
  repeat match goal with
         | H : eq_str (type_of d) _ = false |- _ => rewrite H; clear H
         end.
  reflexivity.
Qed.

Lemma unknown_kind_dropped_witness :
  let data := datagram "{'type': 'ping', 'username': 'bob', 'to_username': 'alice'}" in
  parsed data <> None
  /\ known_kind data = false
  /\ handle_message 1730000006 None data (bob_ip, 5000) alice_with_bob
     = Outcome (inr tt) alice_with_bob [].
Proof.
  intros data.
  assert (Hobj : parsed data <> None) by discriminate.
  split; [exact Hobj|]. split; [reflexivity|].
  exact (unknown_kind_dropped alice_with_bob 1730000006 None data
           (bob_ip, 5000) Hobj eq_refl).
Defined.

(* ===================================================================== *)
(** * Presence: what an announcement touches *)
(* ===================================================================== *)

(** X3.  A presence datagram that has a user name touches the entry of its
    sender and nothing else: the entry now holds the announced name and
    the time of handling, every other entry is what it was, the session
    pointer, the local name and the port are what they were, and nothing
    is printed.  The addressee plays no part: an announcement is taken
    from anyone. *)
Theorem presence_touches_only_sender (st : P2PChat) (now : Z)
    (stdin : option pystr) (data : bytes) (addr : address) (name : json) :
  has_kind data "presence" = true ->
  field_of data "username" = Some name ->
  let r := handle_message now stdin data addr st in
  result r = inr tt /\ printed r = []
  /\ PyDict.get (fst addr) (peers (final r)) = Some (Peer name now)
  /\ (forall ip, ip <> fst addr ->
                 PyDict.get ip (peers (final r)) = PyDict.get ip (peers st))
  /\ current_chat (final r) = current_chat st
  /\ username (final r) = username st /\ port (final r) = port st.
Proof.
  intros Hkind Hname r. open_datagram Hkind d Hdata Hd. unfold r.
  rewrite (handle_presence st now stdin data addr d name Hdata Hkind Hname).
  cbn [result final printed peers current_chat username port].
  repeat split.
  - apply get_set_same.
  - intros ip Hip. now apply get_set_other.
Qed.

Lemma presence_touches_only_sender_witness :
  let st := Build (lit "alice") 5000 true
              [(eve_ip, Peer (JStr (lit "eve")) 1000000000000)]
              (Some eve_ip) in
  let r := handle_message 1730000001 None presence_of_bob (bob_ip, 5000) st in
  has_kind presence_of_bob "presence" = true
  /\ result r = inr tt /\ printed r = []
  /\ PyDict.get (fst (bob_ip, 5000)) (peers (final r))
     = Some (Peer (JStr (lit "bob")) 1730000001)
  /\ (forall ip, ip <> fst (bob_ip, 5000) ->
                 PyDict.get ip (peers (final r)) = PyDict.get ip (peers st))
  /\ current_chat (final r) = current_chat st
  /\ username (final r) = username st /\ port (final r) = port st.
Proof.
  intros st r. split; [reflexivity|].
  exact (presence_touches_only_sender st 1730000001 None presence_of_bob
           (bob_ip, 5000) (JStr (lit "bob")) eq_refl eq_refl).
Defined.

(** A presence datagram without a user name registers nobody: line 92
    raises [KeyError] before the assignment of line 91 takes place, the
    handler of line 137 prints the exception and the registry is as it
    was. *)
Theorem presence_without_name_registers_nobody (st : P2PChat) (now : Z)
    (stdin : option pystr) (data : bytes) (addr : address) :
  has_kind data "presence" = true ->
  field_of data "username" = None ->
  handle_message now stdin data addr st
  = Outcome (inr tt) st [PrintHandlerError (KeyError (lit "username"))].
Proof.
  intros Hkind Hname. open_datagram Hkind d Hdata Hd.
  rewrite (handle_message_run now stdin data addr st
             (Outcome (inl (KeyError (lit "username"))) st []));
    [reflexivity|].
  enter Hdata Hkind.
  pose proof (pure_subscript d (lit "username")) as Hsub.
  rewrite Hname in Hsub. now rewrite (bind_pure_raise _ _ _ _ Hsub).
Qed.

Lemma presence_without_name_registers_nobody_witness :
  let data := datagram "{'type': 'presence', 'timestamp': 1730000000.5}" in
  has_kind data "presence" = true
  /\ field_of data "username" = None
  /\ handle_message 1730000001 None data (bob_ip, 5000) alice
     = Outcome (inr tt) alice [PrintHandlerError (KeyError (lit "username"))].
Proof.
  intros data. split; [reflexivity|]. split; [reflexivity|].
  exact (presence_without_name_registers_nobody alice 1730000001 None data
           (bob_ip, 5000) eq_refl eq_refl).
Defined.

(* ===================================================================== *)
(** * File offers on the receiving side *)
(* ===================================================================== *)

(** What the dispatcher does with a complete file offer for the local
    user. *)
Lemma offer_shown (st : P2PChat) (now : Z) (stdin : option pystr)
    (data : bytes) (addr : address) (d : pydict json)
    (name size sender : json) (hash : pystr) :
  decode data = inr (JObj d) ->
  eq_str (type_of d) (lit "file_offer") = true ->
  addressed_to d (username st) = true ->
  PyDict.get (lit "filename") d = Some name ->
  PyDict.get (lit "size") d = Some size ->
  PyDict.get (lit "hash") d = Some (JStr hash) ->
  PyDict.get (lit "from_username") d = Some sender ->
  handle_message now stdin data addr st
  = Outcome (inr tt) st
      ([PrintFileOfferFrom sender (fst addr); PrintFilename name;
        PrintSize size; PrintHash (JStr (slice_to 16 hash)); PromptAccept]
       ++ match stdin with
          | Some reply =>
            if PyStr.eqb reply (lit "y") || PyStr.eqb reply (lit "Y")
            then [PrintTransferStarting; PrintNotImplemented]
            else [PrintFileRejected]
          | None => [PrintHandlerError EOFError]
          end).
Proof.
  intros Hdata Hkind Hto Hname Hsize Hhash Hfrom.
  rewrite (handle_message_run now stdin data addr st
             (Outcome
                match stdin with Some _ => inr tt | None => inl EOFError end
                st
                ([PrintFileOfferFrom sender (fst addr); PrintFilename name;
                  PrintSize size; PrintHash (JStr (slice_to 16 hash));
                  PromptAccept]
                 ++ match stdin with
                    | Some reply =>
                      if says_yes reply
                      then [PrintTransferStarting; PrintNotImplemented]
                      else [PrintFileRejected]
                    | None => []
                    end))).
  - destruct stdin as [reply|]; reflexivity.
  - enter Hdata Hkind. rewrite bind_get_self, Hto. unfold handle_file_offer.
    rewrite (bind_pure_ret _ _ _ _ (subscript_present _ _ _ Hname)).
    rewrite (bind_pure_ret _ _ _ _ (subscript_present _ _ _ Hsize)).
    rewrite (bind_pure_ret _ _ _ _ (subscript_present _ _ _ Hhash)).
    rewrite (bind_pure_ret _ _ _ _ (subscript_present _ _ _ Hfrom)).
    rewrite !bind_emit.
    rewrite (bind_pure_ret _ _ _ _ (pure_first16 (JStr hash))).
    rewrite bind_emit. unfold input.
    destruct stdin as [reply|]; [|reflexivity].
    unfold bind, emit, ret. cbn. now destruct (says_yes reply).
Qed.


(** The first of the fields read at lines 330-333 that the offer lacks. *)
Definition missing_field (data : bytes) : option pystr :=
  match field_of data "filename" with
  | None => Some (lit "filename")
  | Some _ =>
    match field_of data "size" with
    | None => Some (lit "size")
    | Some _ =>
      match field_of data "hash" with
      | None => Some (lit "hash")
      | Some _ =>
        match field_of data "from_username" with
        | None => Some (lit "from_username")
        | Some _ => None
        end
      end
    end
  end.

(** X6.  A file offer for the local user that lacks a field is not shown at
    all: the four lookups come before the first [print], so the only
    output is the report of the [KeyError], and the user is not asked. *)
Theorem incomplete_file_offer_not_shown (st : P2PChat) (now : Z)
    (stdin : option pystr) (data : bytes) (addr : address) (key : pystr) :
  has_kind data "file_offer" = true ->
  to_user data (username st) = true ->
  missing_field data = Some key ->
  handle_message now stdin data addr st
  = Outcome (inr tt) st [PrintHandlerError (KeyError key)].
Proof.
  intros Hkind Hto Hmiss. unfold missing_field in Hmiss.
  open_datagram Hkind d Hdata Hd.
  rewrite (handle_message_run now stdin data addr st
             (Outcome (inl (KeyError key)) st [])); [reflexivity|].
  enter Hdata Hkind. rewrite bind_get_self, Hto. unfold handle_file_offer.
  repeat
    match goal with
    | |- context [bind (subscript d ?k) _] =>
      pose proof (pure_subscript d k) as Hsub;
      destruct (PyDict.get k d);
      [ rewrite (bind_pure_ret _ _ _ _ Hsub); clear Hsub
      | injection Hmiss as <-; now rewrite (bind_pure_raise _ _ _ _ Hsub) ]
    end.
  discriminate Hmiss.
Qed.

Lemma incomplete_file_offer_not_shown_witness :
  let data :=
    datagram "{'type': 'file_offer', 'from_username': 'bob', 'to_username': 'alice', 'filename': 'notes.txt', 'size': 12}" in
  has_kind data "file_offer" = true
  /\ to_user data (username alice) = true
  /\ missing_field data = Some (lit "hash")
  /\ handle_message 1730000001 (Some (lit "y")) data (bob_ip, 5000) alice
     = Outcome (inr tt) alice [PrintHandlerError (KeyError (lit "hash"))].
Proof.
  intros data. split; [reflexivity|]. split; [reflexivity|].
  split; [reflexivity|].
  exact (incomplete_file_offer_not_shown alice 1730000001 (Some (lit "y")) data
           (bob_ip, 5000) (lit "hash") eq_refl eq_refl eq_refl).
Defined.

(** A JSON value that [file_hash[:16]] cannot slice: a number, a
    boolean or null. *)
Definition unsliceable (v : json) : bool :=
  match v with
  | JNull | JBool _ | JInt _ | JFloat _ => true
  | _ => false
  end.

(* ===================================================================== *)
(** * Chat messages *)
(* ===================================================================== *)

(** The exception a chat message for the local user raises when it
    lacks its sender or its text, or when its text is not a string. *)
Definition chat_defect (data : bytes) : option exn :=
  match field_of data "from_username" with
  | None => Some (KeyError (lit "from_username"))
  | Some _ =>
    match field_of data "text" with
    | None => Some (KeyError (lit "text"))
    | Some (JStr _) => None
    | Some _ => Some AttributeError
    end
  end.

(** X9.  Such a message is reported by the handler of line 137 and has no
    other effect: it is not printed, and its sender is not adopted even
    when there is no conversation, because the exception leaves the
    block before line 109. *)
Theorem defective_chat_not_adopted (st : P2PChat) (now : Z)
    (stdin : option pystr) (data : bytes) (addr : address) (e : exn) :
  has_kind data "message" = true ->
  to_user data (username st) = true ->
  chat_defect data = Some e ->
  handle_message now stdin data addr st
  = Outcome (inr tt) st [PrintHandlerError e].
Proof.
  intros Hkind Hto Hbad. unfold chat_defect in Hbad.
  open_datagram Hkind d Hdata Hd.
  assert (Hrun : dispatch now stdin data addr st = Outcome (inl e) st []).
  { enter Hdata Hkind. rewrite bind_get_self, Hto.
    pose proof (pure_subscript d (lit "from_username")) as Hfrom.
    destruct (PyDict.get (lit "from_username") d) as [sender|];
      [|injection Hbad as <-; now rewrite (bind_pure_raise _ _ _ _ Hfrom)].
    rewrite (bind_pure_ret _ _ _ _ Hfrom).
    pose proof (pure_subscript d (lit "text")) as Htext.
    destruct (PyDict.get (lit "text") d) as [body|];
      [|injection Hbad as <-; now rewrite (bind_pure_raise _ _ _ _ Htext)].
    rewrite (bind_pure_ret _ _ _ _ Htext).
    pose proof (pure_as_text body) as Hbody.
    destruct body; try discriminate Hbad; injection Hbad as <-;
      now rewrite (bind_pure_raise _ _ _ _ Hbody). }
  rewrite (handle_message_run _ _ _ _ _ _ Hrun). cbn [result final printed].
  destruct e; try reflexivity.
  (* the exception is not a [JSONDecodeError] *)
  destruct (PyDict.get (lit "from_username") d); [|discriminate Hbad].
  destruct (PyDict.get (lit "text") d) as [[]|]; discriminate Hbad.
Qed.

Lemma defective_chat_not_adopted_witness :
  let data :=
    datagram "{'type': 'message', 'from_username': 'eve', 'to_username': 'alice', 'text': 42}" in
  has_kind data "message" = true
  /\ to_user data (username alice) = true
  /\ chat_defect data = Some AttributeError
  /\ handle_message 1730000006 None data (eve_ip, 5000) alice
     = Outcome (inr tt) alice [PrintHandlerError AttributeError].
Proof.
  intros data. split; [reflexivity|]. split; [reflexivity|].
  split; [reflexivity|].
  exact (defective_chat_not_adopted alice 1730000006 None data (eve_ip, 5000)
           AttributeError eq_refl eq_refl eq_refl).
Defined.

(* ===================================================================== *)
(** * All or nothing, when every line can be printed *)
(* ===================================================================== *)

(** [m] changes nothing when it raises. *)
Definition atomic {A} (m : M A) : Prop :=
  forall st e, result (m st) = inl e -> final (m st) = st.

(** [m] never raises. *)
Definition unfailing {A} (m : M A) : Prop :=
  forall st, exists a, result (m st) = inr a.

Lemma atomic_silent {A} (m : M A) : silent m -> atomic m.
Proof. intros Hm st e _. apply Hm. Qed.

Lemma atomic_unfailing {A} (m : M A) : unfailing m -> atomic m.
Proof. intros Hm st e He. destruct (Hm st) as (a & Ha). congruence. Qed.

Lemma atomic_bind_silent {A B} (m : M A) (k : A -> M B) :
  silent m -> (forall a, atomic (k a)) -> atomic (bind m k).
Proof.
  intros Hm Hk st e. unfold bind. cbv zeta.
  destruct (result (m st)) as [e'|a]; cbn [result final].
  - intros _. apply Hm.
  - rewrite Hm. apply Hk.
Qed.

Lemma atomic_bind_unfailing {A B} (m : M A) (k : A -> M B) :
  atomic m -> (forall a, unfailing (k a)) -> atomic (bind m k).
Proof.
  intros Hm Hk st e. unfold bind. cbv zeta.
  destruct (result (m st)) as [e'|a] eqn:Hr; cbn [result final].
  - intros _. now apply (Hm st e').
  - intros He. destruct (Hk a (final (m st))) as (b & Hb). congruence.
Qed.

Lemma unfailing_ret {A} (a : A) : unfailing (ret a).
Proof. intros st. now exists a. Qed.

Lemma unfailing_emit (o : output) : unfailing (emit o).
Proof. intros st. now exists tt. Qed.

Lemma unfailing_set_current_chat (c : option pystr) :
  unfailing (set_current_chat c).
Proof. intros st. now exists tt. Qed.

Lemma unfailing_set_peers (d : pydict peer) : unfailing (set_peers d).
Proof. intros st. now exists tt. Qed.

Lemma unfailing_bind {A B} (m : M A) (k : A -> M B) :
  unfailing m -> (forall a, unfailing (k a)) -> unfailing (bind m k).
Proof.
  intros Hm Hk st. unfold bind. cbv zeta.
  destruct (Hm st) as (a & Ha). rewrite Ha.
  destruct (Hk a (final (m st))) as (b & Hb). now exists b.
Qed.

Lemma unfailing_bind_get {B} (k : P2PChat -> M B) :
  (forall self, unfailing (k self)) -> unfailing (bind get_self k).
Proof. intros Hk st. rewrite bind_get_self. apply Hk. Qed.

Lemma unfailing_subscript {V} (d : pydict V) (key : pystr) :
  PyDict.mem key d = true -> unfailing (subscript d key).
Proof.
  unfold PyDict.mem, subscript. intros H st.
  destruct (PyDict.get key d) as [v|]; [now exists v | discriminate].
Qed.

(** Line 109. *)
Lemma unfailing_adopt (from_ip : pystr) :
  unfailing (bind get_self
               (fun self' =>
                  if negb (is_set (current_chat self'))
                  then set_current_chat (Some from_ip)
                  else ret tt)).
Proof.
  apply unfailing_bind_get. intros self.
  destruct (negb (is_set (current_chat self)));
    [apply unfailing_set_current_chat | apply unfailing_ret].
Qed.

Lemma atomic_handle_command (now : Z) (command : pystr)
    (from_ip : option pystr) :
  atomic (handle_command now command from_ip).
Proof.
  unfold handle_command, show_help.
  destruct (startswith (lit "/msg ") command).
  - apply atomic_bind_silent; [apply silent_get_self|intros self].
    destruct (PyDict.mem (strip (slice_from 5 command)) (peers self)) eqn:Hmem.
    + apply atomic_unfailing, unfailing_bind;
        [apply unfailing_set_current_chat|intros _].
      apply unfailing_bind; [now apply unfailing_subscript|intros info].
      apply unfailing_emit.
    + apply atomic_silent, silent_emit.
  - destruct (PyStr.eqb command (lit "/list"));
      [apply atomic_silent, silent_list_peers|].
    destruct (PyStr.eqb command (lit "/quit") && is_set from_ip).
    + apply atomic_bind_silent; [apply silent_get_self|intros self].
      destruct (current_chat self) as [partner|];
        [|apply atomic_silent, silent_ret].
      destruct (PyStr.truthy partner); [|apply atomic_silent, silent_ret].
      apply atomic_bind_silent;
        [eapply silent_pure; apply pure_subscript|intros info].
      apply atomic_bind_silent; [apply silent_emit|intros _].
      apply atomic_unfailing, unfailing_set_current_chat.
    + destruct (PyStr.eqb command (lit "/help"));
        [apply atomic_silent, silent_emit | apply atomic_silent, silent_ret].
Qed.

Lemma atomic_dispatch (now : Z) (stdin : option pystr) (data : bytes)
    (addr : address) :
  atomic (dispatch now stdin data addr).
Proof.
  unfold dispatch. cbv zeta.
  apply atomic_bind_silent; [eapply silent_pure; apply pure_load|intros message].
  apply atomic_bind_silent; [eapply silent_pure; apply pure_as_dict|intros d].
  destruct (eq_str (type_of d) (lit "presence")).
  { (* presence *)
    apply atomic_bind_silent;
      [eapply silent_pure; apply pure_subscript|intros name].
    apply atomic_bind_silent; [apply silent_get_self|intros self].
    apply atomic_unfailing, unfailing_set_peers. }
  destruct (eq_str (type_of d) (lit "message")).
  { (* message *)
    apply atomic_bind_silent; [apply silent_get_self|intros self].
    destruct (addressed_to d (username self));
      [|apply atomic_silent, silent_ret].
    apply atomic_bind_silent;
      [eapply silent_pure; apply pure_subscript|intros sender].
    apply atomic_bind_silent;
      [eapply silent_pure; apply pure_subscript|intros body].
    apply atomic_bind_silent;
      [eapply silent_pure; apply pure_as_text|intros text].
    apply atomic_bind_unfailing; [|intros _; apply unfailing_adopt].
    destruct (startswith (lit "/") text);
      [apply atomic_handle_command | apply atomic_silent, silent_emit]. }
  destruct (eq_str (type_of d) (lit "typing")).
  { apply atomic_bind_silent; [apply silent_get_self|intros self].
    destruct (addressed_to d (username self));
      [|apply atomic_silent, silent_ret].
    apply atomic_bind_silent;
      [eapply silent_pure; apply pure_subscript|intros sender].
    apply atomic_silent, silent_emit. }
  destruct (eq_str (type_of d) (lit "read_receipt")).
  { apply atomic_bind_silent; [apply silent_get_self|intros self].
    destruct (addressed_to d (username self));
      [|apply atomic_silent, silent_ret].
    apply atomic_bind_silent;
      [eapply silent_pure; apply pure_subscript|intros sender].
    apply atomic_silent, silent_emit. }
  destruct (eq_str (type_of d) (lit "file_offer")).
  { apply atomic_bind_silent; [apply silent_get_self|intros self].
    destruct (addressed_to d (username self));
      [apply atomic_silent, silent_handle_file_offer
      |apply atomic_silent, silent_ret]. }
  destruct (eq_str (type_of d) (lit "disconnect"));
    [|apply atomic_silent, silent_ret].
  apply atomic_bind_silent; [apply silent_get_self|intros self].
  destruct (PyDict.mem (fst addr) (peers self)) eqn:Hmem;
    [|apply atomic_silent, silent_ret].
  apply atomic_unfailing.
  apply unfailing_bind; [now apply unfailing_subscript|intros info].
  apply unfailing_bind; [apply unfailing_emit|intros _].
  apply unfailing_bind.
  - destruct (current_chat self) as [partner|]; [|apply unfailing_ret].
    destruct (PyStr.eqb partner (fst addr));
      [apply unfailing_set_current_chat | apply unfailing_ret].
  - intros _. apply unfailing_bind_get. intros self'.
    apply unfailing_set_peers.
Qed.

(* ===================================================================== *)
(** * The loops of the program *)
(* ===================================================================== *)

(** [__init__], [signal_handler], [start_listener], [broadcast_presence],
    [connect_to_peer], [chat_loop] and [get_local_ip].  They print lines
    of their own and can end in [SystemExit] or [KeyboardInterrupt],
    which [except Exception] does not catch; the methods modelled above
    are run inside them unchanged.  The program runs them in several
    threads; here a call of [handle_message] is one step, taken between
    two turns of the loop of another thread. *)
Module Session.

Local Open Scope Z_scope.

(** What ends a method other than [return]. *)
Inductive fault : Type :=
| Raised (e : exn)                 (* an exception of class [Exception] *)
| KeyboardInterrupt
| SystemExit (code : Z).

(** What the loops print or do, in order, with the line of the source. *)
Inductive event : Type :=
| Core (o : output)                          (* from the methods above *)
| PrintShuttingDown                          (* 48 *)
| CloseSocket                                (* 51 *)
| PrintListening (port : Z)                  (* 58 *)
| PrintYourUsername (name : pystr)           (* 59 *)
| PrintYourIP (ip : pystr)                   (* 60 *)
| StartBroadcaster                           (* 63-65 *)
| PrintListenError (e : exn)                 (* 76 *)
| PrintBindFailed (port : Z) (e : exn)       (* 79 *)
| Sleep (seconds : Z)                        (* 176, 180 *)
| PrintBroadcastError (e : exn)              (* 179 *)
| PrintConnected (name ip : pystr)           (* 193 *)
| PrintTypeHelp                              (* 194 *)
| ClearScreen                                (* 220 *)
| PrintLoopError (e : exn).                  (* 235 *)

Record run (A : Type) : Type := Run {
  answer : fault + A;
  after : P2PChat;
  log : list event
}.

Arguments Run {A} _ _ _.
Arguments answer {A} _.
Arguments after {A} _.
Arguments log {A} _.

Definition Act (A : Type) : Type := P2PChat -> run A.

Definition unit_ {A} (a : A) : Act A :=
  fun self => Run (inr a) self [].

Definition abort {A} (f : fault) : Act A :=
  fun self => Run (inl f) self [].

Definition then_ {A B} (m : Act A) (k : A -> Act B) : Act B :=
  fun self =>
    let r := m self in
    match answer r with
    | inl f => Run (inl f) (after r) (log r)
    | inr a =>
      let r' := k a (after r) in
      Run (answer r') (after r') (log r ++ log r')
    end.

(** [try: m except ...: h], the handler choosing by the kind of fault
    (it raises the fault again where the source has no clause for it). *)
Definition attempt {A} (m : Act A) (h : fault -> Act A) : Act A :=
  fun self =>
    let r := m self in
    match answer r with
    | inl f =>
      let r' := h f (after r) in
      Run (answer r') (after r') (log r ++ log r')
    | inr a => r
    end.

(** A method of the part above, run here. *)
Definition lift {A} (m : M A) : Act A :=
  fun self =>
    let r := m self in
    Run (match result r with inl e => inl (Raised e) | inr a => inr a end)
      (final r) (List.map Core (printed r)).

Definition self_ : Act P2PChat :=
  fun self => Run (inr self) self [].

Definition say (e : event) : Act unit :=
  fun self => Run (inr tt) self [e].

Definition set_running (b : bool) : Act unit :=
  fun self =>
    Run (inr tt)
      (Build (username self) (port self) b (peers self) (current_chat self))
      [].

Declare Scope session_scope.
Delimit Scope session_scope with session.
Notation "x <- m ;; k" := (then_ m (fun x => k))
  (at level 61, m at next level, right associativity) : session_scope.
Notation "m ;; k" := (then_ m (fun _ => k))
  (at level 61, right associativity) : session_scope.
Local Open Scope session_scope.

(** ** [__init__] (lines 33-44) *)

(** [username or socket.gethostname()]: [None] and the empty string give
    the host name. *)
Definition init (name : option pystr) (hostname : pystr) (port : Z) : P2PChat :=
  Build (match name with
         | Some u => if PyStr.truthy u then u else hostname
         | None => hostname
         end)
    port true [] None.

(** ** [signal_handler] (lines 46-52) *)

Definition signal_handler : Act unit :=
  say PrintShuttingDown ;;
  set_running false ;;
  say CloseSocket ;;
  abort (SystemExit 0).

(** ** [get_local_ip] (lines 406-415) *)

(** [probe] is the local address of a socket connected to 8.8.8.8,
    [None] when a step of lines 409-412 raises. *)
Definition get_local_ip (probe : option pystr) : pystr :=
  match probe with
  | Some ip => ip
  | None => lit "127.0.0.1"
  end.

(** ** [start_listener] (lines 54-80) *)

(** One turn of the loop of line 68 as the environment drives it: what
    [recvfrom] gives and, for the thread that handles the datagram, the
    clock and the line the user types if asked. *)
Record arrival : Type := Arrival {
  got : received;
  handled_at : Z;
  typed : option pystr
}.

(** Lines 69-76; the thread of line 71 is run at once. *)
Definition listen_turn (a : arrival) : Act unit :=
  attempt
    (packet <- lift (recvfrom (got a)) ;;
     lift (handle_message (handled_at a) (typed a) (fst packet) (snd packet)))
    (fun f =>
       match f with
       | Raised SocketTimeout => unit_ tt
       | Raised e =>
         self <- self_ ;;
         if running self then say (PrintListenError e) else unit_ tt
       | _ => abort f
       end).

(** [while self.running].  The result tells whether the loop was left;
    [false] means that it goes on beyond the given turns. *)
Fixpoint listen (arrivals : list arrival) : Act bool :=
  match arrivals with
  | [] => unit_ false
  | a :: rest =>
    self <- self_ ;;
    if running self then listen_turn a ;; listen rest else unit_ true
  end.

(** [bound] tells whether [bind] succeeds. *)
Definition start_listener (bound : bool) (probe : option pystr)
    (arrivals : list arrival) : Act bool :=
  attempt
    ((if bound then unit_ tt else abort (Raised OSError)) ;;
     self <- self_ ;;
     say (PrintListening (port self)) ;;
     say (PrintYourUsername (username self)) ;;
     say (PrintYourIP (get_local_ip probe)) ;;
     say StartBroadcaster ;;
     listen arrivals)
    (fun f =>
       match f with
       | Raised e =>
         self <- self_ ;;
         say (PrintBindFailed (port self) e) ;;
         abort (SystemExit 1)
       | _ => abort f
       end).

(** ** [broadcast_presence] (lines 164-180) *)

(** Lines 174-180: one turn, [up] telling whether [sendto] succeeds. *)
Definition broadcast_turn (presence_msg : Message) (broadcast_addr : address)
    (up : bool) : Act unit :=
  attempt
    (payload <- lift (serialise presence_msg) ;;
     lift (sendto up payload broadcast_addr) ;;
     say (Sleep 30))
    (fun f =>
       match f with
       | Raised e =>
         self <- self_ ;;
         (if running self then say (PrintBroadcastError e) else unit_ tt) ;;
         say (Sleep 5)
       | _ => abort f
       end).

Fixpoint broadcast_loop (presence_msg : Message) (broadcast_addr : address)
    (ups : list bool) : Act bool :=
  match ups with
  | [] => unit_ false
  | up :: rest =>
    self <- self_ ;;
    if running self
    then broadcast_turn presence_msg broadcast_addr up ;;
         broadcast_loop presence_msg broadcast_addr rest
    else unit_ true
  end.

(** [started_at] is the reading of the clock at line 170, before the
    loop. *)
Definition broadcast_presence (started_at : Z) (ups : list bool) : Act bool :=
  self <- self_ ;;
  let broadcast_addr := (BROADCAST, port self) in
  let presence_msg := Presence (username self) started_at in
  broadcast_loop presence_msg broadcast_addr ups.

(** ** [chat_loop] (lines 202-239) *)

(** What the keyboard gives in one turn of the loop. *)
Inductive key : Type :=
| Quiet                     (* [select] times out after 0.1 s *)
| Typed (line : pystr)      (* [readline()]: the line, empty at end of file *)
| Interrupt                 (* [KeyboardInterrupt] is raised in the body *)
| Sigint.                   (* SIGINT arrives: [signal_handler] is run *)

(** One turn as the environment drives it: the keyboard, the network,
    the file system, and the readings of the clock in [send_message] or
    [send_file_offer] or [list_peers], at line 228, in [send_typing] and
    at line 230. *)
Record turn : Type := Turn {
  pressed : key;
  up : bool;
  fs : filesystem;
  at_send : Z;
  at_check : Z;
  at_typing : Z;
  at_stamp : Z
}.

(** A turn of the loop, or a datagram handled by the listening thread
    between two turns. *)
Inductive step : Type :=
| Loop (t : turn)
| Handled (now : Z) (stdin : option pystr) (data : bytes) (addr : address).

Inductive control : Type := Continue | Break.

(** [self.current_chat == peer_ip] *)
Definition partner_is (self : P2PChat) (peer_ip : pystr) : bool :=
  match current_chat self with
  | Some p => PyStr.eqb p peer_ip
  | None => false
  end.

(** Lines 209-230: the body of the [try] statement, with the value of
    [last_typing] it leaves. *)
Definition loop_body (peer_ip peer_username : pystr) (peer_port : Z)
    (t : turn) (last_typing : Z) : Act (control * Z) :=
  match pressed t with
  | Quiet => unit_ (Continue, last_typing)
  | Interrupt => abort KeyboardInterrupt
  | Sigint => signal_handler ;; unit_ (Continue, last_typing)
  | Typed line =>
    let message := strip line in
    if negb (PyStr.truthy message) then unit_ (Continue, last_typing)
    else if PyStr.eqb message (lit "/quit") then unit_ (Break, last_typing)
    else if PyStr.eqb message (lit "/list") then
      lift (list_peers (at_send t)) ;; unit_ (Continue, last_typing)
    else if PyStr.eqb message (lit "/clear") then
      say ClearScreen ;; unit_ (Continue, last_typing)
    else if startswith (lit "/sendfile ") message then
      lift (send_file_offer (up t) (fs t) (at_send t)
              (strip (slice_from 10 message)) peer_ip peer_username peer_port) ;;
      unit_ (Continue, last_typing)
    else
      lift (send_message (up t) (at_send t) message peer_ip peer_username
              peer_port) ;;
      if 3 * SECOND <? at_check t - last_typing then
        lift (send_typing (up t) (at_typing t) peer_ip peer_username
                peer_port) ;;
        unit_ (Continue, at_stamp t)
      else unit_ (Continue, last_typing)
  end.

(** Lines 207-235. *)
Definition loop_turn (peer_ip peer_username : pystr) (peer_port : Z)
    (t : turn) (last_typing : Z) : Act (control * Z) :=
  attempt (loop_body peer_ip peer_username peer_port t last_typing)
    (fun f =>
       match f with
       | KeyboardInterrupt => unit_ (Break, last_typing)
       | Raised e => say (PrintLoopError e) ;; unit_ (Continue, last_typing)
       | SystemExit _ => abort f
       end).

(** [while self.running and self.current_chat == peer_ip].  The result
    tells whether the loop was left. *)
Fixpoint chat_turns (peer_ip peer_username : pystr) (peer_port : Z)
    (last_typing : Z) (steps : list step) : Act bool :=
  match steps with
  | [] => unit_ false
  | Handled now stdin data addr :: rest =>
    lift (handle_message now stdin data addr) ;;
    chat_turns peer_ip peer_username peer_port last_typing rest
  | Loop t :: rest =>
    self <- self_ ;;
    if running self && partner_is self peer_ip then
      r <- loop_turn peer_ip peer_username peer_port t last_typing ;;
      match fst r with
      | Break => unit_ true
      | Continue => chat_turns peer_ip peer_username peer_port (snd r) rest
      end
    else unit_ true
  end.

(** [bye_up] and [bye_at]: the network and the clock in
    [send_disconnect] at line 238. *)
Definition chat_loop (peer_ip peer_username : pystr) (peer_port : Z)
    (steps : list step) (bye_up : bool) (bye_at : Z) : Act bool :=
  left <- chat_turns peer_ip peer_username peer_port 0 steps ;;
  if left then
    lift (send_disconnect bye_up bye_at peer_ip peer_port) ;;
    lift (set_current_chat None) ;;
    unit_ true
  else unit_ false.

(** ** [connect_to_peer] (lines 182-200) *)



End Session.

Import Session.

(* ===================================================================== *)
(** * What no datagram changes *)
(* ===================================================================== *)

Section Identity.

Variable st0 : P2PChat.

Let same (st : P2PChat) : Prop :=
  username st = username st0 /\ port st = port st0
  /\ running st = running st0.

Lemma same_set_current_chat (c : option pystr) :
  stable same (set_current_chat c).
Proof. intros st H. exact H. Qed.

Lemma same_set_peers (d : pydict peer) : stable same (set_peers d).
Proof. intros st H. exact H. Qed.

Lemma same_handle_command (now : Z) (command : pystr)
    (from_ip : option pystr) :
  stable same (handle_command now command from_ip).
Proof.
  unfold handle_command, show_help. walk; apply same_set_current_chat.
Qed.

Lemma same_handle_message (now : Z) (stdin : option pystr) (data : bytes)
    (addr : address) :
  stable same (handle_message now stdin data addr).
Proof.
  unfold handle_message, dispatch. cbv zeta. walk;
    first [ apply same_set_current_chat | apply same_set_peers
          | apply same_handle_command ].
Qed.

End Identity.

(** The local name, the port and the running flag are out of reach of
    the network. *)
Lemma handle_message_identity (st : P2PChat) (now : Z) (stdin : option pystr)
    (data : bytes) (addr : address) :
  let st' := final (handle_message now stdin data addr st) in
  username st' = username st /\ port st' = port st
  /\ running st' = running st.
Proof.
  apply (same_handle_message st now stdin data addr st). repeat split.
Qed.

Lemma result_handle_message (st : P2PChat) (now : Z) (stdin : option pystr)
    (data : bytes) (addr : address) :
  result (handle_message now stdin data addr st) = inr tt.
Proof.
  rewrite (handle_message_run now stdin data addr st _ eq_refl).
  destruct (result (dispatch now stdin data addr st)) as [[]|[]] eqn:E;
    cbn [result]; auto.
Qed.

(* ===================================================================== *)
(** * Running the loops *)
(* ===================================================================== *)

Lemma then_self {B} (k : P2PChat -> Act B) (st : P2PChat) :
  then_ self_ k st = k st st.
Proof. unfold then_, self_. cbn. now destruct (k st st). Qed.

Lemma then_unit {A B} (a : A) (k : A -> Act B) (st : P2PChat) :
  then_ (unit_ a) k st = k a st.
Proof. unfold then_, unit_. cbn. now destruct (k a st). Qed.

Lemma then_say {B} (e : event) (k : unit -> Act B) (st : P2PChat) :
  then_ (say e) k st
  = Run (answer (k tt st)) (after (k tt st)) (e :: log (k tt st)).
Proof. reflexivity. Qed.

Lemma then_run {A B} (m : Act A) (k : A -> Act B) (st : P2PChat) (r : run A) :
  m st = r ->
  then_ m k st
  = match answer r with
    | inl f => Run (inl f) (after r) (log r)
    | inr a =>
      Run (answer (k a (after r))) (after (k a (after r)))
        (log r ++ log (k a (after r)))
    end.
Proof. intros <-. reflexivity. Qed.

Lemma lift_outcome {A} (m : M A) (st : P2PChat) (r : outcome A) :
  m st = r ->
  lift m st
  = Run (match result r with inl e => inl (Raised e) | inr a => inr a end)
      (final r) (List.map Core (printed r)).
Proof. intros <-. reflexivity. Qed.

Lemma attempt_run {A} (m : Act A) (h : fault -> Act A) (st : P2PChat)
    (r : run A) :
  m st = r ->
  attempt m h st
  = match answer r with
    | inl f =>
      Run (answer (h f (after r))) (after (h f (after r)))
        (log r ++ log (h f (after r)))
    | inr _ => r
    end.
Proof. intros <-. reflexivity. Qed.

Lemma lift_handle_message (st : P2PChat) (now : Z) (stdin : option pystr)
    (data : bytes) (addr : address) :
  lift (handle_message now stdin data addr) st
  = Run (inr tt) (final (handle_message now stdin data addr st))
      (List.map Core (printed (handle_message now stdin data addr st))).
Proof. unfold lift. cbv zeta. now rewrite result_handle_message. Qed.

(* ===================================================================== *)
(** * The listener *)
(* ===================================================================== *)

(** Where one turn of the listening loop leaves the object. *)
Definition serve (st : P2PChat) (a : arrival) : P2PChat :=
  match got a with
  | Datagram data addr =>
    final (handle_message (handled_at a) (typed a) data addr st)
  | _ => st
  end.

(** What one turn prints. *)
Definition heard (st : P2PChat) (a : arrival) : list event :=
  match got a with
  | RecvTimeout => []
  | RecvFailed => if running st then [PrintListenError OSError] else []
  | Datagram data addr =>
    List.map Core
      (printed (handle_message (handled_at a) (typed a) data addr st))
  end.

Fixpoint heard_all (st : P2PChat) (arrivals : list arrival) : list event :=
  match arrivals with
  | [] => []
  | a :: rest => heard st a ++ heard_all (serve st a) rest
  end.

Lemma listen_turn_run (a : arrival) (st : P2PChat) :
  listen_turn a st = Run (inr tt) (serve st a) (heard st a).
Proof.
  unfold listen_turn, serve, heard.
  destruct (got a) as [| |data addr].
  - reflexivity.
  - rewrite (attempt_run _ _ st (Run (inl (Raised OSError)) st []) eq_refl).
    cbn [answer after log app].
    rewrite then_self. now destruct (running st).
  - rewrite (attempt_run _ _ st
               (Run (inr tt)
                  (final (handle_message (handled_at a) (typed a) data addr st))
                  (List.map Core
                     (printed (handle_message (handled_at a) (typed a) data
                                 addr st))))); [reflexivity|].
    rewrite (then_run _ _ _ _
               (lift_outcome (recvfrom (Datagram data addr)) st _ eq_refl)).
    cbn [recvfrom ret result final printed answer after log List.map
         fst snd app].
    now rewrite !lift_handle_message.
Qed.

Lemma running_serve (st : P2PChat) (a : arrival) :
  running (serve st a) = running st.
Proof.
  unfold serve. destruct (got a); auto. apply handle_message_identity.
Qed.

Lemma listen_run (arrivals : list arrival) (st : P2PChat) :
  running st = true ->
  listen arrivals st
  = Run (inr false) (fold_left serve arrivals st) (heard_all st arrivals).
Proof.
  revert st. induction arrivals as [|a rest IH]; intros st Hrun;
    cbn [listen fold_left heard_all]; [reflexivity|].
  rewrite then_self, Hrun.
  rewrite (then_run _ _ _ _ (listen_turn_run a st)).
  cbn [answer after log].
  rewrite IH by (now rewrite running_serve). reflexivity.
Qed.

Lemma start_listener_run (st : P2PChat) (probe : option pystr)
    (arrivals : list arrival) :
  running st = true ->
  start_listener true probe arrivals st
  = Run (inr false) (fold_left serve arrivals st)
      ([PrintListening (port st); PrintYourUsername (username st);
        PrintYourIP (get_local_ip probe); StartBroadcaster]
       ++ heard_all st arrivals).
Proof.
  intros Hrun. unfold start_listener, attempt. cbv zeta.
  rewrite !then_unit, !then_self, !then_say. cbn [answer after log].
  now rewrite !listen_run by exact Hrun.
Qed.

(** ** Where the entries of the registry come from *)

(** The datagram is an announcement: a presence datagram with a user
    name. *)
Definition announces (data : bytes) : bool :=
  has_kind data "presence"
  && match field_of data "username" with Some _ => true | None => false end.

Lemma key_origin (st0 : P2PChat) (k : pystr) (now : Z) (stdin : option pystr)
    (data : bytes) (addr : address) :
  stable (fun st => In k (keys (peers st)) ->
                    In k (keys (peers st0))
                    \/ (k = fst addr /\ announces data = true))
    (handle_message now stdin data addr).
Proof.
  set (P := fun d : pydict peer =>
              In k (keys d) ->
              In k (keys (peers st0))
              \/ (k = fst addr /\ announces data = true)).
  unfold handle_message, dispatch. cbv zeta. walk;
    try apply (stable_set_current_chat P);
    try apply (stable_handle_command P); known.
  - (* presence: line 91 *)
    intros st _ Hin. cbn in Hin. apply keys_set in Hin as [->|Hin].
    + right. split; [reflexivity|].
      unfold announces, has_kind, field_of, parsed.
      repeat match goal with
             | H : decode data = _ |- _ => rewrite H; clear H
             | H : eq_str _ _ = true |- _ => rewrite H; clear H
             | H : PyDict.get _ _ = Some _ |- _ => rewrite H; clear H
             end.
      reflexivity.
    + match goal with H : In k _ -> _ |- _ => now apply H end.
  - (* disconnect: line 133 *)
    intros st _ Hin. cbn in Hin. apply keys_del in Hin as [_ Hin].
    match goal with H : In k _ -> _ |- _ => now apply H end.
Qed.

Lemma serve_origin (st0 : P2PChat) (k : pystr) (arrivals : list arrival) :
  forall st,
    (In k (keys (peers st)) ->
     In k (keys (peers st0))
     \/ exists a data addr,
          In a arrivals /\ got a = Datagram data addr /\ fst addr = k
          /\ announces data = true) ->
    forall a,
      In a arrivals ->
      In k (keys (peers (serve st a))) ->
      In k (keys (peers st0))
      \/ exists a data addr,
           In a arrivals /\ got a = Datagram data addr /\ fst addr = k
           /\ announces data = true.
Proof.
  intros st Hst a Ha. unfold serve.
  destruct (got a) as [| |data addr] eqn:Hgot; auto.
  intros Hin.
  pose proof (key_origin st k (handled_at a) (typed a) data addr st
                (fun H => or_introl H)) as HI.
  destruct (HI Hin) as [Hold|[-> Hann]]; [now apply Hst|].
  right. now exists a, data, addr.
Qed.

(** X15.  Whatever arrives, the listener fills the registry from announcements
    only: a key of the registry it leaves was a key before, or is the
    source address of a presence datagram with a user name among the
    datagrams received.  A chat message, a command or a file offer never
    registers its sender. *)
Theorem listener_registers_announcers_only (st : P2PChat) (bound : bool)
    (probe : option pystr) (arrivals : list arrival) (k : pystr) :
  In k (keys (peers (after (start_listener bound probe arrivals st)))) ->
  In k (keys (peers st))
  \/ exists a data addr,
       In a arrivals /\ got a = Datagram data addr /\ fst addr = k
       /\ announces data = true.
Proof.
  assert (Hfold : forall seen st',
             (forall a, In a seen -> In a arrivals) ->
             (In k (keys (peers st')) ->
              In k (keys (peers st))
              \/ exists a data addr,
                   In a arrivals /\ got a = Datagram data addr
                   /\ fst addr = k /\ announces data = true) ->
             In k (keys (peers (fold_left serve seen st'))) ->
             In k (keys (peers st))
             \/ exists a data addr,
                  In a arrivals /\ got a = Datagram data addr
                  /\ fst addr = k /\ announces data = true).
  { induction seen as [|a seen IH]; intros st' Hsub Hst'; cbn [fold_left];
      [exact Hst'|].
    apply IH; [intros b Hb; apply Hsub; now right|].
    apply (serve_origin st k arrivals st' Hst' a). apply Hsub. now left. }
  destruct bound; [|cbn; now left].
  destruct (running st) eqn:Hrun.
  - rewrite (start_listener_run st probe arrivals Hrun).
    cbn [after]. apply Hfold; auto.
  - unfold start_listener, attempt. cbv zeta.
    rewrite !then_unit, !then_self, !then_say. cbn [answer after log].
    destruct arrivals as [|a rest]; cbn [listen].
    + cbn. now left.
    + rewrite !then_self, Hrun. cbn. now left.
Qed.

Lemma listener_registers_announcers_only_witness :
  let arrivals :=
    [Arrival (Datagram hello_from_bob (eve_ip, 5000)) 1730000001 None;
     Arrival (Datagram presence_of_bob (bob_ip, 5000)) 1730000002 None] in
  In bob_ip (keys (peers (after (start_listener true None arrivals alice))))
  /\ (In bob_ip (keys (peers alice))
      \/ exists a data addr,
           In a arrivals /\ got a = Datagram data addr /\ fst addr = bob_ip
           /\ announces data = true).
Proof.
  intros arrivals.
  assert (H : In bob_ip
                (keys (peers (after (start_listener true None arrivals alice)))))
    by (vm_compute; left; reflexivity).
  split; [exact H|].
  exact (listener_registers_announcers_only alice true None arrivals bob_ip H).
Defined.

(* ===================================================================== *)
(** * All that a datagram can do *)
(* ===================================================================== *)

(** The datagram is a chat message for [name]. *)
Definition chat_for (name : pystr) (data : bytes) : bool :=
  has_kind data "message" && to_user data name.

Section Effects.

Variables (st0 : P2PChat) (data : bytes) (addr : address).

Hypothesis Hpresence : has_kind data "presence" = false.
Hypothesis Hdisconnect : has_kind data "disconnect" = false.

(** What a datagram that is neither a presence nor a disconnect leaves:
    the object as it was, but for the session pointer when the datagram
    is a chat message for the local user. *)
Let kept (st : P2PChat) : Prop :=
  username st = username st0 /\ port st = port st0
  /\ running st = running st0 /\ peers st = peers st0
  /\ (current_chat st = current_chat st0
      \/ (chat_for (username st0) data = true
          /\ (current_chat st = None
              \/ current_chat st = Some (fst addr)
              \/ exists target,
                   current_chat st = Some target
                   /\ PyDict.mem target (peers st0) = true))).

Lemma kept_handle_message (now : Z) (stdin : option pystr) :
  stable kept (handle_message now stdin data addr).
Proof.
  unfold handle_message, dispatch, handle_command, show_help. cbv zeta.
  walk; known;
    try (exfalso;
         pose proof Hpresence as Hp; pose proof Hdisconnect as Hd;
         unfold has_kind, parsed in Hp, Hd;
         match goal with
         | H : decode data = _ |- _ => rewrite H in Hp, Hd
         end; congruence);
    intros st Hst;
    assert (Hchat : chat_for (username st0) data = true)
      by (unfold chat_for, has_kind, to_user, parsed;
          match goal with H : decode data = _ |- _ => rewrite H end;
          match goal with
          | H : eq_str _ (lit "message") = true |- _ => rewrite H
          end;
          match goal with
          | Ha : addressed_to _ (username ?s) = true, Hk : kept ?s |- _ =>
            pose proof Hk as (Hn & _); rewrite Hn in Ha; rewrite Ha
          end; reflexivity);
    destruct Hst as (H1' & H2' & H3' & H4' & _);
    repeat (split; [assumption|]);
    right; (split; [exact Hchat|]).
  - (* line 146 *)
    right. right. eexists. split; [reflexivity|].
    match goal with
    | Hk : kept ?s, Hm : PyDict.mem _ (peers ?s) = true |- _ =>
      destruct Hk as (_ & _ & _ & Hp & _); rewrite <- Hp; exact Hm
    end.
  - (* line 159 *)
    now left.
  - (* line 110 *)
    right. now left.
Qed.

End Effects.

Lemma final_handle_message (st : P2PChat) (now : Z) (stdin : option pystr)
    (data : bytes) (addr : address) :
  final (handle_message now stdin data addr st)
  = final (dispatch now stdin data addr st).
Proof.
  rewrite (handle_message_run now stdin data addr st _ eq_refl).
  destruct (result (dispatch now stdin data addr st)) as [[]|[]];
    reflexivity.
Qed.

(** The effect of a datagram on the object, case by case. *)
Lemma handle_message_effects (st : P2PChat) (now : Z) (stdin : option pystr)
    (data : bytes) (addr : address) :
  let st' := final (handle_message now stdin data addr st) in
  st' = st
  \/ (exists name,
        has_kind data "presence" = true
        /\ field_of data "username" = Some name
        /\ st' = with_peers st (PyDict.set (fst addr) (Peer name now) (peers st)))
  \/ (has_kind data "disconnect" = true
      /\ PyDict.mem (fst addr) (peers st) = true
      /\ st' = Build (username st) (port st) (running st)
                 (PyDict.del (fst addr) (peers st))
                 (match current_chat st with
                  | Some partner =>
                    if PyStr.eqb partner (fst addr) then None else Some partner
                  | None => None
                  end))
  \/ (chat_for (username st) data = true
      /\ exists c,
           st' = with_chat st c
           /\ (c = None \/ c = Some (fst addr)
               \/ exists target,
                    c = Some target
                    /\ PyDict.mem target (peers st) = true)).
Proof.
  intros st'. subst st'.
  destruct (has_kind data "presence") eqn:Hpresence.
  { pose proof Hpresence as Hkind. apply has_kind_inv in Hkind as (d & Hd & Hkind).
    pose proof (parsed_decode _ _ Hd) as Hdata.
    destruct (field_of data "username") as [name|] eqn:Hname;
      unfold field_of in Hname; rewrite Hd in Hname.
    - right. left. exists name. split; [reflexivity|]. split; [reflexivity|].
      now rewrite (handle_presence st now stdin data addr d name).
    - left. rewrite final_handle_message.
      apply (atomic_dispatch now stdin data addr st (KeyError (lit "username"))).
      enter Hdata Hkind.
      pose proof (pure_subscript d (lit "username")) as Hsub.
      rewrite Hname in Hsub. now rewrite (bind_pure_raise _ _ _ _ Hsub). }
  destruct (has_kind data "disconnect") eqn:Hdisconnect.
  { pose proof Hdisconnect as Hkind.
    apply has_kind_inv in Hkind as (d & Hd & Hkind).
    pose proof (parsed_decode _ _ Hd) as Hdata.
    destruct (PyDict.get (fst addr) (peers st)) as [info|] eqn:Hget.
    - right. right. left. split; [reflexivity|]. split.
      + unfold PyDict.mem. now rewrite Hget.
      + now rewrite (handle_disconnect_known st now stdin data addr d info).
    - left. rewrite (handle_disconnect_unknown st now stdin data addr d); auto.
      unfold PyDict.mem. now rewrite Hget. }
  pose proof (kept_handle_message st data addr Hpresence Hdisconnect now stdin st)
    as Hkept.
  cbv zeta in Hkept.
  destruct Hkept as (Hn & Hp & Hr & Hpeers & Hcur); [repeat split; auto|].
  set (st' := final (handle_message now stdin data addr st)) in *.
  assert (Hst' : st' = with_chat st (current_chat st')).
  { destruct st'. cbn in *. unfold with_chat. now subst. }
  destruct Hcur as [Hcur|(Hchat & Hcur)].
  - left. rewrite Hst', Hcur. apply with_chat_same.
  - right. right. right. split; [exact Hchat|].
    exists (current_chat st'). split; [exact Hst'|]. exact Hcur.
Qed.

(** X16.  Every datagram leaves the local name, the port and the running flag
    alone.  The registry changes only on a presence datagram or on a
    disconnect from a registered address; a chat message, whatever
    command it carries, never adds or removes an entry.  The session
    pointer changes only on a chat message for the local user or on a
    disconnect from the partner when the partner is registered: typing
    notices, read receipts, file offers, datagrams of unknown kind,
    datagrams for another user and malformed datagrams never move it. *)
Theorem what_a_datagram_can_change (st : P2PChat) (now : Z)
    (stdin : option pystr) (data : bytes) (addr : address) :
  let st' := final (handle_message now stdin data addr st) in
  username st' = username st /\ port st' = port st
  /\ running st' = running st
  /\ (peers st' <> peers st ->
      has_kind data "presence" = true
      \/ (has_kind data "disconnect" = true
          /\ PyDict.mem (fst addr) (peers st) = true))
  /\ (current_chat st' <> current_chat st ->
      chat_for (username st) data = true
      \/ (has_kind data "disconnect" = true
          /\ PyDict.mem (fst addr) (peers st) = true
          /\ current_chat st = Some (fst addr))).
Proof.
  intros st'.
  destruct (handle_message_identity st now stdin data addr) as (Hn & Hp & Hr).
  fold st' in Hn, Hp, Hr. repeat (split; [assumption|]).
  destruct (handle_message_effects st now stdin data addr)
    as [E|[(name & Hkind & _ & E)|[(Hkind & Hmem & E)|(Hchat & c & E & _)]]];
    fold st' in E; rewrite E; cbn [peers current_chat with_peers with_chat].
  - split; congruence.
  - split; [now left | congruence].
  - split; [now right|]. intros Hcur. right.
    split; [exact Hkind|]. split; [exact Hmem|].
    destruct (current_chat st) as [partner|]; [|congruence].
    destruct (PyStr.eqb_spec partner (fst addr)); congruence.
  - split; [congruence | now left].
Qed.

(* ===================================================================== *)
(** * The partner and the registry *)
(* ===================================================================== *)

(** The partner, if there is one, has an entry in the registry.  This
    is what line 158 relies on, and what line 129 needs to honour the
    partner's disconnect. *)
Definition partner_registered (st : P2PChat) : Prop :=
  forall p, current_chat st = Some p -> p <> [] ->
            PyDict.mem p (peers st) = true.

Lemma mem_set (k k' : pystr) (v : peer) (d : pydict peer) :
  PyDict.mem k' d = true -> PyDict.mem k' (PyDict.set k v d) = true.
Proof.
  unfold PyDict.mem. intros H.
  destruct (PyStr.eqb_spec k' k) as [->|Hk].
  - now rewrite get_set_same.
  - now rewrite get_set_other.
Qed.

(** X17.  The dispatcher keeps the partner registered on every datagram but
    one kind: a chat message for the local user from an address that is
    not in the registry (line 110 can adopt such a sender, and does not
    register it).  In particular presence datagrams, disconnects and
    the commands that arrive from registered peers keep it. *)
Theorem partner_stays_registered (st : P2PChat) (now : Z)
    (stdin : option pystr) (data : bytes) (addr : address) :
  partner_registered st ->
  PyDict.mem (fst addr) (peers st) = true
  \/ chat_for (username st) data = false ->
  partner_registered (final (handle_message now stdin data addr st)).
Proof.
  intros Hreg Hfrom.
  destruct (handle_message_effects st now stdin data addr)
    as [E|[(name & _ & _ & E)|[(_ & _ & E)|(Hchat & c & E & Hc)]]];
    rewrite E; clear E.
  - exact Hreg.
  - intros p Hcur Hne. cbn in *. apply mem_set. now apply Hreg.
  - intros p Hcur Hne. cbn in *.
    destruct (current_chat st) as [partner|] eqn:Hst; [|discriminate].
    destruct (PyStr.eqb_spec partner (fst addr)) as [|Hother];
      [discriminate|].
    injection Hcur as <-.
    unfold PyDict.mem. rewrite get_del_other by congruence.
    now apply Hreg.
  - destruct Hfrom as [Hfrom|Hnot]; [|congruence].
    intros p Hcur Hne. cbn in *.
    destruct Hc as [->|[->|(target & -> & Htarget)]].
    + discriminate.
    + now injection Hcur as <-.
    + now injection Hcur as <-.
Qed.

Lemma partner_stays_registered_witness :
  partner_registered alice_with_bob
  /\ (PyDict.mem (fst (bob_ip, 5000)) (peers alice_with_bob) = true
      \/ chat_for (username alice_with_bob) quit_from_eve = false)
  /\ partner_registered
       (final (handle_message 1730000006 None quit_from_eve (bob_ip, 5000)
                 alice_with_bob)).
Proof.
  assert (Hreg : partner_registered alice_with_bob).
  { intros p Hcur _. injection Hcur as <-. reflexivity. }
  split; [exact Hreg|]. split; [left; reflexivity|].
  exact (partner_stays_registered alice_with_bob 1730000006 None quit_from_eve
           (bob_ip, 5000) Hreg (or_introl eq_refl)).
Defined.

(* ===================================================================== *)
(** * Sending *)
(* ===================================================================== *)

(** The bytes of a message.  Encoding never fails ([encode_total]), so
    the second branch is never taken. *)
Definition payload_of (m : Message) : bytes :=
  match encode m with
  | Some data => data
  | None => []
  end.

Lemma encode_payload (m : Message) : encode m = Some (payload_of m).
Proof.
  unfold payload_of. destruct (encode_total m) as (data & ->). reflexivity.
Qed.

Lemma decode_payload (m : Message) :
  valid m -> decode (payload_of m) = inr (to_dict m).
Proof.
  intros Hvalid.
  destruct (to_dict_object m) as (kvs & Hm & Hne & Hnd & Hflat).
  destruct (decode_encode_flat (Hflat Hvalid) Hne Hnd) as (data & Henc & Hdec).
  rewrite <- Hm in Henc, Hdec. fold (encode m) in Henc.
  unfold payload_of. now rewrite Henc.
Qed.

Lemma serialise_run (m : Message) (st : P2PChat) :
  serialise m st = Outcome (inr (payload_of m)) st [].
Proof. unfold serialise. now rewrite encode_payload. Qed.

Lemma send_message_run (up : bool) (now : Z) (text peer_ip peer_username : pystr)
    (peer_port : Z) (st : P2PChat) :
  send_message up now text peer_ip peer_username peer_port st
  = Outcome (inr tt) st
      (if up
       then [Sent (payload_of (Chat (username st) peer_username text now))
               (peer_ip, peer_port);
             PrintYou text]
       else [PrintSendFailed OSError]).
Proof.
  unfold send_message. rewrite bind_get_self. cbv zeta. unfold catch.
  cbv zeta. rewrite !(bind_outcome _ _ _ _ (serialise_run _ st)).
  now destruct up.
Qed.

Lemma send_typing_run (up : bool) (now : Z) (peer_ip peer_username : pystr)
    (peer_port : Z) (st : P2PChat) :
  send_typing up now peer_ip peer_username peer_port st
  = Outcome (inr tt) st
      (if up
       then [Sent (payload_of (Typing (username st) peer_username now))
               (peer_ip, peer_port)]
       else []).
Proof.
  unfold send_typing. rewrite bind_get_self. cbv zeta. unfold catch.
  cbv zeta. rewrite !(bind_outcome _ _ _ _ (serialise_run _ st)).
  now destruct up.
Qed.

Lemma send_presence_run (up : bool) (now : Z) (peer_ip : pystr)
    (peer_port : Z) (st : P2PChat) :
  send_presence up now peer_ip peer_port st
  = Outcome (inr tt) st
      (if up
       then [Sent (payload_of (Presence (username st) now))
               (peer_ip, peer_port)]
       else []).
Proof.
  unfold send_presence. rewrite bind_get_self. cbv zeta. unfold catch.
  cbv zeta. rewrite !(bind_outcome _ _ _ _ (serialise_run _ st)).
  now destruct up.
Qed.

Lemma send_disconnect_run (up : bool) (now : Z) (peer_ip : pystr)
    (peer_port : Z) (st : P2PChat) :
  send_disconnect up now peer_ip peer_port st
  = Outcome (inr tt) st
      (if up
       then [Sent (payload_of (Disconnect (username st) now))
               (peer_ip, peer_port)]
       else []).
Proof.
  unfold send_disconnect. rewrite bind_get_self. cbv zeta. unfold catch.
  cbv zeta. rewrite !(bind_outcome _ _ _ _ (serialise_run _ st)).
  now destruct up.
Qed.

Lemma send_file_offer_run (up : bool) (fs : filesystem) (now : Z)
    (filename peer_ip peer_username : pystr) (peer_port : Z) (st : P2PChat)
    (size : N) (digest : pystr) :
  fs filename = Some (RegularFile size digest) ->
  send_file_offer up fs now filename peer_ip peer_username peer_port st
  = Outcome (inr tt) st
      (if up
       then [Sent (payload_of (FileOffer (username st) peer_username
                                 (basename filename) size digest now))
               (peer_ip, peer_port);
             PrintFileOfferSent (basename filename) size; PrintWaiting]
       else [PrintOfferFailed OSError]).
Proof.
  intros Hfile. unfold send_file_offer. rewrite Hfile.
  cbn [calculate_file_hash getsize].
  rewrite (bind_pure_ret (ret digest) digest) by (intros ?; reflexivity).
  rewrite bind_get_self. cbv zeta. unfold catch. cbv zeta.
  rewrite !(bind_outcome _ _ _ _ (serialise_run _ st)).
  now destruct up.
Qed.

(** X18.  When the network does not take a datagram, no sending method
    raises or changes the object, and they differ in what they say: a
    chat message that could not be sent is reported and is not echoed as
    sent, a file offer likewise; a typing notice, a presence datagram
    and a disconnect are lost without a word (lines 272, 285 and 298). *)
Theorem send_failures (st : P2PChat) (now : Z)
    (text peer_ip peer_username filename : pystr) (peer_port : Z)
    (fs : filesystem) (size : N) (digest : pystr) :
  fs filename = Some (RegularFile size digest) ->
  send_message false now text peer_ip peer_username peer_port st
  = Outcome (inr tt) st [PrintSendFailed OSError]
  /\ send_file_offer false fs now filename peer_ip peer_username peer_port st
     = Outcome (inr tt) st [PrintOfferFailed OSError]
  /\ send_typing false now peer_ip peer_username peer_port st
     = Outcome (inr tt) st []
  /\ send_presence false now peer_ip peer_port st = Outcome (inr tt) st []
  /\ send_disconnect false now peer_ip peer_port st = Outcome (inr tt) st [].
Proof.
  intros Hfile.
  rewrite send_message_run, send_typing_run, send_presence_run,
    send_disconnect_run.
  rewrite (send_file_offer_run false fs now filename peer_ip peer_username
             peer_port st size digest Hfile).
  repeat split.
Qed.

(** A file system that holds one regular file and one directory. *)
Definition one_file : filesystem :=
  fun path =>
    if PyStr.eqb path (lit "/home/alice/notes.txt")
    then Some (RegularFile 12 (lit "0123456789abcdef0123456789abcdef"))
    else if PyStr.eqb path (lit "/home/alice") then Some (Directory 4096)
    else None.

Lemma send_failures_witness :
  one_file (lit "/home/alice/notes.txt")
  = Some (RegularFile 12 (lit "0123456789abcdef0123456789abcdef"))
  /\ send_message false 1730000000 (lit "hi") bob_ip (lit "bob") 5000 alice
     = Outcome (inr tt) alice [PrintSendFailed OSError]
  /\ send_file_offer false one_file 1730000000 (lit "/home/alice/notes.txt")
       bob_ip (lit "bob") 5000 alice
     = Outcome (inr tt) alice [PrintOfferFailed OSError]
  /\ send_typing false 1730000000 bob_ip (lit "bob") 5000 alice
     = Outcome (inr tt) alice []
  /\ send_presence false 1730000000 bob_ip 5000 alice = Outcome (inr tt) alice []
  /\ send_disconnect false 1730000000 bob_ip 5000 alice
     = Outcome (inr tt) alice [].
Proof.
  split; [reflexivity|].
  exact (send_failures alice 1730000000 (lit "hi") bob_ip (lit "bob")
           (lit "/home/alice/notes.txt") 5000 one_file 12
           (lit "0123456789abcdef0123456789abcdef") eq_refl).
Defined.

(** X19.  From [send_file_offer] to [handle_file_offer]: the offer one user
    sends for a regular file is shown to the user it is addressed to
    with the name of the sender, the last component of the path, the
    size of the file and the first sixteen characters of its digest, and
    the receiver is asked.  Neither side changes its registry or its
    session, and whatever the answer nothing goes back to the sender. *)
Theorem file_offer_delivery (sender receiver : P2PChat) (fs : filesystem)
    (sent_at received_at : Z) (reply : pystr)
    (filename peer_ip : pystr) (peer_port : Z) (from : address)
    (size : N) (digest : pystr) :
  fs filename = Some (RegularFile size digest) ->
  valid_text (username sender) -> valid_text (username receiver) ->
  valid_text (basename filename) -> valid_text digest ->
  let data := payload_of (FileOffer (username sender) (username receiver)
                            (basename filename) size digest sent_at) in
  send_file_offer true fs sent_at filename peer_ip (username receiver)
    peer_port sender
  = Outcome (inr tt) sender
      [Sent data (peer_ip, peer_port);
       PrintFileOfferSent (basename filename) size; PrintWaiting]
  /\ handle_message received_at (Some reply) data from receiver
     = Outcome (inr tt) receiver
         ([PrintFileOfferFrom (JStr (username sender)) (fst from);
           PrintFilename (JStr (basename filename));
           PrintSize (JInt (Z.of_N size));
           PrintHash (JStr (slice_to 16 digest)); PromptAccept]
          ++ (if PyStr.eqb reply (lit "y") || PyStr.eqb reply (lit "Y")
              then [PrintTransferStarting; PrintNotImplemented]
              else [PrintFileRejected])).
Proof.
  intros Hfile Hs Hr Hname Hdigest data. split.
  - now rewrite (send_file_offer_run true fs sent_at filename peer_ip
                   (username receiver) peer_port sender size digest Hfile).
  - assert (Hdec : decode data
                   = inr (to_dict (FileOffer (username sender)
                                     (username receiver) (basename filename)
                                     size digest sent_at))).
    { apply decode_payload. cbn [valid]. auto. }
    cbn [to_dict] in Hdec.
    apply (offer_shown receiver received_at (Some reply) data from _
             (JStr (basename filename)) (JInt (Z.of_N size))
             (JStr (username sender)) digest Hdec); try reflexivity.
    unfold addressed_to. cbn. apply PyStr.eqb_refl.
Qed.

Lemma file_offer_delivery_witness :
  let bob := Build (lit "bob") 5000 true [] None in
  let data := payload_of (FileOffer (username alice) (username bob)
                            (basename (lit "/home/alice/notes.txt")) 12
                            (lit "0123456789abcdef0123456789abcdef")
                            1730000000) in
  one_file (lit "/home/alice/notes.txt")
  = Some (RegularFile 12 (lit "0123456789abcdef0123456789abcdef"))
  /\ send_file_offer true one_file 1730000000 (lit "/home/alice/notes.txt")
       bob_ip (username bob) 5000 alice
     = Outcome (inr tt) alice
         [Sent data (bob_ip, 5000);
          PrintFileOfferSent (basename (lit "/home/alice/notes.txt")) 12;
          PrintWaiting]
  /\ handle_message 1730000001 (Some (lit "n")) data (lit "10.0.0.1", 5000) bob
     = Outcome (inr tt) bob
         ([PrintFileOfferFrom (JStr (username alice))
             (fst (lit "10.0.0.1", 5000));
           PrintFilename (JStr (basename (lit "/home/alice/notes.txt")));
           PrintSize (JInt (Z.of_N 12));
           PrintHash (JStr (slice_to 16 (lit "0123456789abcdef0123456789abcdef")));
           PromptAccept]
          ++ (if PyStr.eqb (lit "n") (lit "y") || PyStr.eqb (lit "n") (lit "Y")
              then [PrintTransferStarting; PrintNotImplemented]
              else [PrintFileRejected])).
Proof.
  intros bob data. split; [reflexivity|].
  exact (file_offer_delivery alice bob one_file 1730000000 1730000001
           (lit "n") (lit "/home/alice/notes.txt") bob_ip 5000
           (lit "10.0.0.1", 5000) 12 (lit "0123456789abcdef0123456789abcdef")
           eq_refl (valid_text_lit "alice") (valid_text_lit "bob")
           (valid_text_lit "notes.txt")
           (valid_text_lit "0123456789abcdef0123456789abcdef")).
Defined.

(* ===================================================================== *)
(** * The chat loop *)
(* ===================================================================== *)

Lemma chat_turns_loop (peer_ip peer_username : pystr) (peer_port last : Z)
    (t : turn) (rest : list step) (st : P2PChat) :
  running st = true -> current_chat st = Some peer_ip ->
  chat_turns peer_ip peer_username peer_port last (Loop t :: rest) st
  = then_ (loop_turn peer_ip peer_username peer_port t last)
      (fun r =>
         match fst r with
         | Break => unit_ true
         | Continue =>
           chat_turns peer_ip peer_username peer_port (snd r) rest
         end)
      st.
Proof.
  intros Hrun Hcur. cbn [chat_turns]. rewrite then_self.
  unfold partner_is. now rewrite Hrun, Hcur, PyStr.eqb_refl.
Qed.

(** What line 238 adds to the output. *)
Definition goodbye (st : P2PChat) (bye_up : bool) (bye_at : Z)
    (peer_ip : pystr) (peer_port : Z) : list event :=
  if bye_up
  then [Core (Sent (payload_of (Disconnect (username st) bye_at))
                (peer_ip, peer_port))]
  else [].

(** Lines 237-239, once the loop is left. *)
Lemma chat_loop_left (peer_ip peer_username : pystr) (peer_port : Z)
    (steps : list step) (bye_up : bool) (bye_at : Z) (st st1 : P2PChat)
    (l : list event) :
  chat_turns peer_ip peer_username peer_port 0 steps st = Run (inr true) st1 l ->
  chat_loop peer_ip peer_username peer_port steps bye_up bye_at st
  = Run (inr true) (with_chat st1 None)
      (l ++ goodbye st1 bye_up bye_at peer_ip peer_port).
Proof.
  intros H. unfold chat_loop. rewrite (then_run _ _ _ _ H).
  cbn [answer after log].
  rewrite (then_run _ _ _ _
             (lift_outcome _ st1 _
                (send_disconnect_run bye_up bye_at peer_ip peer_port st1))).
  cbn [result final printed answer after log]. unfold goodbye.
  destruct bye_up; reflexivity.
Qed.

Lemma chat_loop_aborted (peer_ip peer_username : pystr) (peer_port : Z)
    (steps : list step) (bye_up : bool) (bye_at : Z) (st st1 : P2PChat)
    (f : fault) (l : list event) :
  chat_turns peer_ip peer_username peer_port 0 steps st = Run (inl f) st1 l ->
  chat_loop peer_ip peer_username peer_port steps bye_up bye_at st
  = Run (inl f) st1 l.
Proof. intros H. unfold chat_loop. now rewrite (then_run _ _ _ _ H). Qed.

(** ** Leaving the conversation *)

Lemma loop_turn_quit (peer_ip peer_username : pystr) (peer_port last : Z)
    (t : turn) (line : pystr) (st : P2PChat) :
  pressed t = Typed line -> strip line = lit "/quit" ->
  loop_turn peer_ip peer_username peer_port t last st
  = Run (inr (Break, last)) st [].
Proof.
  intros Hkey Hline. unfold loop_turn.
  rewrite (attempt_run _ _ st (Run (inr (Break, last)) st [])); [reflexivity|].
  unfold loop_body. rewrite Hkey. cbv zeta. now rewrite Hline.
Qed.

(** X22.  The user types the quit command: the loop is left at once, whatever
    would have come after; the peer is sent a disconnect datagram with
    the local name (if the network takes it: a failure is swallowed),
    and the session pointer is cleared.  The peer stays in the
    registry. *)
Theorem quit_line_ends_chat (st : P2PChat) (peer_ip peer_username : pystr)
    (peer_port : Z) (t : turn) (line : pystr) (rest : list step)
    (bye_up : bool) (bye_at : Z) :
  running st = true -> current_chat st = Some peer_ip ->
  pressed t = Typed line -> strip line = lit "/quit" ->
  chat_loop peer_ip peer_username peer_port (Loop t :: rest) bye_up bye_at st
  = Run (inr true) (with_chat st None)
      (if bye_up
       then [Core (Sent (payload_of (Disconnect (username st) bye_at))
                     (peer_ip, peer_port))]
       else []).
Proof.
  intros Hrun Hcur Hkey Hline.
  apply (chat_loop_left peer_ip peer_username peer_port (Loop t :: rest)
           bye_up bye_at st st []).
  rewrite chat_turns_loop by assumption.
  now rewrite (then_run _ _ _ _
                 (loop_turn_quit peer_ip peer_username peer_port 0 t line st
                    Hkey Hline)).
Qed.

(** A turn in which the user types [line]. *)
Definition types (line : string) : turn :=
  Turn (Typed (lit line)) true one_file 1730000100 1730000100 1730000100
    1730000100.

Lemma quit_line_ends_chat_witness :
  running alice_with_bob = true
  /\ current_chat alice_with_bob = Some bob_ip
  /\ strip (lit "  /quit ") = lit "/quit"
  /\ chat_loop bob_ip (lit "bob") 5000
       [Loop (types "  /quit "); Loop (types "never read")] true 1730000101
       alice_with_bob
     = Run (inr true) (with_chat alice_with_bob None)
         (if true
          then [Core (Sent (payload_of (Disconnect (username alice_with_bob)
                                          1730000101))
                        (bob_ip, 5000))]
          else []).
Proof.
  split; [reflexivity|]. split; [reflexivity|]. split; [reflexivity|].
  exact (quit_line_ends_chat alice_with_bob bob_ip (lit "bob") 5000
           (types "  /quit ") (lit "  /quit ") [Loop (types "never read")]
           true 1730000101 eq_refl eq_refl eq_refl eq_refl).
Defined.

(** X23.  The session is moved from outside while the loop runs: the
    listening thread handles a datagram after which the pointer is no
    longer the peer of the loop (a disconnect of the registered peer, or
    a command received from anyone).  At its next test the loop is left
    without reading the keyboard; the peer of the loop is sent a
    disconnect, and line 239 clears the pointer, whatever the datagram
    had set it to. *)
Theorem moved_session_ends_chat (st : P2PChat) (peer_ip peer_username : pystr)
    (peer_port : Z) (now : Z) (stdin : option pystr) (data : bytes)
    (addr : address) (t : turn) (rest : list step) (bye_up : bool)
    (bye_at : Z) :
  let r := handle_message now stdin data addr st in
  partner_is (final r) peer_ip = false ->
  chat_loop peer_ip peer_username peer_port
    (Handled now stdin data addr :: Loop t :: rest) bye_up bye_at st
  = Run (inr true) (with_chat (final r) None)
      (List.map Core (printed r)
       ++ goodbye st bye_up bye_at peer_ip peer_port).
Proof.
  intros r Hmoved.
  assert (Hname : username (final r) = username st)
    by apply handle_message_identity.
  unfold goodbye. rewrite <- Hname.
  apply (chat_loop_left peer_ip peer_username peer_port
           (Handled now stdin data addr :: Loop t :: rest) bye_up bye_at st
           (final r) (List.map Core (printed r))).
  cbn [chat_turns].
  rewrite (then_run _ _ _ _ (lift_handle_message st now stdin data addr)).
  cbn [answer after log]. fold r.
  rewrite !then_self, Hmoved, andb_false_r.
  cbn [answer after log unit_]. now rewrite app_nil_r.
Qed.

Lemma moved_session_ends_chat_witness :
  let st := Build (lit "alice") 5000 true
              [(bob_ip, Peer (JStr (lit "bob")) 1730000000);
               (lit "10.0.0.8", Peer (JStr (lit "carol")) 1730000000)]
              (Some bob_ip) in
  let data :=
    datagram "{'type': 'message', 'from_username': 'eve', 'to_username': 'alice', 'text': '/msg 10.0.0.8'}" in
  let r := handle_message 1730000006 None data (eve_ip, 5000) st in
  partner_is (final r) bob_ip = false
  /\ current_chat (final r) = Some (lit "10.0.0.8")
  /\ chat_loop bob_ip (lit "bob") 5000
       [Handled 1730000006 None data (eve_ip, 5000); Loop (types "hello")]
       true 1730000007 st
     = Run (inr true) (with_chat (final r) None)
         (List.map Core (printed r) ++ goodbye st true 1730000007 bob_ip 5000).
Proof.
  intros st data r. split; [reflexivity|]. split; [reflexivity|].
  exact (moved_session_ends_chat st bob_ip (lit "bob") 5000 1730000006 None
           data (eve_ip, 5000) (types "hello") [] true 1730000007 eq_refl).
Defined.

(** The object once [signal_handler] has run. *)
Definition stopped (st : P2PChat) : P2PChat :=
  Build (username st) (port st) false (peers st) (current_chat st).

(** X24.  Ctrl+C during a conversation: [signal_handler] raises [SystemExit],
    which neither clause of lines 232-235 catches, so that lines 238
    and 239 are not run.  The program ends without a disconnect
    datagram: the peer is not told. *)
Theorem sigint_sends_no_disconnect (st : P2PChat)
    (peer_ip peer_username : pystr) (peer_port : Z) (t : turn)
    (rest : list step) (bye_up : bool) (bye_at : Z) :
  running st = true -> current_chat st = Some peer_ip ->
  pressed t = Sigint ->
  chat_loop peer_ip peer_username peer_port (Loop t :: rest) bye_up bye_at st
  = Run (inl (SystemExit 0)) (stopped st) [PrintShuttingDown; CloseSocket].
Proof.
  intros Hrun Hcur Hkey.
  apply chat_loop_aborted. rewrite chat_turns_loop by assumption.
  assert (Hturn : loop_turn peer_ip peer_username peer_port t 0 st
                  = Run (inl (SystemExit 0)) (stopped st)
                      [PrintShuttingDown; CloseSocket]).
  { unfold loop_turn.
    rewrite (attempt_run _ _ st
               (Run (inl (SystemExit 0)) (stopped st)
                  [PrintShuttingDown; CloseSocket])); [reflexivity|].
    unfold loop_body. now rewrite Hkey. }
  now rewrite (then_run _ _ _ _ Hturn).
Qed.

Lemma sigint_sends_no_disconnect_witness :
  let t := Turn Sigint true one_file 0 0 0 0 in
  running alice_with_bob = true
  /\ current_chat alice_with_bob = Some bob_ip
  /\ chat_loop bob_ip (lit "bob") 5000 [Loop t] true 1730000101 alice_with_bob
     = Run (inl (SystemExit 0)) (stopped alice_with_bob)
         [PrintShuttingDown; CloseSocket].
Proof.
  intros t. split; [reflexivity|]. split; [reflexivity|].
  exact (sigint_sends_no_disconnect alice_with_bob bob_ip (lit "bob") 5000 t []
           true 1730000101 eq_refl eq_refl eq_refl).
Defined.

(** ** What is typed is sent *)

(** A line the loop does not handle itself (lines 212-222): it is not
    empty once stripped and is none of [/quit], [/list], [/clear] and
    [/sendfile ...]. *)
Definition ordinary (message : pystr) : bool :=
  PyStr.truthy message
  && negb (PyStr.eqb message (lit "/quit"))
  && negb (PyStr.eqb message (lit "/list"))
  && negb (PyStr.eqb message (lit "/clear"))
  && negb (startswith (lit "/sendfile ") message).

(** The typing notice of lines 228-230, when the network is up. *)
Definition notice (st : P2PChat) (peer_ip peer_username : pystr)
    (peer_port : Z) (t : turn) : event :=
  Core (Sent (payload_of (Typing (username st) peer_username (at_typing t)))
          (peer_ip, peer_port)).

Lemma loop_turn_ordinary (peer_ip peer_username : pystr) (peer_port last : Z)
    (t : turn) (line : pystr) (st : P2PChat) :
  pressed t = Typed line -> ordinary (strip line) = true -> up t = true ->
  loop_turn peer_ip peer_username peer_port t last st
  = Run (inr (Continue,
              if 3 * SECOND <? at_check t - last then at_stamp t else last))
      st
      ([Core (Sent (payload_of (Chat (username st) peer_username (strip line)
                                  (at_send t)))
                (peer_ip, peer_port));
        Core (PrintYou (strip line))]
       ++ if 3 * SECOND <? at_check t - last
          then [notice st peer_ip peer_username peer_port t]
          else []).
Proof.
  intros Hkey Hline Hup. unfold ordinary in Hline.
  repeat (apply andb_true_iff in Hline as [Hline ?]).
  repeat match goal with
         | H : negb _ = true |- _ => apply negb_true_iff in H
         end.
  unfold loop_turn.
  match goal with
  | |- _ = ?r => rewrite (attempt_run _ _ st r); [reflexivity|]
  end.
  unfold loop_body. rewrite Hkey. cbv zeta. rewrite Hline. cbn [negb].
  repeat match goal with
         | H : _ = false |- _ => rewrite H; clear H
         end.
  rewrite Hup.
  rewrite (then_run _ _ _ _
             (lift_outcome _ st _
                (send_message_run true (at_send t) (strip line) peer_ip
                   peer_username peer_port st))).
  cbn [result final printed answer after log List.map].
  destruct (3 * SECOND <? at_check t - last); [|reflexivity].
  rewrite (then_run _ _ _ _
             (lift_outcome _ st _
                (send_typing_run true (at_typing t) peer_ip peer_username
                   peer_port st))).
  reflexivity.
Qed.

Lemma valid_text_app (a b : pystr) :
  valid_text a -> valid_text b -> valid_text (a ++ b).
Proof. unfold valid_text. intros Ha Hb. apply Forall_app. now split. Qed.

(** ** The typing notice *)

(** X26.  The notice follows the message it announces, and at most one is
    sent per three seconds of the clock: of two lines typed one after
    the other, the first is followed by a notice (the clock is more
    than three seconds past zero), and the second is not if line 228
    reads the clock three seconds or less after line 230 did. *)
Theorem typing_notice_rate_limited (st : P2PChat)
    (peer_ip peer_username : pystr) (peer_port : Z) (t1 t2 : turn)
    (line1 line2 : pystr) :
  running st = true -> current_chat st = Some peer_ip ->
  pressed t1 = Typed line1 -> ordinary (strip line1) = true -> up t1 = true ->
  pressed t2 = Typed line2 -> ordinary (strip line2) = true -> up t2 = true ->
  3 * SECOND < at_check t1 ->
  at_check t2 - at_stamp t1 <= 3 * SECOND ->
  chat_turns peer_ip peer_username peer_port 0 [Loop t1; Loop t2] st
  = Run (inr false) st
      [Core (Sent (payload_of (Chat (username st) peer_username (strip line1)
                                 (at_send t1)))
               (peer_ip, peer_port));
       Core (PrintYou (strip line1));
       notice st peer_ip peer_username peer_port t1;
       Core (Sent (payload_of (Chat (username st) peer_username (strip line2)
                                 (at_send t2)))
               (peer_ip, peer_port));
       Core (PrintYou (strip line2))].
Proof.
  intros Hrun Hcur Hk1 Hl1 Hu1 Hk2 Hl2 Hu2 Hfirst Hsoon.
  rewrite chat_turns_loop by assumption.
  rewrite (then_run _ _ _ _
             (loop_turn_ordinary peer_ip peer_username peer_port 0 t1 line1 st
                Hk1 Hl1 Hu1)).
  cbn [answer after log fst snd].
  destruct (Z.ltb_spec (3 * SECOND) (at_check t1 - 0)); [|lia].
  rewrite chat_turns_loop by assumption.
  rewrite (then_run _ _ _ _
             (loop_turn_ordinary peer_ip peer_username peer_port (at_stamp t1)
                t2 line2 st Hk2 Hl2 Hu2)).
  cbn [answer after log fst snd].
  destruct (Z.ltb_spec (3 * SECOND) (at_check t2 - at_stamp t1)); [lia|].
  reflexivity.
Qed.

Lemma typing_notice_rate_limited_witness :
  let t1 := Turn (Typed (lit "hello")) true one_file
              (1730000100 * SECOND) (1730000100 * SECOND)
              (1730000100 * SECOND) (1730000100 * SECOND) in
  let t2 := Turn (Typed (lit "are you there?")) true one_file
              (1730000102 * SECOND) (1730000102 * SECOND)
              (1730000102 * SECOND) (1730000102 * SECOND) in
  3 * SECOND < at_check t1
  /\ at_check t2 - at_stamp t1 <= 3 * SECOND
  /\ chat_turns bob_ip (lit "bob") 5000 0 [Loop t1; Loop t2] alice_with_bob
     = Run (inr false) alice_with_bob
         [Core (Sent (payload_of (Chat (username alice_with_bob) (lit "bob")
                                    (strip (lit "hello")) (at_send t1)))
                  (bob_ip, 5000));
          Core (PrintYou (strip (lit "hello")));
          notice alice_with_bob bob_ip (lit "bob") 5000 t1;
          Core (Sent (payload_of (Chat (username alice_with_bob) (lit "bob")
                                    (strip (lit "are you there?"))
                                    (at_send t2)))
                  (bob_ip, 5000));
          Core (PrintYou (strip (lit "are you there?")))].
Proof.
  intros t1 t2.
  assert (H1 : 3 * SECOND < at_check t1) by reflexivity.
  assert (H2 : at_check t2 - at_stamp t1 <= 3 * SECOND) by discriminate.
  split; [exact H1|]. split; [exact H2|].
  exact (typing_notice_rate_limited alice_with_bob bob_ip (lit "bob") 5000
           t1 t2 (lit "hello") (lit "are you there?")
           eq_refl eq_refl eq_refl eq_refl eq_refl eq_refl eq_refl eq_refl
           H1 H2).
Defined.

(** ** Errors inside the loop *)

(** X27.  [/sendfile] on a directory: [os.path.exists] is true and
    [os.path.getsize] answers, but [open] raises in
    [calculate_file_hash], and [send_file_offer] has no handler around
    line 308.  The clause of line 234 prints the error and the
    conversation goes on: nothing is sent, the object and
    [last_typing] are unchanged. *)
Theorem sendfile_directory_reported (st : P2PChat)
    (peer_ip peer_username : pystr) (peer_port last : Z) (t : turn)
    (line path : pystr) (size : N) :
  pressed t = Typed line ->
  strip line = lit "/sendfile " ++ path -> strip path = path ->
  fs t path = Some (Directory size) ->
  loop_turn peer_ip peer_username peer_port t last st
  = Run (inr (Continue, last)) st [PrintLoopError OSError].
Proof.
  intros Hkey Hline Hpath Hdir. unfold loop_turn.
  rewrite (attempt_run _ _ st (Run (inl (Raised OSError)) st []));
    [reflexivity|].
  unfold loop_body. rewrite Hkey. cbv zeta. rewrite Hline.
  change (PyStr.truthy (lit "/sendfile " ++ path)) with true.
  change (PyStr.eqb (lit "/sendfile " ++ path) (lit "/quit")) with false.
  change (PyStr.eqb (lit "/sendfile " ++ path) (lit "/list")) with false.
  change (PyStr.eqb (lit "/sendfile " ++ path) (lit "/clear")) with false.
  rewrite startswith_app. cbn [negb].
  change (slice_from 10 (lit "/sendfile " ++ path)) with path.
  rewrite Hpath.
  assert (Hoffer : send_file_offer (up t) (fs t) (at_send t) path peer_ip
                     peer_username peer_port st
                   = Outcome (inl OSError) st []).
  { unfold send_file_offer. rewrite Hdir. reflexivity. }
  now rewrite (then_run _ _ _ _ (lift_outcome _ st _ Hoffer)).
Qed.

Lemma sendfile_directory_reported_witness :
  let t := types "/sendfile /home/alice" in
  strip (lit "/sendfile /home/alice") = lit "/sendfile " ++ lit "/home/alice"
  /\ fs t (lit "/home/alice") = Some (Directory 4096)
  /\ loop_turn bob_ip (lit "bob") 5000 t 0 alice_with_bob
     = Run (inr (Continue, 0)) alice_with_bob [PrintLoopError OSError].
Proof.
  intros t. split; [reflexivity|]. split; [reflexivity|].
  exact (sendfile_directory_reported alice_with_bob bob_ip (lit "bob") 5000 0
           t (lit "/sendfile /home/alice") (lit "/home/alice") 4096
           eq_refl eq_refl eq_refl eq_refl).
Defined.

(* ===================================================================== *)
(** * Connecting *)
(* ===================================================================== *)






(* ===================================================================== *)
(** * The presence broadcast *)
(* ===================================================================== *)

(** What one turn of the broadcast loop adds to the output. *)
Definition broadcast_events (st : P2PChat) (started_at : Z) (up : bool)
  : list event :=
  if up
  then [Core (Sent (payload_of (Presence (username st) started_at))
                (BROADCAST, port st));
        Sleep 30]
  else [PrintBroadcastError OSError; Sleep 5].

Lemma broadcast_turn_run (st : P2PChat) (started_at : Z) (up : bool) :
  running st = true ->
  broadcast_turn (Presence (username st) started_at) (BROADCAST, port st) up st
  = Run (inr tt) st (broadcast_events st started_at up).
Proof.
  intros Hrun. unfold broadcast_turn, broadcast_events.
  destruct up.
  - rewrite (attempt_run _ _ st
               (Run (inr tt) st
                  [Core (Sent (payload_of (Presence (username st) started_at))
                           (BROADCAST, port st));
                   Sleep 30])); [reflexivity|].
    now rewrite (then_run _ _ _ _ (lift_outcome _ st _ (serialise_run _ st))).
  - rewrite (attempt_run _ _ st (Run (inl (Raised OSError)) st [])).
    + cbn [answer after log app]. rewrite then_self, Hrun. reflexivity.
    + now rewrite (then_run _ _ _ _ (lift_outcome _ st _ (serialise_run _ st))).
Qed.

(** X29.  The broadcaster builds its datagram once, before the loop: every
    broadcast is the same sequence of bytes, with the time at which the
    thread started, however long the thread has run.  It goes to the
    broadcast address on the port of the object.  After a broadcast the
    thread sleeps thirty seconds; a failure is printed, the thread
    sleeps five seconds and tries again: no failure ends the loop. *)
Theorem broadcast_repeats_first_datagram (st : P2PChat) (started_at : Z)
    (ups : list bool) :
  running st = true ->
  broadcast_presence started_at ups st
  = Run (inr false) st (flat_map (broadcast_events st started_at) ups).
Proof.
  intros Hrun. unfold broadcast_presence. rewrite then_self. cbv zeta.
  induction ups as [|up ups IH]; cbn [broadcast_loop flat_map];
    [reflexivity|].
  rewrite then_self, Hrun.
  rewrite (then_run _ _ _ _ (broadcast_turn_run st started_at up Hrun)).
  cbn [answer after log]. now rewrite IH.
Qed.

Lemma broadcast_repeats_first_datagram_witness :
  running alice = true
  /\ broadcast_presence 1730000000 [true; false; true] alice
     = Run (inr false) alice
         (flat_map (broadcast_events alice 1730000000) [true; false; true]).
Proof.
  split; [reflexivity|].
  exact (broadcast_repeats_first_datagram alice 1730000000 [true; false; true]
           eq_refl).
Defined.

(* ===================================================================== *)
(** * Who can become the partner of a listener *)
(* ===================================================================== *)

Section Provenance.

Variables (me : pystr) (arrivals : list arrival).

(** [p] is the source address of a datagram received that announces its
    sender. *)
Definition announced (p : pystr) : Prop :=
  exists a data addr,
    In a arrivals /\ got a = Datagram data addr /\ fst addr = p
    /\ announces data = true.

(** [p] is the source address of a datagram received that announces its
    sender or is a chat message for the local user. *)
Definition heard_from (p : pystr) : Prop :=
  exists a data addr,
    In a arrivals /\ got a = Datagram data addr /\ fst addr = p
    /\ (announces data = true \/ chat_for me data = true).

Lemma announced_heard_from (p : pystr) : announced p -> heard_from p.
Proof.
  intros (a & data & addr & Ha & Hgot & Hp & Hann).
  exists a, data, addr. auto.
Qed.

(** Every entry was announced and the partner was heard from. *)
Definition traced (st : P2PChat) : Prop :=
  username st = me
  /\ (forall k, In k (keys (peers st)) -> announced k)
  /\ (forall p, current_chat st = Some p -> heard_from p).

Lemma traced_serve (st : P2PChat) (a : arrival) :
  In a arrivals -> traced st -> traced (serve st a).
Proof.
  intros Ha (Hme & Hkeys & Hcur). unfold serve.
  destruct (got a) as [| |data addr] eqn:Hgot; [repeat split; auto ..|].
  destruct (handle_message_effects st (handled_at a) (typed a) data addr)
    as [E|[(name & Hkind & Hname & E)|[(_ & _ & E)|(Hchat & c & E & Hc)]]];
    rewrite E; clear E.
  - repeat split; auto.
  - split; [exact Hme|]. split; [|exact Hcur].
    intros k Hk. cbn in Hk. apply keys_set in Hk as [->|Hk]; auto.
    exists a, data, addr. repeat split; auto.
    unfold announces. now rewrite Hkind, Hname.
  - split; [exact Hme|]. split.
    + intros k Hk. cbn in Hk. apply keys_del in Hk as [_ Hk]. auto.
    + intros p Hp. cbn in Hp. apply Hcur.
      destruct (current_chat st) as [partner|]; [|discriminate].
      destruct (PyStr.eqb partner (fst addr)); [discriminate | exact Hp].
  - split; [exact Hme|]. split; [exact Hkeys|].
    intros p Hp. cbn in Hp. rewrite Hme in Hchat.
    destruct Hc as [->|[->|(target & -> & Htarget)]].
    + discriminate.
    + injection Hp as <-. exists a, data, addr. auto.
    + injection Hp as <-. apply announced_heard_from, Hkeys.
      now apply mem_keys.
Qed.

Lemma traced_fold (seen : list arrival) (st : P2PChat) :
  (forall a, In a seen -> In a arrivals) ->
  traced st -> traced (fold_left serve seen st).
Proof.
  revert st. induction seen as [|a seen IH]; intros st Hsub Hst;
    cbn [fold_left]; [exact Hst|].
  apply IH; [intros b Hb; apply Hsub; now right|].
  apply traced_serve; [apply Hsub; now left | exact Hst].
Qed.

End Provenance.

(** X30.  A program started in listening mode begins with no partner and an
    empty registry.  Whatever it then receives, its partner, if it has
    one, is the source address of a datagram it received: of a chat
    message for the local user, or of a presence datagram.  No datagram
    can make the partner an address that never sent anything; a remote
    msg command, in particular, can only name an address that has
    announced itself. *)
Theorem partner_was_heard_from (name : option pystr) (hostname : pystr)
    (port : Z) (bound : bool) (probe : option pystr)
    (arrivals : list arrival) (p : pystr) :
  let st := init name hostname port in
  current_chat (after (start_listener bound probe arrivals st)) = Some p ->
  heard_from (username st) arrivals p.
Proof.
  intros st. destruct bound; [|discriminate].
  rewrite (start_listener_run st probe arrivals eq_refl). cbn [after].
  assert (Hst : traced (username st) arrivals st).
  { split; [reflexivity|]. split; [intros k []|discriminate]. }
  apply (traced_fold (username st) arrivals arrivals st (fun a H => H) Hst).
Qed.

Lemma partner_was_heard_from_witness :
  let arrivals :=
    [Arrival (Datagram presence_of_bob (bob_ip, 5000)) 1730000001 None;
     Arrival (Datagram hello_from_bob (eve_ip, 5000)) 1730000002 None] in
  let st := init (Some (lit "alice")) (lit "kali") 5000 in
  current_chat (after (start_listener true None arrivals st)) = Some eve_ip
  /\ heard_from (username st) arrivals eve_ip.
Proof.
  intros arrivals st.
  assert (H : current_chat (after (start_listener true None arrivals st))
              = Some eve_ip) by (vm_compute; reflexivity).
  split; [exact H|].
  exact (partner_was_heard_from (Some (lit "alice")) (lit "kali") 5000 true
           None arrivals eve_ip H).
Defined.

(* ===================================================================== *)
(** * Delivery of a chat message, at one input *)
(* ===================================================================== *)

Lemma chat_delivery_witness :
  let bob := Build (lit "bob") 5000 true [] None in
  valid_text (lit "hi there")
  /\ startswith (lit "/") (lit "hi there") = false
  /\ exists data,
       send_message true 1730000000 (lit "hi there") bob_ip (username bob) 5000
         alice
       = Outcome (inr tt) alice
           [Sent data (bob_ip, 5000); PrintYou (lit "hi there")]
       /\ handle_message 1730000001 None data (lit "10.0.0.1", 5000) bob
          = Outcome (inr tt)
              (with_chat bob
                 (if is_set (current_chat bob) then current_chat bob
                  else Some (fst (lit "10.0.0.1", 5000))))
              [PrintChat (JStr (username alice)) (fst (lit "10.0.0.1", 5000))
                 (lit "hi there")].
Proof.
  intros bob. split; [apply valid_text_lit|]. split; [reflexivity|].
  exact (chat_delivery alice bob 1730000000 1730000001 None (lit "hi there")
           bob_ip 5000 (lit "10.0.0.1", 5000) (valid_text_lit "alice")
           (valid_text_lit "bob") (valid_text_lit "hi there") eq_refl).
Defined.

(* ===================================================================== *)
(** * The terminal and the recursion limit *)
(* ===================================================================== *)

(** In the methods above a [print] always succeeds and [json.loads]
    always answers.  The interpreter can fail both on what a datagram
    brings:

    - [print] encodes the line for the terminal (UTF-8, strict).  It
      raises [UnicodeEncodeError], and prints nothing, when the line
      holds a lone surrogate.  [json.loads] accepts the escape of a
      lone surrogate, so that a string of a datagram can hold one.  A
      value that is not a string is formatted in ASCII ([repr] escapes
      the surrogates of the strings inside a list or an object).
    - [json.loads] raises [RecursionError] when the brackets of the
      text are nested deeper than the interpreter allows: the scanner
      enters a recursive call for every object and every array.

    The module [Strict] gives, with both, the methods that print what a
    datagram brought: [list_peers], [handle_command],
    [handle_file_offer], [handle_message] and [discover_peers].  What
    comes from the machine itself (the addresses that [recvfrom]
    returns, the text of an exception, the constant lines) is printed as
    before. *)
Module Strict.

Local Open Scope N_scope.
Local Open Scope chat_scope.

(** ** [print] *)

Definition surrogate (c : N) : bool := (55296 <=? c) && (c <=? 57343).

(** The string has a UTF-8 encoding. *)
Definition encodable_text (s : pystr) : bool :=
  forallb (fun c => negb (surrogate c)) s.

(** [str(v)] has a UTF-8 encoding. *)
Definition encodable_value (v : json) : bool :=
  match v with
  | JStr s => encodable_text s
  | _ => true
  end.

(** The line has a UTF-8 encoding: the values it takes from a datagram
    or from the registry have one. *)
Definition encodable (o : output) : bool :=
  match o with
  | PrintChat sender _ text => encodable_value sender && encodable_text text
  | PrintTyping sender => encodable_value sender
  | PrintReadReceipt sender => encodable_value sender
  | PrintDisconnected name _ => encodable_value name
  | PrintNowChatting name target =>
    encodable_value name && encodable_text target
  | PrintUserNotFound target => encodable_text target
  | PrintLeftChat name => encodable_value name
  | PrintFileOfferFrom sender _ => encodable_value sender
  | PrintFilename name => encodable_value name
  | PrintSize size => encodable_value size
  | PrintHash prefix => encodable_value prefix
  | PrintPeer name ip _ => encodable_value name && encodable_text ip
  | _ => true
  end.

(** [print(line)] *)
Definition print_line (o : output) : M unit :=
  if encodable o then emit o else raise UnicodeEncodeError.

(** ** [json.loads] with the recursion limit *)

(** Outcome of the scanner: as in [Json.scan], or the recursion limit
    of the interpreter reached. *)
Inductive scan (A : Type) : Type :=
| Scanned (a : A) (rest : pystr)
| DecodeError
| OutOfFuel
| Overflow.

Arguments Scanned {A} _ _.
Arguments DecodeError {A}.
Arguments OutOfFuel {A}.
Arguments Overflow {A}.

Definition of_option {A} (r : option (A * pystr)) : scan A :=
  match r with
  | Some (a, rest) => Scanned a rest
  | None => DecodeError
  end.

(** [scan_once], [JSONObject] and [JSONArray] as in [Json], with the
    number [depth] of objects and arrays that can still be entered: the
    scanner of the interpreter enters a recursive call at every opening
    bracket, before it looks at what follows. *)
Fixpoint scan_once (fuel depth : nat) (s : pystr) {struct fuel} : scan json :=
  match fuel with
  | O => OutOfFuel
  | S f =>
    match s with
    | [] => DecodeError
    | c :: r =>
      if c =? QUOTE then
        match scanstring r with
        | Some (str, rest) => Scanned (JStr str) rest
        | None => DecodeError
        end
      else if c =? 123 then
        match depth with
        | O => Overflow
        | S d =>
          match skip_ws r with
          | c' :: r' =>
            if c' =? 125 then Scanned (JObj []) r'
            else scan_members f d [] (c' :: r')
          | [] => DecodeError
          end
        end
      else if c =? 91 then
        match depth with
        | O => Overflow
        | S d =>
          match skip_ws r with
          | c' :: r' =>
            if c' =? 93 then Scanned (JArr []) r'
            else scan_items f d [] (c' :: r')
          | [] => DecodeError
          end
        end
      else if (c =? 110) && startswith (lit "ull") r then
        Scanned JNull (skipn 3 r)
      else if (c =? 116) && startswith (lit "rue") r then
        Scanned (JBool true) (skipn 3 r)
      else if (c =? 102) && startswith (lit "alse") r then
        Scanned (JBool false) (skipn 4 r)
      else if (c =? 78) && startswith (lit "aN") r then
        Scanned (JFloat (lit "NaN")) (skipn 2 r)
      else if (c =? 73) && startswith (lit "nfinity") r then
        Scanned (JFloat (lit "Infinity")) (skipn 7 r)
      else if (c =? 45) && startswith (lit "Infinity") r then
        Scanned (JFloat (lit "-Infinity")) (skipn 8 r)
      else of_option (match_number s)
    end
  end

with scan_members (fuel depth : nat) (acc : list (pystr * json)) (s : pystr)
       {struct fuel} : scan json :=
  match fuel with
  | O => OutOfFuel
  | S f =>
    match s with
    | c :: r =>
      if c =? QUOTE then
        match scanstring r with
        | None => DecodeError
        | Some (key, r1) =>
          match skip_ws r1 with
          | c1 :: r2 =>
            if c1 =? 58 then
              match scan_once f depth (skip_ws r2) with
              | Scanned v r3 =>
                match skip_ws r3 with
                | c3 :: r4 =>
                  if c3 =? 125
                  then Scanned (JObj (of_pairs (acc ++ [(key, v)]))) r4
                  else if c3 =? 44
                  then scan_members f depth (acc ++ [(key, v)]) (skip_ws r4)
                  else DecodeError
                | [] => DecodeError
                end
              | DecodeError => DecodeError
              | OutOfFuel => OutOfFuel
              | Overflow => Overflow
              end
            else DecodeError
          | [] => DecodeError
          end
        end
      else DecodeError
    | [] => DecodeError
    end
  end

with scan_items (fuel depth : nat) (acc : list json) (s : pystr)
       {struct fuel} : scan json :=
  match fuel with
  | O => OutOfFuel
  | S f =>
    match scan_once f depth s with
    | Scanned v r1 =>
      match skip_ws r1 with
      | c1 :: r2 =>
        if c1 =? 93 then Scanned (JArr (acc ++ [v])) r2
        else if c1 =? 44 then scan_items f depth (acc ++ [v]) (skip_ws r2)
        else DecodeError
      | [] => DecodeError
      end
    | DecodeError => DecodeError
    | OutOfFuel => OutOfFuel
    | Overflow => Overflow
    end
  end.

(** [json.loads(data.decode())] in an interpreter that lets the scanner
    enter [limit] nested objects and arrays: the value, or the
    exception raised. *)
Definition decode (limit : nat) (data : bytes) : exn + json :=
  match bytes_decode data with
  | None => inl UnicodeDecodeError
  | Some text =>
    match text with
    | 65279 :: _ => inl JSONDecodeError
    | _ =>
      let s0 := skip_ws text in
      match scan_once (fuel_for s0) limit s0 with
      | Scanned v rest =>
        match skip_ws rest with
        | [] => inr v
        | _ :: _ => inl JSONDecodeError
        end
      | Overflow => inl RecursionError
      | _ => inl JSONDecodeError
      end
    end
  end.

Definition load (limit : nat) (data : bytes) : M json :=
  match decode limit data with
  | inr v => ret v
  | inl e => raise e
  end.

(** ** [list_peers] (lines 357-366) *)

(** [clock ip] is the reading of [time.time()] at line 364 when the
    entry of [ip] is formatted: the clock is read once per entry. *)
Definition list_peers (clock : pystr -> Z) : M unit :=
  emit PrintPeersHeader ;;
  self <- get_self ;;
  match peers self with
  | [] => emit PrintNoPeers
  | _ :: _ =>
    for_each (peers self)
      (fun item =>
         print_line (PrintPeer (peer_username (snd item)) (fst item)
                       (status (clock (fst item)) (snd item))))
  end ;;
  emit PrintBlank.

(** ** [handle_command] (lines 140-162) *)

Definition handle_command (clock : pystr -> Z) (command : pystr)
    (from_ip : option pystr) : M unit :=
  if startswith (lit "/msg ") command then
    let target := strip (slice_from 5 command) in
    self <- get_self ;;
    if PyDict.mem target (peers self) then
      set_current_chat (Some target) ;;
      info <- subscript (peers self) target ;;
      print_line (PrintNowChatting (peer_username info) target)
    else
      print_line (PrintUserNotFound target)
  else if PyStr.eqb command (lit "/list") then
    list_peers clock
  else if PyStr.eqb command (lit "/quit") && is_set from_ip then
    self <- get_self ;;
    match current_chat self with
    | Some partner =>
      if PyStr.truthy partner then
        info <- subscript (peers self) partner ;;
        print_line (PrintLeftChat (peer_username info)) ;;
        set_current_chat None
      else ret tt
    | None => ret tt
    end
  else if PyStr.eqb command (lit "/help") then
    show_help
  else ret tt.

(** ** [handle_file_offer] (lines 328-347) *)

Definition handle_file_offer (stdin : option pystr) (offer : pydict json)
    (from_ip : pystr) : M unit :=
  filename <- subscript offer (lit "filename") ;;
  file_size <- subscript offer (lit "size") ;;
  file_hash <- subscript offer (lit "hash") ;;
  sender <- subscript offer (lit "from_username") ;;
  print_line (PrintFileOfferFrom sender from_ip) ;;
  print_line (PrintFilename filename) ;;
  print_line (PrintSize file_size) ;;
  prefix <- first16 file_hash ;;
  print_line (PrintHash prefix) ;;
  response <- input stdin ;;
  if says_yes response then
    emit PrintTransferStarting ;;
    emit PrintNotImplemented
  else
    emit PrintFileRejected.

(** ** [handle_message] (lines 82-138) *)

(** The body of the [try] statement.  [now] is the reading of the clock
    at line 93. *)
Definition dispatch (limit : nat) (now : Z) (clock : pystr -> Z)
    (stdin : option pystr) (data : bytes) (addr : address) : M unit :=
  message <- load limit data ;;
  d <- as_dict message ;;
  let msg_type := type_of d in
  let from_ip := fst addr in
  if eq_str msg_type (lit "presence") then
    name <- subscript d (lit "username") ;;
    self <- get_self ;;
    set_peers (PyDict.set from_ip (Peer name now) (peers self))
  else if eq_str msg_type (lit "message") then
    self <- get_self ;;
    if addressed_to d (username self) then
      sender <- subscript d (lit "from_username") ;;
      body <- subscript d (lit "text") ;;
      text <- as_text body ;;
      (if startswith (lit "/") text
       then handle_command clock text (Some from_ip)
       else print_line (PrintChat sender from_ip text)) ;;
      self' <- get_self ;;
      if negb (is_set (current_chat self'))
      then set_current_chat (Some from_ip)
      else ret tt
    else ret tt
  else if eq_str msg_type (lit "typing") then
    self <- get_self ;;
    if addressed_to d (username self) then
      sender <- subscript d (lit "from_username") ;;
      print_line (PrintTyping sender)
    else ret tt
  else if eq_str msg_type (lit "read_receipt") then
    self <- get_self ;;
    if addressed_to d (username self) then
      sender <- subscript d (lit "from_username") ;;
      print_line (PrintReadReceipt sender)
    else ret tt
  else if eq_str msg_type (lit "file_offer") then
    self <- get_self ;;
    if addressed_to d (username self) then
      handle_file_offer stdin d from_ip
    else ret tt
  else if eq_str msg_type (lit "disconnect") then
    self <- get_self ;;
    if PyDict.mem from_ip (peers self) then
      info <- subscript (peers self) from_ip ;;
      print_line (PrintDisconnected (peer_username info) from_ip) ;;
      (match current_chat self with
       | Some partner =>
         if PyStr.eqb partner from_ip then set_current_chat None else ret tt
       | None => ret tt
       end) ;;
      self' <- get_self ;;
      set_peers (PyDict.del from_ip (peers self'))
    else ret tt
  else ret tt.

(** The two handlers print an address and the text of an exception,
    which are ASCII. *)
Definition handle_message (limit : nat) (now : Z) (clock : pystr -> Z)
    (stdin : option pystr) (data : bytes) (addr : address) : M unit :=
  catch (dispatch limit now clock stdin data addr)
    (fun e =>
       match e with
       | JSONDecodeError => emit (PrintInvalidMessage (fst addr))
       | _ => emit (PrintHandlerError e)
       end).

(** ** [discover_peers] (lines 368-404) *)

(** One turn of the loop of line 389: the clock at the loop test, what
    [recvfrom] gives, what [get_local_ip()] answers and the clock at
    line 397. *)
Definition discover_step (limit : nat) (t : tick) : M unit :=
  catch (packet <- recvfrom (recv t) ;;
         let addr := snd packet in
         message <- load limit (fst packet) ;;
         d <- as_dict message ;;
         if match PyDict.get (lit "type") d with
            | Some v => eq_str v (lit "presence")
            | None => false
            end
            && negb (PyStr.eqb (fst addr) (local_ip t))
         then
           name <- subscript d (lit "username") ;;
           self <- get_self ;;
           set_peers (PyDict.set (fst addr) (Peer name (stamp t)) (peers self))
         else ret tt)
    (fun _ => ret tt).

Fixpoint discover_loop (limit : nat) (start_time timeout : Z)
    (ticks : list tick) : M bool :=
  match ticks with
  | [] => ret false
  | t :: ticks' =>
    if (reading t - start_time <? timeout)%Z
    then discover_step limit t ;; discover_loop limit start_time timeout ticks'
    else ret true
  end.

(** [up] tells whether the broadcast of line 383 is sent; [sent_at] and
    [start_time] are the readings of the clock at lines 379 and 386,
    [clock] gives those of line 364. *)
Definition discover_peers (limit : nat) (up : bool) (sent_at start_time : Z)
    (clock : pystr -> Z) (ticks : list tick) (timeout : Z) : M bool :=
  emit PrintDiscovering ;;
  self <- get_self ;;
  payload <- serialise (Presence (username self) sent_at) ;;
  sendto up payload (BROADCAST, port self) ;;
  set_peers [] ;;
  left <- discover_loop limit start_time (timeout * SECOND)%Z ticks ;;
  if left then list_peers clock ;; ret true else ret false.

End Strict.

(* ===================================================================== *)
(** * The scanner below the recursion limit *)
(* ===================================================================== *)

(** Where the scanner with the limit answers, the scanner of [Json]
    gives the same answer. *)
Definition agrees (r' : Strict.scan json) (r : Json.scan json) : Prop :=
  match r' with
  | Strict.Scanned v rest => r = Scanned v rest
  | Strict.DecodeError => r = DecodeError
  | Strict.OutOfFuel => r = OutOfFuel
  | Strict.Overflow => True
  end.

Ltac agree_step IH1 IH2 IH3 :=
  lazymatch goal with
  | |- agrees Strict.Overflow _ => exact I
  | |- agrees (Strict.Scanned _ _) (Scanned _ _) => reflexivity
  | |- agrees Strict.DecodeError DecodeError => reflexivity
  | |- agrees Strict.OutOfFuel OutOfFuel => reflexivity
  | |- agrees (Strict.of_option ?x) (of_option ?x) =>
    destruct x as [[? ?]|]; reflexivity
  | |- agrees (Strict.scan_members _ _ _ _) (scan_members _ _ _) => apply IH2
  | |- agrees (Strict.scan_items _ _ _ _) (scan_items _ _ _) => apply IH3
  | |- agrees (match Strict.scan_once ?f ?d ?s with _ => _ end) _ =>
    let H := fresh "H" in
    pose proof (IH1 d s) as H;
    destruct (Strict.scan_once f d s); cbn [agrees] in H;
    [rewrite H | rewrite H | rewrite H | exact I]
  | |- agrees (if ?b then _ else _) _ => destruct b
  | |- agrees (match ?x with _ => _ end) _ => destruct x
  end.

Lemma scan_agrees (fuel : nat) :
  (forall depth s,
      agrees (Strict.scan_once fuel depth s) (scan_once fuel s))
  /\ (forall depth acc s,
         agrees (Strict.scan_members fuel depth acc s)
           (scan_members fuel acc s))
  /\ (forall depth acc s,
         agrees (Strict.scan_items fuel depth acc s) (scan_items fuel acc s)).
Proof.
  induction fuel as [|f (IH1 & IH2 & IH3)]; [repeat split|].
  split; [|split].
  - intros depth s. cbn [Strict.scan_once scan_once].
    repeat agree_step IH1 IH2 IH3.
  - intros depth acc s. cbn [Strict.scan_members scan_members].
    repeat agree_step IH1 IH2 IH3.
  - intros depth acc s. cbn [Strict.scan_items scan_items].
    repeat agree_step IH1 IH2 IH3.
Qed.

(** The interpreter decodes the datagram without reaching its recursion
    limit. *)
Definition within (limit : nat) (data : bytes) : bool :=
  match Strict.decode limit data with
  | inl RecursionError => false
  | _ => true
  end.

(** Then [Strict.decode] answers as [decode] does. *)
Lemma decode_within (limit : nat) (data : bytes) :
  within limit data = true ->
  Strict.decode limit data
  = match decode data with
    | inl NotUtf8 => inl UnicodeDecodeError
    | inl NotJson => inl JSONDecodeError
    | inr v => inr v
    end.
Proof.
  unfold within, Strict.decode, decode, loads.
  destruct (bytes_decode data) as [text|]; [|reflexivity].
  destruct text as [|c text]; [reflexivity|].
  destruct (N.eq_dec c 65279) as [->|Hc].
  - reflexivity.
  - assert (E : forall (A : Type) (x y : A),
               match c :: text with 65279%N :: _ => x | _ => y end = y).
    { intros A x y.
      destruct c as [|p]; [reflexivity|].
      repeat (destruct p as [p|p|]; try reflexivity). congruence. }
    rewrite !E. cbv zeta.
    pose proof (proj1 (scan_agrees (fuel_for (skip_ws (c :: text)))) limit
                  (skip_ws (c :: text))) as H.
    destruct (Strict.scan_once (fuel_for (skip_ws (c :: text))) limit
                (skip_ws (c :: text))); cbn [agrees] in H.
    + rewrite H. intros _. now destruct (skip_ws rest).
    + now rewrite H.
    + now rewrite H.
    + discriminate.
Qed.

Lemma decode_value (limit : nat) (data : bytes) (v : json) :
  Strict.decode limit data = inr v -> decode data = inr v.
Proof.
  intros H.
  assert (Hw : within limit data = true) by (unfold within; now rewrite H).
  rewrite (decode_within limit data Hw) in H.
  destruct (decode data) as [[|]|v']; congruence.
Qed.

Lemma decode_below (limit : nat) (data : bytes) (v : json) :
  within limit data = true -> decode data = inr v ->
  Strict.decode limit data = inr v.
Proof. intros Hw H. now rewrite (decode_within limit data Hw), H. Qed.

(* ===================================================================== *)
(** * Running the strict methods *)
(* ===================================================================== *)

Lemma pure_strict_load (limit : nat) (data : bytes) :
  pure (Strict.load limit data) (Strict.decode limit data).
Proof.
  intros st. unfold Strict.load. now destruct (Strict.decode limit data).
Qed.

Lemma strict_load_decoded (limit : nat) (data : bytes) (v : json) :
  within limit data = true -> decode data = inr v ->
  pure (Strict.load limit data) (inr v).
Proof.
  intros Hw H. pose proof (pure_strict_load limit data) as Hp.
  now rewrite (decode_below limit data v Hw H) in Hp.
Qed.

Lemma print_shown (o : output) (st : P2PChat) :
  Strict.encodable o = true ->
  Strict.print_line o st = Outcome (inr tt) st [o].
Proof. intros H. unfold Strict.print_line. now rewrite H. Qed.

Lemma print_refused (o : output) (st : P2PChat) :
  Strict.encodable o = false ->
  Strict.print_line o st = Outcome (inl UnicodeEncodeError) st [].
Proof. intros H. unfold Strict.print_line. now rewrite H. Qed.

Lemma bind_print_shown {B} (o : output) (k : unit -> M B) (st : P2PChat) :
  Strict.encodable o = true ->
  bind (Strict.print_line o) k st
  = Outcome (result (k tt st)) (final (k tt st)) (o :: printed (k tt st)).
Proof. intros H. unfold bind. cbv zeta. now rewrite !print_shown. Qed.

Lemma bind_print_refused {B} (o : output) (k : unit -> M B) (st : P2PChat) :
  Strict.encodable o = false ->
  bind (Strict.print_line o) k st = Outcome (inl UnicodeEncodeError) st [].
Proof. intros H. unfold bind. cbv zeta. now rewrite !print_refused. Qed.

Lemma silent_print_line (o : output) : silent (Strict.print_line o).
Proof.
  intros st. unfold Strict.print_line. now destruct (Strict.encodable o).
Qed.

Lemma silent_strict_list_peers (clock : pystr -> Z) :
  silent (Strict.list_peers clock).
Proof.
  unfold Strict.list_peers.
  apply silent_bind; [apply silent_emit|intros _].
  apply silent_bind; [apply silent_get_self|intros self].
  apply silent_bind; [|intros _; apply silent_emit].
  destruct (peers self); [apply silent_emit|].
  apply silent_for_each. intros x. apply silent_print_line.
Qed.

Lemma silent_strict_handle_file_offer (stdin : option pystr)
    (offer : pydict json) (from_ip : pystr) :
  silent (Strict.handle_file_offer stdin offer from_ip).
Proof.
  unfold Strict.handle_file_offer.
  repeat first
    [ apply silent_emit
    | apply silent_print_line
    | apply silent_bind; [|intros ?]
    | eapply silent_pure; apply pure_subscript
    | eapply silent_pure; apply pure_first16
    | apply silent_input
    | match goal with |- silent (if ?b then _ else _) => destruct b end ].
Qed.

(** Take a strict method apart along its structure. *)
Ltac strict_walk_step :=
  lazymatch goal with
  | |- stable _ (Strict.print_line _) =>
    apply stable_silent, silent_print_line
  | |- stable _ (Strict.list_peers _) =>
    apply stable_silent, silent_strict_list_peers
  | |- stable _ (Strict.handle_file_offer _ _ _) =>
    apply stable_silent, silent_strict_handle_file_offer
  | |- stable _ (bind (Strict.load _ _) _) =>
    eapply stable_bind_pure; [apply pure_strict_load | intros ? ?]
  | |- _ => walk_step
  end.

Ltac strict_walk := repeat strict_walk_step.

(** Follow the strict dispatcher to the branch of the datagram's kind. *)
Ltac strict_enter Hw Hdata Hkind :=
  unfold Strict.dispatch; cbv zeta;
  rewrite (bind_pure_ret _ _ _ _ (strict_load_decoded _ _ _ Hw Hdata));
  rewrite (bind_pure_ret _ _ _ _ (pure_as_dict (JObj _)));
  repeat (rewrite (eq_str_other _ _ _ Hkind) by discriminate);
  rewrite Hkind.

Lemma strict_handle_message_run (limit : nat) (now : Z) (clock : pystr -> Z)
    (stdin : option pystr) (data : bytes) (addr : address) (st : P2PChat)
    (r : outcome unit) :
  Strict.dispatch limit now clock stdin data addr st = r ->
  Strict.handle_message limit now clock stdin data addr st
  = match result r with
    | inr _ => r
    | inl JSONDecodeError =>
      Outcome (inr tt) (final r) (printed r ++ [PrintInvalidMessage (fst addr)])
    | inl e => Outcome (inr tt) (final r) (printed r ++ [PrintHandlerError e])
    end.
Proof.
  intros <-. unfold Strict.handle_message, catch. cbv zeta.
  destruct (result (Strict.dispatch limit now clock stdin data addr st))
    as [[]|[]]; reflexivity.
Qed.

(* ===================================================================== *)
(** * Datagrams that are not objects *)
(* ===================================================================== *)

(** [json.loads(data.decode())] does not return an object: the bytes
    are not UTF-8, the text is not JSON, the scanner reaches the
    recursion limit, or the value is not an object. *)
Definition not_an_object (limit : nat) (data : bytes) : Prop :=
  match Strict.decode limit data with
  | inr (JObj _) => False
  | _ => True
  end.

Lemma dispatch_not_an_object (limit : nat) (now : Z) (clock : pystr -> Z)
    (stdin : option pystr) (data : bytes) (addr : address) (st : P2PChat) :
  not_an_object limit data ->
  Strict.dispatch limit now clock stdin data addr st
  = Outcome (inl match Strict.decode limit data with
                 | inl e => e
                 | inr _ => AttributeError
                 end) st [].
Proof.
  unfold not_an_object, Strict.dispatch. intros Hbad.
  pose proof (pure_strict_load limit data) as Hload.
  destruct (Strict.decode limit data) as [e|v].
  - now apply bind_pure_raise.
  - rewrite (bind_pure_ret _ _ _ _ Hload).
    apply bind_pure_raise.
    pose proof (pure_as_dict v) as Hd. now destruct v.
Qed.

(** The claim C3 as the specification states it, at one input: the
    report names the sender. *)
Definition reported_with_sender (st : P2PChat) (limit : nat) (now : Z)
    (clock : pystr -> Z) (stdin : option pystr) (data : bytes)
    (addr : address) : Prop :=
  not_an_object limit data ->
  let r := Strict.handle_message limit now clock stdin data addr st in
  result r = inr tt /\ final r = st
  /\ printed r = [PrintInvalidMessage (fst addr)].

(** C3, counterexample.  A datagram that holds the single byte 0xFF is
    not UTF-8: [data.decode()] raises [UnicodeDecodeError], which is not
    a [JSONDecodeError], so the second handler prints the exception and
    the sender's address does not appear. *)
Lemma undecodable_bytes_not_reported_with_sender :
  ~ reported_with_sender alice 1000 0 (fun _ => 0%Z) None [xff]
      (lit "10.0.0.7", 5000%Z).
Proof.
  unfold reported_with_sender. intros H.
  assert (Hbad : not_an_object 1000 [xff]) by exact I.
  destruct (H Hbad) as (_ & _ & Hprinted).
  vm_compute in Hprinted. discriminate Hprinted.
Qed.

(** C3, amended.  For every byte string from which
    [json.loads(data.decode())] does not return an object,
    [handle_message] returns normally, leaves the object unchanged
    (registry and session pointer included) and prints exactly one
    report.  The report is the invalid-message line with the sender's
    address only when the bytes are UTF-8 text that the parser rejects
    as not JSON.  It is the generic error line, with the exception and
    without the address, when the bytes are not UTF-8
    ([UnicodeDecodeError]), when the text is nested deeper than the
    interpreter allows ([RecursionError]) and when the JSON value is not
    an object ([AttributeError]).  A JSON object is outside this
    statement, whether it is a well-formed message or not: it is
    dispatched on its type. *)
Theorem malformed_datagram_contained (st : P2PChat) (limit : nat) (now : Z)
    (clock : pystr -> Z) (stdin : option pystr) (data : bytes)
    (addr : address) :
  not_an_object limit data ->
  let r := Strict.handle_message limit now clock stdin data addr st in
  result r = inr tt /\ final r = st
  /\ printed r = [match Strict.decode limit data with
                  | inl JSONDecodeError => PrintInvalidMessage (fst addr)
                  | inl e => PrintHandlerError e
                  | inr _ => PrintHandlerError AttributeError
                  end].
Proof.
  intros Hbad r. unfold r.
  rewrite (strict_handle_message_run limit now clock stdin data addr st _
             (dispatch_not_an_object limit now clock stdin data addr st Hbad)).
  cbn [result final printed].
  destruct (Strict.decode limit data) as [[]|v]; cbn; auto.
Qed.

(** A text of 1100 opening brackets: UTF-8, and not JSON. *)
Definition nested_brackets : bytes := List.repeat x5b 1100.

Lemma malformed_datagram_contained_witness :
  not_an_object 1000 (datagram "{'type': ")
  /\ not_an_object 1000 nested_brackets
  /\ (let r := Strict.handle_message 1000 0 (fun _ => 0%Z) None
                 (datagram "{'type': ") (lit "10.0.0.7", 5000%Z) alice in
      result r = inr tt /\ final r = alice
      /\ printed r
         = [match Strict.decode 1000 (datagram "{'type': ") with
            | inl JSONDecodeError =>
              PrintInvalidMessage (fst (lit "10.0.0.7", 5000%Z))
            | inl e => PrintHandlerError e
            | inr _ => PrintHandlerError AttributeError
            end])
  /\ (let r := Strict.handle_message 1000 0 (fun _ => 0%Z) None
                 nested_brackets (lit "10.0.0.7", 5000%Z) alice in
      result r = inr tt /\ final r = alice
      /\ printed r
         = [match Strict.decode 1000 nested_brackets with
            | inl JSONDecodeError =>
              PrintInvalidMessage (fst (lit "10.0.0.7", 5000%Z))
            | inl e => PrintHandlerError e
            | inr _ => PrintHandlerError AttributeError
            end]).
Proof.
  assert (H1 : not_an_object 1000 (datagram "{'type': ")) by exact I.
  assert (H2 : not_an_object 1000 nested_brackets)
    by (vm_compute; exact I).
  split; [exact H1|]. split; [exact H2|]. split.
  - exact (malformed_datagram_contained alice 1000 0 (fun _ => 0%Z) None
             (datagram "{'type': ") (lit "10.0.0.7", 5000%Z) H1).
  - exact (malformed_datagram_contained alice 1000 0 (fun _ => 0%Z) None
             nested_brackets (lit "10.0.0.7", 5000%Z) H2).
Defined.

(* ===================================================================== *)
(** * The listing on a terminal *)
(* ===================================================================== *)

(** The lines printed up to the first that the terminal refuses. *)
Fixpoint shown (l : list output) : list output :=
  match l with
  | [] => []
  | o :: l' => if Strict.encodable o then o :: shown l' else []
  end.

Lemma shown_all (l : list output) :
  forallb Strict.encodable l = true -> shown l = l.
Proof.
  induction l as [|o l IH]; cbn [forallb shown]; [reflexivity|].
  intros H. apply andb_true_iff in H as [Ho Hl]. now rewrite Ho, IH.
Qed.

Lemma for_each_print {A} (f : A -> output) (l : list A) (st : P2PChat) :
  for_each l (fun x => Strict.print_line (f x)) st
  = Outcome (if forallb Strict.encodable (List.map f l)
             then inr tt else inl UnicodeEncodeError)
      st (shown (List.map f l)).
Proof.
  induction l as [|x l IH]; cbn [for_each List.map forallb shown];
    [reflexivity|].
  destruct (Strict.encodable (f x)) eqn:Hx.
  - rewrite (bind_print_shown _ _ _ Hx), IH. cbn [result final printed andb].
    reflexivity.
  - now rewrite (bind_print_refused _ _ _ Hx).
Qed.

(** The line of an entry, with the reading of the clock for it. *)
Definition entry_line (clock : pystr -> Z) (item : pystr * peer) : output :=
  PrintPeer (peer_username (snd item)) (fst item)
    (status (clock (fst item)) (snd item)).

(** Every registered name has a UTF-8 encoding, and so has the address
    it is registered under. *)
Definition names_encodable (registry : pydict peer) : bool :=
  forallb (fun item => Strict.encodable_value (peer_username (snd item))
                       && Strict.encodable_text (fst item))
    registry.

Lemma names_encodable_lines (clock : pystr -> Z) (registry : pydict peer) :
  forallb Strict.encodable (List.map (entry_line clock) registry)
  = names_encodable registry.
Proof.
  unfold names_encodable. induction registry as [|item registry IH];
    cbn [List.map forallb]; [reflexivity|].
  now rewrite IH.
Qed.

(** What [list_peers] does: the header, then the entries in the order of
    the registry up to the first name that the terminal refuses, where
    it raises; the closing line if it gets there. *)
Lemma strict_list_peers_run (clock : pystr -> Z) (st : P2PChat) :
  Strict.list_peers clock st
  = Outcome (if names_encodable (peers st)
             then inr tt else inl UnicodeEncodeError)
      st
      (PrintPeersHeader
         :: match peers st with
            | [] => [PrintNoPeers]
            | _ :: _ => shown (List.map (entry_line clock) (peers st))
            end
         ++ if names_encodable (peers st) then [PrintBlank] else []).
Proof.
  unfold Strict.list_peers. rewrite bind_emit, bind_get_self.
  destruct (peers st) as [|item items] eqn:E; [reflexivity|].
  rewrite <- (names_encodable_lines clock (item :: items)).
  rewrite (bind_outcome _ _ _ _
             (for_each_print (entry_line clock) (item :: items) st)).
  cbn [result final printed].
  destruct (forallb Strict.encodable
              (List.map (entry_line clock) (item :: items)));
    cbn [result final printed emit]; now rewrite ?app_nil_r.
Qed.

Lemma strict_list_peers_shows (clock : pystr -> Z) (st : P2PChat)
    (ip : pystr) (info : peer) :
  names_encodable (peers st) = true ->
  In (ip, info) (peers st) ->
  let r := Strict.list_peers clock st in
  result r = inr tt /\ final r = st
  /\ In (PrintPeer (peer_username info) ip (status (clock ip) info))
        (printed r).
Proof.
  intros Hnames Hin r. unfold r. rewrite strict_list_peers_run, Hnames.
  cbn [result final printed]. split; [reflexivity|]. split; [reflexivity|].
  right. apply in_or_app. left.
  destruct (peers st) as [|item items] eqn:E; [contradiction|].
  rewrite shown_all by (now rewrite names_encodable_lines).
  apply in_map_iff. exists (ip, info). split; auto.
Qed.

(* ===================================================================== *)
(** * Liveness *)
(* ===================================================================== *)

Lemma strict_handle_presence (st : P2PChat) (limit : nat) (now : Z)
    (clock : pystr -> Z) (stdin : option pystr) (data : bytes)
    (addr : address) (d : pydict json) (name : json) :
  within limit data = true ->
  decode data = inr (JObj d) ->
  eq_str (type_of d) (lit "presence") = true ->
  PyDict.get (lit "username") d = Some name ->
  Strict.handle_message limit now clock stdin data addr st
  = Outcome (inr tt)
      (with_peers st (PyDict.set (fst addr) (Peer name now) (peers st))) [].
Proof.
  intros Hw Hdata Hkind Hname.
  rewrite (strict_handle_message_run limit now clock stdin data addr st
             (Outcome (inr tt)
                (with_peers st
                   (PyDict.set (fst addr) (Peer name now) (peers st))) []));
    [reflexivity|].
  strict_enter Hw Hdata Hkind.
  rewrite (bind_pure_ret _ _ _ _ (subscript_present _ _ _ Hname)).
  reflexivity.
Qed.

(** C4.  A presence datagram handled at time [t0] upserts the entry of
    its sender with last-seen time [t0].  The liveness derived from that
    entry (the test of line 364) is active 59 seconds later and inactive
    61 seconds later; at any time, it is active if and only if less than
    60 seconds have passed since [t0].  When the terminal can show every
    registered name, the listing prints the line of the entry with the
    liveness derived from the reading of the clock for it. *)
Theorem presence_liveness (st : P2PChat) (limit : nat) (t0 : Z)
    (clock : pystr -> Z) (stdin : option pystr) (data : bytes)
    (addr : address) (name : json) :
  within limit data = true ->
  has_kind data "presence" = true ->
  field_of data "username" = Some name ->
  let st' := final (Strict.handle_message limit t0 clock stdin data addr st) in
  PyDict.get (fst addr) (peers st') = Some (Peer name t0)
  /\ status (t0 + 59 * SECOND) (Peer name t0) = Active
  /\ status (t0 + 61 * SECOND) (Peer name t0) = Inactive
  /\ (forall later,
        status later (Peer name t0) = Active <-> later - t0 < 60 * SECOND)
  /\ (forall readings,
        names_encodable (peers st') = true ->
        let r := Strict.list_peers readings st' in
        result r = inr tt /\ final r = st'
        /\ In (PrintPeer name (fst addr)
                 (status (readings (fst addr)) (Peer name t0)))
              (printed r)).
Proof.
  intros Hw Hkind Hname st'. open_datagram Hkind d Hdata Hd.
  assert (Hget : PyDict.get (fst addr) (peers st') = Some (Peer name t0)).
  { unfold st'.
    rewrite (strict_handle_presence st limit t0 clock stdin data addr d name)
      by assumption.
    cbn. apply get_set_same. }
  split; [exact Hget|].
  assert (Hstatus : forall later,
             status later (Peer name t0) = Active <-> later - t0 < 60 * SECOND).
  { intros later. unfold status, SIXTY_SECONDS. cbn [last_seen].
    destruct (Z.ltb_spec (later - t0) (60 * SECOND)); split;
      auto; try discriminate; lia. }
  split; [apply Hstatus; unfold SECOND; lia|]. split.
  - destruct (status (t0 + 61 * SECOND) (Peer name t0)) eqn:E; [|reflexivity].
    apply Hstatus in E. unfold SECOND in E. lia.
  - split; [exact Hstatus|].
    intros readings Hnames.
    apply (strict_list_peers_shows readings st' (fst addr) (Peer name t0)
             Hnames).
    now apply get_in.
Qed.

Lemma presence_liveness_witness :
  let t0 := 1730000000500000000 in
  let st' := final (Strict.handle_message 1000 t0 (fun _ => 0) None
                      presence_of_bob (bob_ip, 5000) alice) in
  within 1000 presence_of_bob = true
  /\ has_kind presence_of_bob "presence" = true
  /\ PyDict.get (fst (bob_ip, 5000)) (peers st')
     = Some (Peer (JStr (lit "bob")) t0)
  /\ status (t0 + 59 * SECOND) (Peer (JStr (lit "bob")) t0) = Active
  /\ status (t0 + 61 * SECOND) (Peer (JStr (lit "bob")) t0) = Inactive
  /\ (forall later,
        status later (Peer (JStr (lit "bob")) t0) = Active
        <-> later - t0 < 60 * SECOND)
  /\ (forall readings,
        names_encodable (peers st') = true ->
        let r := Strict.list_peers readings st' in
        result r = inr tt /\ final r = st'
        /\ In (PrintPeer (JStr (lit "bob")) (fst (bob_ip, 5000))
                 (status (readings (fst (bob_ip, 5000)))
                    (Peer (JStr (lit "bob")) t0)))
              (printed r)).
Proof.
  intros t0 st'. split; [reflexivity|]. split; [reflexivity|].
  exact (presence_liveness alice 1000 t0 (fun _ => 0) None presence_of_bob
           (bob_ip, 5000) (JStr (lit "bob")) eq_refl eq_refl eq_refl).
Defined.

(* ===================================================================== *)
(** * The registry only loses an entry on a disconnect *)
(* ===================================================================== *)

Lemma strict_stable_handle_command (P : pydict peer -> Prop)
    (clock : pystr -> Z) (command : pystr) (from_ip : option pystr) :
  stable (fun st => P (peers st)) (Strict.handle_command clock command from_ip).
Proof.
  unfold Strict.handle_command, show_help. strict_walk;
    apply (stable_set_current_chat P).
Qed.

Lemma strict_key_persists (k : pystr) (limit : nat) (now : Z)
    (clock : pystr -> Z) (stdin : option pystr) (data : bytes)
    (addr : address) :
  is_disconnect data = false \/ k <> fst addr ->
  stable (fun st => In k (keys (peers st)))
    (Strict.handle_message limit now clock stdin data addr).
Proof.
  intros Hkind. unfold Strict.handle_message, Strict.dispatch. cbv zeta.
  strict_walk;
    try apply (stable_set_current_chat (fun d => In k (keys d)));
    try apply (strict_stable_handle_command (fun d => In k (keys d))).
  - (* presence: an assignment in the registry *)
    intros st _. cbn. apply keys_set. now right.
  - (* disconnect: the entry of the sender is deleted *)
    intros st _. cbn. apply keys_del. split; auto.
    destruct Hkind as [Hkind|Hk]; auto.
    unfold is_disconnect in Hkind.
    match goal with
    | H : Strict.decode limit data = inr ?v |- _ =>
      apply decode_value in H; rewrite H in Hkind
    end.
    match goal with
    | H : _ = inr ?d |- _ => apply as_dict_inv in H; subst
    end.
    congruence.
Qed.

(** C8.  Handling a datagram that is not a disconnect from a known peer
    (the dispatcher does not take it for a disconnect, or its sender is
    not in the registry) removes no entry from the registry: every key
    present before is present after, whatever the age of its entry, so
    that an entry whose time stamp is sixty seconds old or more is still
    in the registry.  The listing removes nothing either, whether it
    returns or raises, and when the terminal can show every registered
    name it prints such an entry, as inactive. *)
Theorem registry_keeps_entries (st : P2PChat) (limit : nat) (now : Z)
    (clock : pystr -> Z) (stdin : option pystr) (data : bytes)
    (addr : address) :
  is_disconnect data = false \/ PyDict.mem (fst addr) (peers st) = false ->
  let st' := final (Strict.handle_message limit now clock stdin data addr st) in
  (forall k, In k (keys (peers st)) -> In k (keys (peers st')))
  /\ (forall ip info,
        PyDict.get ip (peers st) = Some info ->
        SIXTY_SECONDS <= now - last_seen info ->
        In ip (keys (peers st')))
  /\ (forall later, final (Strict.list_peers later st') = st')
  /\ (forall ip info later,
        In (ip, info) (peers st') ->
        names_encodable (peers st') = true ->
        SIXTY_SECONDS <= later ip - last_seen info ->
        In (PrintPeer (peer_username info) ip Inactive)
           (printed (Strict.list_peers later st'))).
Proof.
  intros Hkind st'.
  assert (Hkeys : forall k, In k (keys (peers st)) -> In k (keys (peers st'))).
  { intros k Hk.
    apply (strict_key_persists k limit now clock stdin data addr); [|exact Hk].
    destruct Hkind as [Hkind|Hunknown]; [now left|]. right.
    intros ->. apply mem_keys in Hk. congruence. }
  split; [exact Hkeys|]. split; [|split].
  - intros ip info Hget _. apply Hkeys, mem_keys.
    unfold PyDict.mem. now rewrite Hget.
  - intros later. apply silent_strict_list_peers.
  - intros ip info later Hin Hnames Hold.
    destruct (strict_list_peers_shows later st' ip info Hnames Hin)
      as (_ & _ & Hline).
    replace Inactive with (status (later ip) info); [exact Hline|].
    unfold status.
    destruct (Z.ltb_spec (later ip - last_seen info) SIXTY_SECONDS);
      [lia|reflexivity].
Qed.

Lemma registry_keeps_entries_witness :
  let st := Build (lit "alice") 5000 true
              [(eve_ip, Peer (JStr (lit "eve")) 1000000000000)] None in
  let st' := final (Strict.handle_message 1000 1730000001000000000
                      (fun _ => 0) None hello_from_bob (bob_ip, 5000) st) in
  (is_disconnect hello_from_bob = false
   \/ PyDict.mem (fst (bob_ip, 5000)) (peers st) = false)
  /\ (forall k, In k (keys (peers st)) -> In k (keys (peers st')))
  /\ (forall ip info,
        PyDict.get ip (peers st) = Some info ->
        SIXTY_SECONDS <= 1730000001000000000 - last_seen info ->
        In ip (keys (peers st')))
  /\ (forall later, final (Strict.list_peers later st') = st')
  /\ (forall ip info later,
        In (ip, info) (peers st') ->
        names_encodable (peers st') = true ->
        SIXTY_SECONDS <= later ip - last_seen info ->
        In (PrintPeer (peer_username info) ip Inactive)
           (printed (Strict.list_peers later st'))).
Proof.
  intros st st'. split; [left; reflexivity|].
  exact (registry_keeps_entries st 1000 1730000001000000000 (fun _ => 0) None
           hello_from_bob (bob_ip, 5000) (or_introl eq_refl)).
Defined.

(* ===================================================================== *)
(** * Commands on a terminal *)
(* ===================================================================== *)

(** The strict dispatcher on a chat message for the local user whose
    text starts with a slash: the command is run with the sender's
    address, then line 109. *)
Lemma strict_dispatch_command (st : P2PChat) (limit : nat) (now : Z)
    (clock : pystr -> Z) (stdin : option pystr) (data : bytes)
    (addr : address) (d : pydict json) (sender : json) (text : pystr) :
  within limit data = true ->
  decode data = inr (JObj d) ->
  eq_str (type_of d) (lit "message") = true ->
  addressed_to d (username st) = true ->
  PyDict.get (lit "from_username") d = Some sender ->
  PyDict.get (lit "text") d = Some (JStr text) ->
  startswith (lit "/") text = true ->
  Strict.dispatch limit now clock stdin data addr st
  = bind (Strict.handle_command clock text (Some (fst addr)))
      (fun _ =>
         bind get_self
           (fun self' =>
              if negb (is_set (current_chat self'))
              then set_current_chat (Some (fst addr))
              else ret tt))
      st.
Proof.
  intros Hw Hdata Hkind Hto Hfrom Htext Hslash. strict_enter Hw Hdata Hkind.
  rewrite bind_get_self, Hto.
  rewrite (bind_pure_ret _ _ _ _ (subscript_present _ _ _ Hfrom)).
  rewrite (bind_pure_ret _ _ _ _ (subscript_present _ _ _ Htext)).
  rewrite (bind_pure_ret _ _ _ _ (pure_as_text (JStr text))).
  now rewrite Hslash.
Qed.

(** The msg command on an address that is not registered. *)
Lemma strict_msg_unknown (st : P2PChat) (clock : pystr -> Z)
    (from_ip : option pystr) (a : pystr) :
  strip a = a ->
  PyDict.mem a (peers st) = false ->
  Strict.handle_command clock (lit "/msg " ++ a) from_ip st
  = Outcome (if Strict.encodable_text a
             then inr tt else inl UnicodeEncodeError)
      st
      (if Strict.encodable_text a then [PrintUserNotFound a] else []).
Proof.
  intros Hstrip Hmem. unfold Strict.handle_command.
  rewrite startswith_app, slice_msg_target, Hstrip, bind_get_self, Hmem.
  unfold Strict.print_line. cbn [Strict.encodable].
  now destruct (Strict.encodable_text a).
Qed.

(** The claim C7 as the specification states it, at one input: the
    command with an unknown address leaves the partner as it was and the
    user is told. *)
Definition unknown_msg_leaves_session (st : P2PChat) (limit : nat) (now : Z)
    (clock : pystr -> Z) (stdin : option pystr) (data : bytes)
    (addr : address) (a : pystr) : Prop :=
  chat_for (username st) data = true ->
  field_of data "text" = Some (JStr (lit "/msg " ++ a)) ->
  PyDict.mem a (peers st) = false ->
  let r := Strict.handle_message limit now clock stdin data addr st in
  current_chat (final r) = current_chat st
  /\ printed r = [PrintUserNotFound a].

(** A chat message of eve for alice whose text is the msg command with
    an address that alice does not know. *)
Definition msg_unknown_from_eve : bytes :=
  datagram
    "{'type': 'message', 'from_username': 'eve', 'to_username': 'alice', 'text': '/msg 10.0.0.99', 'timestamp': 1730000005.5}".

(** C7, counterexample.  The command is only run by the dispatcher, for
    a chat message that carries it (line 104).  When the local user has
    no partner, line 110 then makes the sender of the command the
    partner: the session has changed. *)
Lemma unknown_msg_adopts_sender :
  ~ unknown_msg_leaves_session alice 1000 1730000006 (fun _ => 0) None
      msg_unknown_from_eve (eve_ip, 5000) (lit "10.0.0.99").
Proof.
  unfold unknown_msg_leaves_session. intros H.
  specialize (H eq_refl eq_refl eq_refl). destruct H as [H _].
  vm_compute in H. discriminate H.
Qed.

(** C7, amended.  For every address [a] (without white space around
    it) that is not a key of the registry, [handle_command] on
    ["/msg a"] leaves the object as it was, partner included; it prints
    the user-not-found line for [a], or raises [UnicodeEncodeError]
    without printing when [a] holds a lone surrogate.  The dispatcher,
    which is what runs the command, for a chat message to the local user
    that carries it: the registry is unchanged and one line is printed,
    the user-not-found line or the generic error line with that
    exception; the partner is unchanged when there is one or when the
    print raised, and otherwise (no partner, line printed) line 110
    makes the sender of the command the partner. *)
Theorem msg_unknown_address_rejected (st : P2PChat) (clock : pystr -> Z)
    (a : pystr) :
  strip a = a ->
  PyDict.mem a (peers st) = false ->
  (forall from_ip,
      let r := Strict.handle_command clock (lit "/msg " ++ a) from_ip st in
      final r = st
      /\ current_chat (final r) = current_chat st
      /\ result r = (if Strict.encodable_text a
                     then inr tt else inl UnicodeEncodeError)
      /\ printed r = (if Strict.encodable_text a
                      then [PrintUserNotFound a] else []))
  /\ (forall limit now stdin data addr sender,
         within limit data = true ->
         chat_for (username st) data = true ->
         field_of data "from_username" = Some sender ->
         field_of data "text" = Some (JStr (lit "/msg " ++ a)) ->
         let r := Strict.handle_message limit now clock stdin data addr st in
         result r = inr tt
         /\ peers (final r) = peers st
         /\ printed r = [if Strict.encodable_text a
                         then PrintUserNotFound a
                         else PrintHandlerError UnicodeEncodeError]
         /\ current_chat (final r)
            = (if Strict.encodable_text a
                  && negb (is_set (current_chat st))
               then Some (fst addr) else current_chat st)).
Proof.
  intros Hstrip Hmem. split.
  - intros from_ip r. unfold r.
    rewrite (strict_msg_unknown st clock from_ip a Hstrip Hmem).
    cbn [result final printed]. auto.
  - intros limit now stdin data addr sender Hw Hchat Hfrom Htext r.
    unfold chat_for in Hchat. apply andb_true_iff in Hchat as [Hkind Hto].
    open_datagram Hkind d Hdata Hd. unfold r.
    rewrite (strict_handle_message_run limit now clock stdin data addr st _
               eq_refl).
    rewrite (strict_dispatch_command st limit now clock stdin data addr d
               sender _ Hw Hdata Hkind Hto Hfrom Htext eq_refl).
    rewrite (bind_outcome _ _ _ _
               (strict_msg_unknown st clock (Some (fst addr)) a Hstrip Hmem)).
    destruct (Strict.encodable_text a); cbn [result final printed andb].
    + rewrite bind_get_self.
      destruct (is_set (current_chat st)); cbn; auto.
    + auto.
Qed.

Lemma msg_unknown_address_rejected_witness :
  strip (lit "10.0.0.99") = lit "10.0.0.99"
  /\ PyDict.mem (lit "10.0.0.99") (peers alice_with_bob) = false
  /\ (forall from_ip,
         let r := Strict.handle_command (fun _ => 0)
                    (lit "/msg " ++ lit "10.0.0.99") from_ip alice_with_bob in
         final r = alice_with_bob
         /\ current_chat (final r) = current_chat alice_with_bob
         /\ result r = (if Strict.encodable_text (lit "10.0.0.99")
                        then inr tt else inl UnicodeEncodeError)
         /\ printed r = (if Strict.encodable_text (lit "10.0.0.99")
                         then [PrintUserNotFound (lit "10.0.0.99")] else []))
  /\ (let r := Strict.handle_message 1000 1730000006 (fun _ => 0) None
                 msg_unknown_from_eve (eve_ip, 5000) alice_with_bob in
      result r = inr tt
      /\ peers (final r) = peers alice_with_bob
      /\ printed r = [if Strict.encodable_text (lit "10.0.0.99")
                      then PrintUserNotFound (lit "10.0.0.99")
                      else PrintHandlerError UnicodeEncodeError]
      /\ current_chat (final r)
         = (if Strict.encodable_text (lit "10.0.0.99")
               && negb (is_set (current_chat alice_with_bob))
            then Some (fst (eve_ip, 5000)) else current_chat alice_with_bob)).
Proof.
  split; [reflexivity|]. split; [reflexivity|].
  destruct (msg_unknown_address_rejected alice_with_bob (fun _ => 0)
              (lit "10.0.0.99") eq_refl eq_refl) as [Hcommand Hdispatch].
  split; [exact Hcommand|].
  exact (Hdispatch 1000%nat 1730000006 None msg_unknown_from_eve
           (eve_ip, 5000) (JStr (lit "eve")) eq_refl eq_refl eq_refl eq_refl).
Defined.

(* ===================================================================== *)
(** * The probe on a terminal *)
(* ===================================================================== *)
















(* ===================================================================== *)
(** * Notices on a terminal *)
(* ===================================================================== *)

(** X4.  A typing notice or a read receipt for the local user changes
    nothing in the object: neither the registry nor the session pointer
    depends on them.  It adds one line to the output: its line with the
    name of the sender, or, when that name holds a lone surrogate and
    [print] raises, the report of the handler of line 137. *)
Theorem notice_printed (st : P2PChat) (limit : nat) (now : Z)
    (clock : pystr -> Z) (stdin : option pystr) (data : bytes)
    (addr : address) (sender : json) :
  within limit data = true ->
  has_kind data "typing" || has_kind data "read_receipt" = true ->
  to_user data (username st) = true ->
  field_of data "from_username" = Some sender ->
  Strict.handle_message limit now clock stdin data addr st
  = Outcome (inr tt) st
      [if Strict.encodable_value sender
       then if has_kind data "typing" then PrintTyping sender
            else PrintReadReceipt sender
       else PrintHandlerError UnicodeEncodeError].
Proof.
  intros Hw Hkind Hto Hfrom.
  apply orb_true_iff in Hkind as [Hkind|Hkind].
  - pose proof Hkind as Hk. open_datagram Hkind d Hdata Hd.
    rewrite Hkind.
    rewrite (strict_handle_message_run limit now clock stdin data addr st
               (Outcome (if Strict.encodable_value sender
                         then inr tt else inl UnicodeEncodeError)
                  st
                  (if Strict.encodable_value sender
                   then [PrintTyping sender] else []))).
    + now destruct (Strict.encodable_value sender).
    + strict_enter Hw Hdata Hkind. rewrite bind_get_self, Hto.
      rewrite (bind_pure_ret _ _ _ _ (subscript_present _ _ _ Hfrom)).
      unfold Strict.print_line. cbn [Strict.encodable].
      now destruct (Strict.encodable_value sender).
  - pose proof Hkind as Hk. open_datagram Hkind d Hdata Hd.
    rewrite (eq_str_other _ _ (lit "typing") Hkind) by discriminate.
    rewrite (strict_handle_message_run limit now clock stdin data addr st
               (Outcome (if Strict.encodable_value sender
                         then inr tt else inl UnicodeEncodeError)
                  st
                  (if Strict.encodable_value sender
                   then [PrintReadReceipt sender] else []))).
    + now destruct (Strict.encodable_value sender).
    + strict_enter Hw Hdata Hkind. rewrite bind_get_self, Hto.
      rewrite (bind_pure_ret _ _ _ _ (subscript_present _ _ _ Hfrom)).
      unfold Strict.print_line. cbn [Strict.encodable].
      now destruct (Strict.encodable_value sender).
Qed.

(** A read receipt whose sender name is a lone surrogate. *)
Definition receipt_with_surrogate : bytes :=
  datagram
    "{'type': 'read_receipt', 'from_username': '\udc80', 'to_username': 'alice'}".

Lemma notice_printed_witness :
  let data :=
    datagram "{'type': 'read_receipt', 'from_username': 'bob', 'to_username': 'alice'}" in
  (within 1000 data = true
   /\ has_kind data "typing" || has_kind data "read_receipt" = true
   /\ to_user data (username alice_with_bob) = true
   /\ Strict.handle_message 1000 1730000006 (fun _ => 0) None data
        (bob_ip, 5000) alice_with_bob
      = Outcome (inr tt) alice_with_bob [PrintReadReceipt (JStr (lit "bob"))])
  /\ Strict.handle_message 1000 1730000006 (fun _ => 0) None
       receipt_with_surrogate (bob_ip, 5000) alice_with_bob
     = Outcome (inr tt) alice_with_bob [PrintHandlerError UnicodeEncodeError].
Proof.
  intros data. split.
  - split; [reflexivity|]. split; [reflexivity|]. split; [reflexivity|].
    exact (notice_printed alice_with_bob 1000 1730000006 (fun _ => 0) None
             data (bob_ip, 5000) (JStr (lit "bob"))
             eq_refl eq_refl eq_refl eq_refl).
  - exact (notice_printed alice_with_bob 1000 1730000006 (fun _ => 0) None
             receipt_with_surrogate (bob_ip, 5000) (JStr [56448%N])
             eq_refl eq_refl eq_refl eq_refl).
Defined.

(* ===================================================================== *)
(** * File offers on a terminal *)
(* ===================================================================== *)

(** The four lines of lines 335-338. *)
Definition offer_lines (sender : json) (from_ip : pystr) (name size : json)
    (hash : pystr) : list output :=
  [PrintFileOfferFrom sender from_ip; PrintFilename name; PrintSize size;
   PrintHash (JStr (slice_to 16 hash))].

(** What [handle_file_offer] does with a complete offer. *)
Lemma strict_offer_shown (st : P2PChat) (stdin : option pystr)
    (d : pydict json) (from_ip : pystr) (name size sender : json)
    (hash : pystr) :
  PyDict.get (lit "filename") d = Some name ->
  PyDict.get (lit "size") d = Some size ->
  PyDict.get (lit "hash") d = Some (JStr hash) ->
  PyDict.get (lit "from_username") d = Some sender ->
  Strict.handle_file_offer stdin d from_ip st
  = Outcome
      (if forallb Strict.encodable (offer_lines sender from_ip name size hash)
       then match stdin with Some _ => inr tt | None => inl EOFError end
       else inl UnicodeEncodeError)
      st
      (shown (offer_lines sender from_ip name size hash)
       ++ if forallb Strict.encodable (offer_lines sender from_ip name size hash)
          then PromptAccept
                 :: match stdin with
                    | Some reply =>
                      if says_yes reply
                      then [PrintTransferStarting; PrintNotImplemented]
                      else [PrintFileRejected]
                    | None => []
                    end
          else []).
Proof.
  intros Hname Hsize Hhash Hfrom. unfold Strict.handle_file_offer.
  rewrite (bind_pure_ret _ _ _ _ (subscript_present _ _ _ Hname)).
  rewrite (bind_pure_ret _ _ _ _ (subscript_present _ _ _ Hsize)).
  rewrite (bind_pure_ret _ _ _ _ (subscript_present _ _ _ Hhash)).
  rewrite (bind_pure_ret _ _ _ _ (subscript_present _ _ _ Hfrom)).
  unfold offer_lines. cbn [forallb shown].
  destruct (Strict.encodable (PrintFileOfferFrom sender from_ip)) eqn:H1;
    [rewrite (bind_print_shown _ _ _ H1)
    |now rewrite (bind_print_refused _ _ _ H1)].
  destruct (Strict.encodable (PrintFilename name)) eqn:H2;
    [rewrite (bind_print_shown _ _ _ H2)
    |now rewrite (bind_print_refused _ _ _ H2)].
  destruct (Strict.encodable (PrintSize size)) eqn:H3;
    [rewrite (bind_print_shown _ _ _ H3)
    |now rewrite (bind_print_refused _ _ _ H3)].
  rewrite (bind_pure_ret _ _ _ _ (pure_first16 (JStr hash))).
  destruct (Strict.encodable (PrintHash (JStr (slice_to 16 hash)))) eqn:H4;
    [rewrite (bind_print_shown _ _ _ H4)
    |now rewrite (bind_print_refused _ _ _ H4)].
  cbn [andb app]. unfold input.
  destruct stdin as [reply|]; [|reflexivity].
  unfold bind, emit, ret. cbn. now destruct (says_yes reply).
Qed.

(** X5.  A file offer for the local user that has its four fields, the
    hash being a string.  The four lines of the offer (sender and
    address, file name, size, the first sixteen characters of the hash)
    are printed up to the first that holds a lone surrogate, where
    [print] raises and the handler of line 137 reports it.  When all
    four are printed the user is asked, and the answer is taken for a
    yes only if it is exactly [y] or [Y]; at end of input the handler
    reports [EOFError].  In no case is anything sent or the object
    changed. *)
Theorem file_offer_answered (st : P2PChat) (limit : nat) (now : Z)
    (clock : pystr -> Z) (stdin : option pystr) (data : bytes)
    (addr : address) (name size sender : json) (hash : pystr) :
  within limit data = true ->
  has_kind data "file_offer" = true ->
  to_user data (username st) = true ->
  field_of data "filename" = Some name ->
  field_of data "size" = Some size ->
  field_of data "hash" = Some (JStr hash) ->
  field_of data "from_username" = Some sender ->
  let lines := offer_lines sender (fst addr) name size hash in
  Strict.handle_message limit now clock stdin data addr st
  = Outcome (inr tt) st
      (shown lines
       ++ if forallb Strict.encodable lines
          then PromptAccept
                 :: match stdin with
                    | Some reply =>
                      if PyStr.eqb reply (lit "y") || PyStr.eqb reply (lit "Y")
                      then [PrintTransferStarting; PrintNotImplemented]
                      else [PrintFileRejected]
                    | None => [PrintHandlerError EOFError]
                    end
          else [PrintHandlerError UnicodeEncodeError]).
Proof.
  intros Hw Hkind Hto Hname Hsize Hhash Hfrom lines.
  open_datagram Hkind d Hdata Hd.
  rewrite (strict_handle_message_run limit now clock stdin data addr st _
             eq_refl).
  strict_enter Hw Hdata Hkind. rewrite bind_get_self, Hto.
  rewrite (strict_offer_shown st stdin d (fst addr) name size sender hash
             Hname Hsize Hhash Hfrom).
  fold lines. cbn [result final printed].
  destruct (forallb Strict.encodable lines).
  - destruct stdin as [reply|]; [reflexivity|].
    now rewrite <- app_assoc.
  - now rewrite <- app_assoc.
Qed.

(** A file offer whose file name holds a lone surrogate. *)
Definition offer_with_surrogate : bytes :=
  datagram
    "{'type': 'file_offer', 'from_username': 'bob', 'to_username': 'alice', 'filename': 'notes\udc80.txt', 'size': 12, 'hash': '0123456789abcdef0123', 'timestamp': 1730000000.5}".

Lemma file_offer_answered_witness :
  let data :=
    datagram "{'type': 'file_offer', 'from_username': 'bob', 'to_username': 'alice', 'filename': 'notes.txt', 'size': 12, 'hash': '0123456789abcdef0123', 'timestamp': 1730000000.5}" in
  (within 1000 data = true
   /\ has_kind data "file_offer" = true
   /\ to_user data (username alice) = true
   /\ Strict.handle_message 1000 1730000001 (fun _ => 0) (Some (lit "yes"))
        data (bob_ip, 5000) alice
      = Outcome (inr tt) alice
          [PrintFileOfferFrom (JStr (lit "bob")) bob_ip;
           PrintFilename (JStr (lit "notes.txt")); PrintSize (JInt 12);
           PrintHash (JStr (lit "0123456789abcdef"));
           PromptAccept; PrintFileRejected])
  /\ Strict.handle_message 1000 1730000001 (fun _ => 0) (Some (lit "y"))
       offer_with_surrogate (bob_ip, 5000) alice
     = Outcome (inr tt) alice
         [PrintFileOfferFrom (JStr (lit "bob")) bob_ip;
          PrintHandlerError UnicodeEncodeError].
Proof.
  intros data. split.
  - split; [reflexivity|]. split; [reflexivity|]. split; [reflexivity|].
    exact (file_offer_answered alice 1000 1730000001 (fun _ => 0)
             (Some (lit "yes")) data (bob_ip, 5000) (JStr (lit "notes.txt"))
             (JInt 12) (JStr (lit "bob")) (lit "0123456789abcdef0123")
             eq_refl eq_refl eq_refl eq_refl eq_refl eq_refl eq_refl).
  - exact (file_offer_answered alice 1000 1730000001 (fun _ => 0)
             (Some (lit "y")) offer_with_surrogate (bob_ip, 5000)
             (JStr (lit "notes" ++ [56448%N] ++ lit ".txt"))
             (JInt 12) (JStr (lit "bob")) (lit "0123456789abcdef0123")
             eq_refl eq_refl eq_refl eq_refl eq_refl eq_refl eq_refl).
Defined.

(** X7.  A file offer whose hash is a number, a boolean or null is shown
    up to its size, or up to the first of these three lines that holds a
    lone surrogate.  Either [print] raises there or line 338 raises
    [TypeError]; the handler of line 137 reports the exception.  The
    question of line 340 is never put: the user can neither accept nor
    reject the offer, and the object is unchanged. *)
Theorem file_offer_bad_hash_not_asked (st : P2PChat) (limit : nat) (now : Z)
    (clock : pystr -> Z) (stdin : option pystr) (data : bytes)
    (addr : address) (name size hash sender : json) :
  within limit data = true ->
  has_kind data "file_offer" = true ->
  to_user data (username st) = true ->
  field_of data "filename" = Some name ->
  field_of data "size" = Some size ->
  field_of data "hash" = Some hash ->
  field_of data "from_username" = Some sender ->
  unsliceable hash = true ->
  let lines := [PrintFileOfferFrom sender (fst addr); PrintFilename name;
                PrintSize size] in
  Strict.handle_message limit now clock stdin data addr st
  = Outcome (inr tt) st
      (shown lines
       ++ [PrintHandlerError (if forallb Strict.encodable lines
                              then TypeError else UnicodeEncodeError)]).
Proof.
  intros Hw Hkind Hto Hname Hsize Hhash Hfrom Hbad lines.
  open_datagram Hkind d Hdata Hd.
  rewrite (strict_handle_message_run limit now clock stdin data addr st
             (Outcome (inl (if forallb Strict.encodable lines
                            then TypeError else UnicodeEncodeError))
                st (shown lines))).
  - cbn [result final printed].
    now destruct (forallb Strict.encodable lines).
  - strict_enter Hw Hdata Hkind. rewrite bind_get_self, Hto.
    unfold Strict.handle_file_offer.
    rewrite (bind_pure_ret _ _ _ _ (subscript_present _ _ _ Hname)).
    rewrite (bind_pure_ret _ _ _ _ (subscript_present _ _ _ Hsize)).
    rewrite (bind_pure_ret _ _ _ _ (subscript_present _ _ _ Hhash)).
    rewrite (bind_pure_ret _ _ _ _ (subscript_present _ _ _ Hfrom)).
    unfold lines. cbn [forallb shown].
    destruct (Strict.encodable (PrintFileOfferFrom sender (fst addr))) eqn:H1;
      [rewrite (bind_print_shown _ _ _ H1)
      |now rewrite (bind_print_refused _ _ _ H1)].
    destruct (Strict.encodable (PrintFilename name)) eqn:H2;
      [rewrite (bind_print_shown _ _ _ H2)
      |now rewrite (bind_print_refused _ _ _ H2)].
    destruct (Strict.encodable (PrintSize size)) eqn:H3;
      [rewrite (bind_print_shown _ _ _ H3)
      |now rewrite (bind_print_refused _ _ _ H3)].
    pose proof (pure_first16 hash) as Hslice.
    destruct hash; try discriminate Hbad;
      now rewrite (bind_pure_raise _ _ _ _ Hslice).
Qed.

Lemma file_offer_bad_hash_not_asked_witness :
  let data :=
    datagram "{'type': 'file_offer', 'from_username': 'bob', 'to_username': 'alice', 'filename': 'notes.txt', 'size': 12, 'hash': 7}" in
  within 1000 data = true
  /\ has_kind data "file_offer" = true
  /\ to_user data (username alice) = true
  /\ unsliceable (JInt 7) = true
  /\ Strict.handle_message 1000 1730000001 (fun _ => 0) (Some (lit "y")) data
       (bob_ip, 5000) alice
     = Outcome (inr tt) alice
         [PrintFileOfferFrom (JStr (lit "bob")) bob_ip;
          PrintFilename (JStr (lit "notes.txt")); PrintSize (JInt 12);
          PrintHandlerError TypeError].
Proof.
  intros data. split; [reflexivity|]. split; [reflexivity|].
  split; [reflexivity|]. split; [reflexivity|].
  exact (file_offer_bad_hash_not_asked alice 1000 1730000001 (fun _ => 0)
           (Some (lit "y")) data (bob_ip, 5000) (JStr (lit "notes.txt"))
           (JInt 12) (JInt 7) (JStr (lit "bob"))
           eq_refl eq_refl eq_refl eq_refl eq_refl eq_refl eq_refl eq_refl).
Defined.

(* ===================================================================== *)
(** * Chat messages on a terminal *)
(* ===================================================================== *)

(** X8.  A chat message for the local user whose text does not start
    with a slash, when its sender name and its text can be printed: it
    is printed with the name the datagram gives and the address it came
    from, and its sender becomes the partner only if there is no
    conversation (with a partner set, the message of anyone else is
    printed and the partner stays).  When the name or the text holds a
    lone surrogate, [print] raises at line 106: the handler of line 137
    reports it, line 110 is not reached and the sender is not adopted.
    The registry is not touched, so that an adopted sender is not
    registered by its message. *)
Theorem chat_shown_sender_adopted_when_idle (st : P2PChat) (limit : nat)
    (now : Z) (clock : pystr -> Z) (stdin : option pystr) (data : bytes)
    (addr : address) (sender : json) (text : pystr) :
  within limit data = true ->
  has_kind data "message" = true ->
  to_user data (username st) = true ->
  field_of data "from_username" = Some sender ->
  field_of data "text" = Some (JStr text) ->
  startswith (lit "/") text = false ->
  let r := Strict.handle_message limit now clock stdin data addr st in
  let printable := Strict.encodable_value sender
                   && Strict.encodable_text text in
  result r = inr tt
  /\ printed r = [if printable then PrintChat sender (fst addr) text
                  else PrintHandlerError UnicodeEncodeError]
  /\ current_chat (final r)
     = (if printable && negb (is_set (current_chat st))
        then Some (fst addr) else current_chat st)
  /\ peers (final r) = peers st.
Proof.
  intros Hw Hkind Hto Hfrom Htext Hplain r printable.
  open_datagram Hkind d Hdata Hd. unfold r.
  rewrite (strict_handle_message_run limit now clock stdin data addr st _
             eq_refl).
  strict_enter Hw Hdata Hkind. rewrite bind_get_self, Hto.
  rewrite (bind_pure_ret _ _ _ _ (subscript_present _ _ _ Hfrom)).
  rewrite (bind_pure_ret _ _ _ _ (subscript_present _ _ _ Htext)).
  rewrite (bind_pure_ret _ _ _ _ (pure_as_text (JStr text))).
  rewrite Hplain.
  assert (Hline : Strict.encodable (PrintChat sender (fst addr) text)
                  = printable) by reflexivity.
  destruct printable.
  - rewrite (bind_print_shown _ _ _ Hline), bind_get_self.
    destruct (is_set (current_chat st)); cbn; auto.
  - rewrite (bind_print_refused _ _ _ Hline). cbn. auto.
Qed.

(** A chat message whose text holds a lone surrogate. *)
Definition chat_with_surrogate : bytes :=
  datagram
    "{'type': 'message', 'from_username': 'eve', 'to_username': 'alice', 'text': 'hel\udc80lo'}".

Lemma chat_shown_sender_adopted_when_idle_witness :
  let data :=
    datagram "{'type': 'message', 'from_username': 'eve', 'to_username': 'alice', 'text': 'hello'}" in
  let r := Strict.handle_message 1000 1730000006 (fun _ => 0) None data
             (eve_ip, 5000) alice in
  let r' := Strict.handle_message 1000 1730000006 (fun _ => 0) None
              chat_with_surrogate (eve_ip, 5000) alice in
  (within 1000 data = true
   /\ has_kind data "message" = true
   /\ to_user data (username alice) = true
   /\ result r = inr tt
   /\ printed r = [PrintChat (JStr (lit "eve")) eve_ip (lit "hello")]
   /\ current_chat (final r) = Some eve_ip
   /\ peers (final r) = peers alice)
  /\ (result r' = inr tt
      /\ printed r' = [PrintHandlerError UnicodeEncodeError]
      /\ current_chat (final r') = None
      /\ peers (final r') = peers alice).
Proof.
  intros data r r'. split.
  - split; [reflexivity|]. split; [reflexivity|]. split; [reflexivity|].
    exact (chat_shown_sender_adopted_when_idle alice 1000 1730000006
             (fun _ => 0) None data (eve_ip, 5000) (JStr (lit "eve"))
             (lit "hello") eq_refl eq_refl eq_refl eq_refl eq_refl eq_refl).
  - exact (chat_shown_sender_adopted_when_idle alice 1000 1730000006
             (fun _ => 0) None chat_with_surrogate (eve_ip, 5000)
             (JStr (lit "eve")) (lit "hel" ++ [56448%N] ++ lit "lo")
             eq_refl eq_refl eq_refl eq_refl eq_refl eq_refl).
Defined.

(* ===================================================================== *)
(** * Commands of a peer on a terminal *)
(* ===================================================================== *)

(** The msg command on a registered address: the assignment of line 146
    comes before the [print] of line 147. *)
Lemma strict_msg_known (st : P2PChat) (clock : pystr -> Z)
    (from_ip : option pystr) (a : pystr) (info : peer) :
  strip a = a ->
  PyDict.get a (peers st) = Some info ->
  Strict.handle_command clock (lit "/msg " ++ a) from_ip st
  = Outcome
      (if Strict.encodable (PrintNowChatting (peer_username info) a)
       then inr tt else inl UnicodeEncodeError)
      (with_chat st (Some a))
      (if Strict.encodable (PrintNowChatting (peer_username info) a)
       then [PrintNowChatting (peer_username info) a] else []).
Proof.
  intros Hstrip Hget. unfold Strict.handle_command.
  rewrite startswith_app, slice_msg_target, Hstrip, bind_get_self.
  unfold PyDict.mem. rewrite Hget.
  unfold bind, set_current_chat, subscript, Strict.print_line.
  cbn [result final printed peers]. rewrite Hget.
  cbn -[Strict.encodable with_chat].
  destruct (Strict.encodable (PrintNowChatting (peer_username info) a));
    reflexivity.
Qed.

(** The msg command in a chat message for the local user. *)
Lemma strict_remote_msg_run (st : P2PChat) (limit : nat) (now : Z)
    (clock : pystr -> Z) (stdin : option pystr) (data : bytes)
    (addr : address) (d : pydict json) (sender : json) (a : pystr)
    (info : peer) :
  within limit data = true ->
  decode data = inr (JObj d) ->
  eq_str (type_of d) (lit "message") = true ->
  addressed_to d (username st) = true ->
  PyDict.get (lit "from_username") d = Some sender ->
  PyDict.get (lit "text") d = Some (JStr (lit "/msg " ++ a)) ->
  strip a = a -> a <> [] ->
  PyDict.get a (peers st) = Some info ->
  Strict.handle_message limit now clock stdin data addr st
  = Outcome (inr tt) (with_chat st (Some a))
      [if Strict.encodable_value (peer_username info)
          && Strict.encodable_text a
       then PrintNowChatting (peer_username info) a
       else PrintHandlerError UnicodeEncodeError].
Proof.
  intros Hw Hdata Hkind Hto Hfrom Htext Hstrip Hne Hget.
  rewrite (strict_handle_message_run limit now clock stdin data addr st _
             eq_refl).
  rewrite (strict_dispatch_command st limit now clock stdin data addr d
             sender _ Hw Hdata Hkind Hto Hfrom Htext eq_refl).
  rewrite (bind_outcome _ _ _ _
             (strict_msg_known st clock (Some (fst addr)) a info Hstrip Hget)).
  cbn [Strict.encodable].
  destruct (Strict.encodable_value (peer_username info)
            && Strict.encodable_text a); cbn [result final printed].
  - rewrite bind_get_self. destruct a as [|c a]; [congruence|]. reflexivity.
  - reflexivity.
Qed.

(** X10.  Anyone who can send a datagram can move the conversation of
    the local user: a chat message for the local user whose text is the
    msg command with a registered address makes that address the
    partner, whoever the partner was and whoever the sender is.  The
    line of the switch is printed after the assignment; when the
    registered name holds a lone surrogate, [print] raises, the handler
    of line 137 reports it, and the partner has been changed all the
    same.  The sender is not adopted and the registry is unchanged. *)
Theorem remote_msg_switches_session (st : P2PChat) (limit : nat) (now : Z)
    (clock : pystr -> Z) (stdin : option pystr) (data : bytes)
    (addr : address) (sender : json) (a : pystr) (info : peer) :
  within limit data = true ->
  has_kind data "message" = true ->
  to_user data (username st) = true ->
  field_of data "from_username" = Some sender ->
  field_of data "text" = Some (JStr (lit "/msg " ++ a)) ->
  strip a = a -> a <> [] ->
  PyDict.get a (peers st) = Some info ->
  Strict.handle_message limit now clock stdin data addr st
  = Outcome (inr tt) (with_chat st (Some a))
      [if Strict.encodable_value (peer_username info)
          && Strict.encodable_text a
       then PrintNowChatting (peer_username info) a
       else PrintHandlerError UnicodeEncodeError].
Proof.
  intros Hw Hkind Hto Hfrom Htext Hstrip Hne Hget.
  open_datagram Hkind d Hdata Hd.
  now apply (strict_remote_msg_run st limit now clock stdin data addr d
               sender a info).
Qed.

(** A registry in which the name of carol is a lone surrogate. *)
Definition alice_with_unprintable_carol : P2PChat :=
  Build (lit "alice") 5000 true
    [(bob_ip, Peer (JStr (lit "bob")) 1730000000);
     (lit "10.0.0.8", Peer (JStr [56448%N]) 1730000000)]
    (Some bob_ip).

Lemma remote_msg_switches_session_witness :
  let st := Build (lit "alice") 5000 true
              [(bob_ip, Peer (JStr (lit "bob")) 1730000000);
               (lit "10.0.0.8", Peer (JStr (lit "carol")) 1730000000)]
              (Some bob_ip) in
  let data :=
    datagram "{'type': 'message', 'from_username': 'eve', 'to_username': 'alice', 'text': '/msg 10.0.0.8'}" in
  within 1000 data = true
  /\ has_kind data "message" = true
  /\ to_user data (username st) = true
  /\ strip (lit "10.0.0.8") = lit "10.0.0.8"
  /\ Strict.handle_message 1000 1730000006 (fun _ => 0) None data
       (eve_ip, 5000) st
     = Outcome (inr tt) (with_chat st (Some (lit "10.0.0.8")))
         [PrintNowChatting (JStr (lit "carol")) (lit "10.0.0.8")]
  /\ Strict.handle_message 1000 1730000006 (fun _ => 0) None data
       (eve_ip, 5000) alice_with_unprintable_carol
     = Outcome (inr tt)
         (with_chat alice_with_unprintable_carol (Some (lit "10.0.0.8")))
         [PrintHandlerError UnicodeEncodeError].
Proof.
  intros st data. split; [reflexivity|]. split; [reflexivity|].
  split; [reflexivity|]. split; [reflexivity|].
  assert (Hne : lit "10.0.0.8" <> []) by discriminate.
  split.
  - exact (remote_msg_switches_session st 1000 1730000006 (fun _ => 0) None
             data (eve_ip, 5000) (JStr (lit "eve")) (lit "10.0.0.8")
             (Peer (JStr (lit "carol")) 1730000000)
             eq_refl eq_refl eq_refl eq_refl eq_refl eq_refl Hne eq_refl).
  - exact (remote_msg_switches_session alice_with_unprintable_carol 1000
             1730000006 (fun _ => 0) None data (eve_ip, 5000)
             (JStr (lit "eve")) (lit "10.0.0.8")
             (Peer (JStr [56448%N]) 1730000000)
             eq_refl eq_refl eq_refl eq_refl eq_refl eq_refl Hne eq_refl).
Defined.

(** The quit command of a peer. *)
Lemma strict_quit_command (st : P2PChat) (clock : pystr -> Z) (ip : pystr) :
  ip <> [] ->
  Strict.handle_command clock (lit "/quit") (Some ip) st
  = match current_chat st with
    | Some partner =>
      if PyStr.truthy partner then
        match PyDict.get partner (peers st) with
        | Some info =>
          if Strict.encodable_value (peer_username info)
          then Outcome (inr tt) (with_chat st None)
                 [PrintLeftChat (peer_username info)]
          else Outcome (inl UnicodeEncodeError) st []
        | None => Outcome (inl (KeyError partner)) st []
        end
      else Outcome (inr tt) st []
    | None => Outcome (inr tt) st []
    end.
Proof.
  intros Hip. unfold Strict.handle_command.
  change (startswith (lit "/msg ") (lit "/quit")) with false.
  change (PyStr.eqb (lit "/quit") (lit "/list")) with false.
  change (PyStr.eqb (lit "/quit") (lit "/quit")) with true.
  destruct ip as [|c ip]; [congruence|]. cbn [is_set PyStr.truthy andb].
  rewrite bind_get_self.
  destruct (current_chat st) as [partner|]; [|reflexivity].
  destruct (PyStr.truthy partner); [|reflexivity].
  unfold subscript, bind. cbv zeta.
  destruct (PyDict.get partner (peers st)) as [info|]; [|reflexivity].
  unfold ret. cbn [result final printed]. unfold Strict.print_line.
  cbn [Strict.encodable].
  destruct (Strict.encodable_value (peer_username info)); reflexivity.
Qed.

(** X11.  The quit command in a chat message for the local user, while
    the local user is in conversation with a registered partner.  When
    the partner's registered name can be printed, the conversation is
    left, the line of line 158 is printed with that name, and line 110
    then hands the session to the sender of the command, registered or
    not.  When the name holds a lone surrogate, [print] raises before
    line 159: the handler of line 137 reports it and the conversation
    goes on with the same partner. *)
Theorem remote_quit_hands_session_to_sender (st : P2PChat) (limit : nat)
    (now : Z) (clock : pystr -> Z) (stdin : option pystr) (data : bytes)
    (addr : address) (sender : json) (partner : pystr) (info : peer) :
  within limit data = true ->
  has_kind data "message" = true ->
  to_user data (username st) = true ->
  field_of data "from_username" = Some sender ->
  field_of data "text" = Some (JStr (lit "/quit")) ->
  fst addr <> [] ->
  current_chat st = Some partner -> partner <> [] ->
  PyDict.get partner (peers st) = Some info ->
  Strict.handle_message limit now clock stdin data addr st
  = if Strict.encodable_value (peer_username info)
    then Outcome (inr tt) (with_chat st (Some (fst addr)))
           [PrintLeftChat (peer_username info)]
    else Outcome (inr tt) st [PrintHandlerError UnicodeEncodeError].
Proof.
  intros Hw Hkind Hto Hfrom Htext Haddr Hcur Hne Hget.
  open_datagram Hkind d Hdata Hd.
  rewrite (strict_handle_message_run limit now clock stdin data addr st _
             eq_refl).
  rewrite (strict_dispatch_command st limit now clock stdin data addr d
             sender _ Hw Hdata Hkind Hto Hfrom Htext eq_refl).
  rewrite (bind_outcome _ _ _ _ (strict_quit_command st clock (fst addr) Haddr)).
  rewrite Hcur. destruct partner as [|c partner]; [congruence|].
  cbn [PyStr.truthy]. rewrite Hget.
  destruct (Strict.encodable_value (peer_username info)); reflexivity.
Qed.

Lemma remote_quit_hands_session_to_sender_witness :
  within 1000 quit_from_eve = true
  /\ has_kind quit_from_eve "message" = true
  /\ to_user quit_from_eve (username alice_with_bob) = true
  /\ current_chat alice_with_bob = Some bob_ip
  /\ Strict.handle_message 1000 1730000006 (fun _ => 0) None quit_from_eve
       (eve_ip, 5000) alice_with_bob
     = Outcome (inr tt) (with_chat alice_with_bob (Some eve_ip))
         [PrintLeftChat (JStr (lit "bob"))].
Proof.
  split; [reflexivity|]. split; [reflexivity|]. split; [reflexivity|].
  split; [reflexivity|].
  assert (Haddr : fst (eve_ip, 5000) <> []) by discriminate.
  assert (Hne : bob_ip <> []) by discriminate.
  exact (remote_quit_hands_session_to_sender alice_with_bob 1000 1730000006
           (fun _ => 0) None quit_from_eve (eve_ip, 5000) (JStr (lit "eve"))
           bob_ip (Peer (JStr (lit "bob")) 1730000000)
           eq_refl eq_refl eq_refl eq_refl eq_refl Haddr eq_refl Hne eq_refl).
Defined.

(* ===================================================================== *)
(** * Disconnects on a terminal *)
(* ===================================================================== *)

(** X12.  A disconnect datagram is honoured only for a registered
    sender.  From an address that is not in the registry it does nothing
    at all, even if that address is the partner.  From a registered
    address whose registered name can be printed it prints the line with
    that name, removes the entry of the sender and no other, and clears
    the session pointer exactly when the sender was the partner.  When
    the registered name holds a lone surrogate, [print] raises at line
    130, before lines 131-133: the handler of line 137 reports it, the
    entry stays and so does the partner.  What the datagram itself holds
    beyond its type (its user name, for one) is not looked at. *)
Theorem disconnect_handling (st : P2PChat) (limit : nat) (now : Z)
    (clock : pystr -> Z) (stdin : option pystr) (data : bytes)
    (addr : address) :
  within limit data = true ->
  has_kind data "disconnect" = true ->
  let r := Strict.handle_message limit now clock stdin data addr st in
  match PyDict.get (fst addr) (peers st) with
  | None => r = Outcome (inr tt) st []
  | Some info =>
    if Strict.encodable_value (peer_username info) then
      result r = inr tt
      /\ printed r = [PrintDisconnected (peer_username info) (fst addr)]
      /\ PyDict.get (fst addr) (peers (final r)) = None
      /\ (forall ip, ip <> fst addr ->
                     PyDict.get ip (peers (final r)) = PyDict.get ip (peers st))
      /\ current_chat (final r)
         = match current_chat st with
           | Some partner =>
             if PyStr.eqb partner (fst addr) then None else Some partner
           | None => None
           end
    else r = Outcome (inr tt) st [PrintHandlerError UnicodeEncodeError]
  end.
Proof.
  intros Hw Hkind r. open_datagram Hkind d Hdata Hd. unfold r.
  rewrite (strict_handle_message_run limit now clock stdin data addr st _
             eq_refl).
  strict_enter Hw Hdata Hkind. rewrite bind_get_self. unfold PyDict.mem.
  destruct (PyDict.get (fst addr) (peers st)) as [info|] eqn:Hget;
    [|reflexivity].
  rewrite (bind_pure_ret _ _ _ _ (subscript_present _ _ _ Hget)).
  assert (Hline : Strict.encodable
                    (PrintDisconnected (peer_username info) (fst addr))
                  = Strict.encodable_value (peer_username info))
    by reflexivity.
  destruct (Strict.encodable_value (peer_username info)).
  - rewrite (bind_print_shown _ _ _ Hline).
    assert (Hrest :
              bind (match current_chat st with
                    | Some partner =>
                      if PyStr.eqb partner (fst addr)
                      then set_current_chat None else ret tt
                    | None => ret tt
                    end)
                (fun _ => bind get_self
                            (fun self' =>
                               set_peers (PyDict.del (fst addr) (peers self'))))
                st
              = Outcome (inr tt)
                  (Build (username st) (port st) (running st)
                     (PyDict.del (fst addr) (peers st))
                     (match current_chat st with
                      | Some partner =>
                        if PyStr.eqb partner (fst addr) then None
                        else Some partner
                      | None => None
                      end))
                  []).
    { destruct (current_chat st) as [partner|] eqn:Hcur.
      - destruct (PyStr.eqb partner (fst addr)); cbn; rewrite ?Hcur;
          reflexivity.
      - cbn. now rewrite Hcur. }
    rewrite Hrest. cbn [result final printed peers current_chat].
    repeat split.
    + apply get_del_same.
    + intros ip Hip. now apply get_del_other.
  - now rewrite (bind_print_refused _ _ _ Hline).
Qed.

(** Bob is registered under a name that is a lone surrogate and is the
    partner. *)
Definition alice_with_unprintable_bob : P2PChat :=
  Build (lit "alice") 5000 true
    [(bob_ip, Peer (JStr [56448%N]) 1730000000)] (Some bob_ip).

Lemma disconnect_handling_witness :
  let r := Strict.handle_message 1000 1730000010 (fun _ => 0) None
             bob_disconnects (bob_ip, 5000) alice_with_bob in
  within 1000 bob_disconnects = true
  /\ has_kind bob_disconnects "disconnect" = true
  /\ (result r = inr tt
      /\ printed r = [PrintDisconnected (JStr (lit "bob")) bob_ip]
      /\ PyDict.get bob_ip (peers (final r)) = None
      /\ (forall ip, ip <> bob_ip ->
                     PyDict.get ip (peers (final r))
                     = PyDict.get ip (peers alice_with_bob))
      /\ current_chat (final r) = None)
  /\ Strict.handle_message 1000 1730000010 (fun _ => 0) None bob_disconnects
       (bob_ip, 5000) alice_with_unprintable_bob
     = Outcome (inr tt) alice_with_unprintable_bob
         [PrintHandlerError UnicodeEncodeError].
Proof.
  intros r. split; [reflexivity|]. split; [reflexivity|]. split.
  - exact (disconnect_handling alice_with_bob 1000 1730000010 (fun _ => 0)
             None bob_disconnects (bob_ip, 5000) eq_refl eq_refl).
  - exact (disconnect_handling alice_with_unprintable_bob 1000 1730000010
             (fun _ => 0) None bob_disconnects (bob_ip, 5000)
             eq_refl eq_refl).
Defined.

(* ===================================================================== *)
(** * What a datagram that fails can change *)
(* ===================================================================== *)

(** When [m] raises from [st], the object is as it was, or [print] has
    refused the line of a switch to a registered address, which is the
    partner since line 146. *)
Definition switched_at {A} (m : M A) (st : P2PChat) : Prop :=
  forall e,
    result (m st) = inl e ->
    final (m st) = st
    \/ (e = UnicodeEncodeError
        /\ exists a info,
             PyDict.get a (peers st) = Some info
             /\ Strict.encodable (PrintNowChatting (peer_username info) a)
                = false
             /\ final (m st) = with_chat st (Some a)).

Definition switched_only {A} (m : M A) : Prop :=
  forall st, switched_at m st.

Lemma switched_atomic {A} (m : M A) : atomic m -> switched_only m.
Proof. intros Hm st e He. left. now apply (Hm st e). Qed.

Lemma switched_bind_silent {A B} (m : M A) (k : A -> M B) :
  silent m -> (forall a, switched_only (k a)) -> switched_only (bind m k).
Proof.
  intros Hm Hk st e. unfold bind. cbv zeta.
  destruct (result (m st)) as [e'|a]; cbn [result final].
  - intros _. left. apply Hm.
  - rewrite !Hm. apply Hk.
Qed.

Lemma switched_bind_unfailing {A B} (m : M A) (k : A -> M B) :
  switched_only m -> (forall a, unfailing (k a)) -> switched_only (bind m k).
Proof.
  intros Hm Hk st e. unfold bind. cbv zeta.
  destruct (result (m st)) as [e'|a] eqn:Hr; cbn [result final].
  - intros [= <-]. now apply (Hm st e').
  - intros He. destruct (Hk a (final (m st))) as (b & Hb). congruence.
Qed.

Lemma switched_bind_get {B} (k : P2PChat -> M B) :
  (forall st, switched_at (k st) st) -> switched_only (bind get_self k).
Proof. intros Hk st. unfold switched_at. rewrite bind_get_self. apply Hk. Qed.

Lemma atomic_print_line (o : output) : atomic (Strict.print_line o).
Proof. apply atomic_silent, silent_print_line. Qed.

Lemma switched_handle_command (clock : pystr -> Z) (command : pystr)
    (from_ip : option pystr) :
  switched_only (Strict.handle_command clock command from_ip).
Proof.
  unfold Strict.handle_command, show_help.
  destruct (startswith (lit "/msg ") command).
  - apply switched_bind_get. intros st. cbv zeta.
    generalize (strip (slice_from 5 command)). intros target.
    unfold PyDict.mem.
    destruct (PyDict.get target (peers st)) as [info|] eqn:Hget.
    + intros e. unfold bind, set_current_chat, subscript, Strict.print_line.
      cbn [result final printed peers]. rewrite Hget.
      cbn -[Strict.encodable with_chat].
      destruct (Strict.encodable (PrintNowChatting (peer_username info) target))
        eqn:Hline; cbn [result final]; [discriminate|].
      intros [= <-]. right. split; [reflexivity|].
      exists target, info. auto.
    + apply switched_atomic, atomic_print_line.
  - apply switched_atomic.
    destruct (PyStr.eqb command (lit "/list"));
      [apply atomic_silent, silent_strict_list_peers|].
    destruct (PyStr.eqb command (lit "/quit") && is_set from_ip).
    + apply atomic_bind_silent; [apply silent_get_self|intros self].
      destruct (current_chat self) as [partner|];
        [|apply atomic_silent, silent_ret].
      destruct (PyStr.truthy partner); [|apply atomic_silent, silent_ret].
      apply atomic_bind_silent;
        [eapply silent_pure; apply pure_subscript|intros info].
      apply atomic_bind_silent; [apply silent_print_line|intros _].
      apply atomic_unfailing, unfailing_set_current_chat.
    + destruct (PyStr.eqb command (lit "/help"));
        [apply atomic_silent, silent_emit | apply atomic_silent, silent_ret].
Qed.

Lemma switched_dispatch (limit : nat) (now : Z) (clock : pystr -> Z)
    (stdin : option pystr) (data : bytes) (addr : address) :
  switched_only (Strict.dispatch limit now clock stdin data addr).
Proof.
  unfold Strict.dispatch. cbv zeta.
  apply switched_bind_silent;
    [eapply silent_pure; apply pure_strict_load|intros message].
  apply switched_bind_silent;
    [eapply silent_pure; apply pure_as_dict|intros d].
  destruct (eq_str (type_of d) (lit "presence")).
  { (* presence *)
    apply switched_atomic.
    apply atomic_bind_silent;
      [eapply silent_pure; apply pure_subscript|intros name].
    apply atomic_bind_silent; [apply silent_get_self|intros self].
    apply atomic_unfailing, unfailing_set_peers. }
  destruct (eq_str (type_of d) (lit "message")).
  { (* message *)
    apply switched_bind_silent; [apply silent_get_self|intros self].
    destruct (addressed_to d (username self));
      [|apply switched_atomic, atomic_silent, silent_ret].
    apply switched_bind_silent;
      [eapply silent_pure; apply pure_subscript|intros sender].
    apply switched_bind_silent;
      [eapply silent_pure; apply pure_subscript|intros body].
    apply switched_bind_silent;
      [eapply silent_pure; apply pure_as_text|intros text].
    apply switched_bind_unfailing; [|intros _; apply unfailing_adopt].
    destruct (startswith (lit "/") text);
      [apply switched_handle_command
      |apply switched_atomic, atomic_print_line]. }
  apply switched_atomic.
  destruct (eq_str (type_of d) (lit "typing")).
  { apply atomic_bind_silent; [apply silent_get_self|intros self].
    destruct (addressed_to d (username self));
      [|apply atomic_silent, silent_ret].
    apply atomic_bind_silent;
      [eapply silent_pure; apply pure_subscript|intros sender].
    apply atomic_print_line. }
  destruct (eq_str (type_of d) (lit "read_receipt")).
  { apply atomic_bind_silent; [apply silent_get_self|intros self].
    destruct (addressed_to d (username self));
      [|apply atomic_silent, silent_ret].
    apply atomic_bind_silent;
      [eapply silent_pure; apply pure_subscript|intros sender].
    apply atomic_print_line. }
  destruct (eq_str (type_of d) (lit "file_offer")).
  { apply atomic_bind_silent; [apply silent_get_self|intros self].
    destruct (addressed_to d (username self));
      [apply atomic_silent, silent_strict_handle_file_offer
      |apply atomic_silent, silent_ret]. }
  destruct (eq_str (type_of d) (lit "disconnect"));
    [|apply atomic_silent, silent_ret].
  apply atomic_bind_silent; [apply silent_get_self|intros self].
  destruct (PyDict.mem (fst addr) (peers self)) eqn:Hmem;
    [|apply atomic_silent, silent_ret].
  apply atomic_bind_silent;
    [eapply silent_pure; apply pure_subscript|intros info].
  apply atomic_bind_silent; [apply silent_print_line|intros _].
  apply atomic_unfailing.
  apply unfailing_bind.
  - destruct (current_chat self) as [partner|]; [|apply unfailing_ret].
    destruct (PyStr.eqb partner (fst addr));
      [apply unfailing_set_current_chat | apply unfailing_ret].
  - intros _. apply unfailing_bind_get. intros self'.
    apply unfailing_set_peers.
Qed.

(** X13.  [handle_message] never lets an exception out, and a datagram
    whose handling raises (whatever the exception and wherever it is
    raised: decoding, the recursion limit, a missing field, a value of
    the wrong type, a line that cannot be printed, a command, the answer
    to a file offer) leaves the registry exactly as it was.  It leaves
    the whole object as it was but in one case: the msg command of a
    peer with a registered address assigns the partner at line 146
    before the [print] of line 147, so that when that line cannot be
    printed the exception is [UnicodeEncodeError] and the partner has
    been moved to that address.  What such a datagram adds to the
    output ends with the report of one of the two handlers. *)
Theorem failed_datagram_moves_at_most_partner (st : P2PChat) (limit : nat)
    (now : Z) (clock : pystr -> Z) (stdin : option pystr) (data : bytes)
    (addr : address) (e : exn) :
  result (Strict.dispatch limit now clock stdin data addr st) = inl e ->
  let r := Strict.handle_message limit now clock stdin data addr st in
  result r = inr tt
  /\ peers (final r) = peers st
  /\ (final r = st
      \/ (e = UnicodeEncodeError
          /\ exists a info,
               PyDict.get a (peers st) = Some info
               /\ Strict.encodable (PrintNowChatting (peer_username info) a)
                  = false
               /\ final r = with_chat st (Some a)))
  /\ printed r
     = printed (Strict.dispatch limit now clock stdin data addr st)
       ++ [match e with
           | JSONDecodeError => PrintInvalidMessage (fst addr)
           | _ => PrintHandlerError e
           end].
Proof.
  intros He r. unfold r.
  pose proof (switched_dispatch limit now clock stdin data addr st e He)
    as Hst.
  rewrite (strict_handle_message_run limit now clock stdin data addr st _
             eq_refl), He.
  assert (Hfinal :
            final (match e with
                   | JSONDecodeError =>
                     Outcome (inr tt)
                       (final (Strict.dispatch limit now clock stdin data
                                 addr st))
                       (printed (Strict.dispatch limit now clock stdin data
                                   addr st)
                        ++ [PrintInvalidMessage (fst addr)])
                   | _ =>
                     Outcome (inr tt)
                       (final (Strict.dispatch limit now clock stdin data
                                 addr st))
                       (printed (Strict.dispatch limit now clock stdin data
                                   addr st)
                        ++ [PrintHandlerError e])
                   end)
            = final (Strict.dispatch limit now clock stdin data addr st))
    by (destruct e; reflexivity).
  rewrite Hfinal.
  split; [destruct e; reflexivity|]. split.
  - destruct Hst as [->|(_ & a & info & _ & _ & ->)]; reflexivity.
  - split; [exact Hst|]. destruct e; reflexivity.
Qed.

Lemma failed_datagram_moves_at_most_partner_witness :
  let st := Build (lit "alice") 5000 true [] (Some bob_ip) in
  let r := Strict.handle_message 1000 1730000006 (fun _ => 0) None
             quit_from_eve (eve_ip, 5000) st in
  let data :=
    datagram "{'type': 'message', 'from_username': 'eve', 'to_username': 'alice', 'text': '/msg 10.0.0.8'}" in
  let r' := Strict.handle_message 1000 1730000006 (fun _ => 0) None data
              (eve_ip, 5000) alice_with_unprintable_carol in
  (result (Strict.dispatch 1000 1730000006 (fun _ => 0) None quit_from_eve
             (eve_ip, 5000) st)
   = inl (KeyError bob_ip)
   /\ final r = st
   /\ printed r = [PrintHandlerError (KeyError bob_ip)])
  /\ (result (Strict.dispatch 1000 1730000006 (fun _ => 0) None data
                (eve_ip, 5000) alice_with_unprintable_carol)
      = inl UnicodeEncodeError
      /\ result r' = inr tt
      /\ peers (final r') = peers alice_with_unprintable_carol
      /\ current_chat (final r') = Some (lit "10.0.0.8")
      /\ printed r' = [PrintHandlerError UnicodeEncodeError]).
Proof.
  intros st r data r'. split.
  - split; [reflexivity|].
    pose proof (failed_datagram_moves_at_most_partner st 1000 1730000006
                  (fun _ => 0) None quit_from_eve (eve_ip, 5000)
                  (KeyError bob_ip) eq_refl) as (_ & _ & _ & Hout).
    split; [reflexivity | exact Hout].
  - split; [reflexivity|].
    pose proof (failed_datagram_moves_at_most_partner
                  alice_with_unprintable_carol 1000 1730000006 (fun _ => 0)
                  None data (eve_ip, 5000) UnicodeEncodeError eq_refl)
      as (Hres & Hpeers & _ & Hout).
    split; [exact Hres|]. split; [exact Hpeers|].
    split; [reflexivity | exact Hout].
Defined.

(* ===================================================================== *)
(** * The listener and its threads *)
(* ===================================================================== *)

(** [Session.listen_turn] runs the handler of a datagram at once and to
    its end.  The program starts a thread for it (line 71) and goes back
    to [recvfrom] without waiting, so that the handlers run while the
    listener and one another run.  The module [Listener] gives the
    thread of the listener by itself: what it prints and the threads it
    starts, in the order in which it does so.  The flag [self.running]
    is shared with the other threads; its value where the listener reads
    it is given with each turn.  Starting a thread is taken to succeed,
    and no signal is delivered to the thread during the turns given. *)
Module Listener.

Inductive action : Type :=
| Does (e : event)
| StartHandler (data : bytes) (addr : address).    (* 71 *)

(** One turn of the loop of line 68: [self.running] at the loop test,
    what [recvfrom] gives, [self.running] at line 75. *)
Record round : Type := Round {
  running_at_test : bool;
  incoming : received;
  running_at_report : bool
}.

(** Lines 69-76. *)
Definition listen_turn (t : round) : list action :=
  match incoming t with
  | Datagram data addr => [StartHandler data addr]
  | RecvTimeout => []
  | RecvFailed =>
    if running_at_report t then [Does (PrintListenError OSError)] else []
  end.

(** [while self.running].  The boolean tells whether the loop was left;
    [false] means that it goes on beyond the given turns. *)
Fixpoint listen (turns : list round) : bool * list action :=
  match turns with
  | [] => (false, [])
  | t :: rest =>
    if running_at_test t
    then let r := listen rest in (fst r, listen_turn t ++ snd r)
    else (true, [])
  end.

(** [start_listener] (lines 54-80).  [bound] tells whether [bind]
    succeeds.  The line of line 59 holds the local user name; when
    [print] refuses it, the clause of line 78 takes the exception. *)
Definition start_listener (bound : bool) (probe : option pystr)
    (turns : list round) (self : P2PChat) : (fault + bool) * list action :=
  if bound then
    if Strict.encodable_text (username self) then
      let r := listen turns in
      (inr (fst r),
       Does (PrintListening (port self))
         :: Does (PrintYourUsername (username self))
         :: Does (PrintYourIP (get_local_ip probe))
         :: Does StartBroadcaster
         :: snd r)
    else
      (inl (SystemExit 1),
       [Does (PrintListening (port self));
        Does (PrintBindFailed (port self) UnicodeEncodeError)])
  else
    (inl (SystemExit 1), [Does (PrintBindFailed (port self) OSError)]).



End Listener.






(* ===================================================================== *)
(** * A command typed in the chat loop *)
(* ===================================================================== *)

(** X25.  The commands of the help text are not commands of the loop: a
    typed [/msg a] is not run locally, it is sent to the peer as a chat
    message like any other line, and the object of the sender is
    unchanged.  It is the dispatcher of the peer that runs it: if [a]
    is in the registry of the peer, the session of the peer moves to
    [a], and the peer prints the line of the switch, or, when the name
    registered for [a] cannot be printed, the report of the handler of
    line 137. *)
Theorem typed_msg_command_runs_at_peer (me them : P2PChat)
    (peer_ip : pystr) (peer_port last : Z) (t : turn) (line a : pystr)
    (limit : nat) (now : Z) (clock : pystr -> Z) (stdin : option pystr)
    (from : address) (info : peer) :
  pressed t = Typed line -> up t = true ->
  strip line = lit "/msg " ++ a -> strip a = a -> a <> [] ->
  valid_text (username me) -> valid_text (username them) -> valid_text a ->
  PyDict.get a (peers them) = Some info ->
  let data := payload_of (Chat (username me) (username them)
                            (lit "/msg " ++ a) (at_send t)) in
  within limit data = true ->
  loop_turn peer_ip (username them) peer_port t last me
  = Run (inr (Continue,
              if 3 * SECOND <? at_check t - last then at_stamp t else last))
      me
      ([Core (Sent data (peer_ip, peer_port));
        Core (PrintYou (lit "/msg " ++ a))]
       ++ if 3 * SECOND <? at_check t - last
          then [notice me peer_ip (username them) peer_port t]
          else [])
  /\ Strict.handle_message limit now clock stdin data from them
     = Outcome (inr tt) (with_chat them (Some a))
         [if Strict.encodable_value (peer_username info)
             && Strict.encodable_text a
          then PrintNowChatting (peer_username info) a
          else PrintHandlerError UnicodeEncodeError].
Proof.
  intros Hkey Hup Hline Hstrip Hne Hme Hthem Ha Hget data Hw. split.
  - rewrite (loop_turn_ordinary peer_ip (username them) peer_port last t line
               me Hkey); [|rewrite Hline; reflexivity|exact Hup].
    now rewrite Hline.
  - assert (Hdec : decode data
                   = inr (to_dict (Chat (username me) (username them)
                                     (lit "/msg " ++ a) (at_send t)))).
    { apply decode_payload. cbn [valid]. repeat split; auto.
      apply valid_text_app; [apply valid_text_lit | exact Ha]. }
    cbn [to_dict] in Hdec.
    apply (strict_remote_msg_run them limit now clock stdin data from _
             (JStr (username me)) a info Hw Hdec); try reflexivity; auto.
    unfold addressed_to. cbn. apply PyStr.eqb_refl.
Qed.

Lemma typed_msg_command_runs_at_peer_witness :
  let bob := Build (lit "bob") 5000 true
               [(lit "10.0.0.1", Peer (JStr (lit "alice")) 1730000000);
                (lit "10.0.0.8", Peer (JStr (lit "carol")) 1730000000)]
               (Some (lit "10.0.0.1")) in
  let t := types "/msg 10.0.0.8" in
  let data := payload_of (Chat (username alice_with_bob) (username bob)
                            (lit "/msg " ++ lit "10.0.0.8") (at_send t)) in
  strip (lit "/msg 10.0.0.8") = lit "/msg " ++ lit "10.0.0.8"
  /\ within 1000 data = true
  /\ loop_turn bob_ip (username bob) 5000 t 0 alice_with_bob
     = Run (inr (Continue,
                 if 3 * SECOND <? at_check t - 0 then at_stamp t else 0))
         alice_with_bob
         ([Core (Sent data (bob_ip, 5000));
           Core (PrintYou (lit "/msg " ++ lit "10.0.0.8"))]
          ++ if 3 * SECOND <? at_check t - 0
             then [notice alice_with_bob bob_ip (username bob) 5000 t]
             else [])
  /\ Strict.handle_message 1000 1730000101 (fun _ => 0) None data
       (lit "10.0.0.1", 5000) bob
     = Outcome (inr tt) (with_chat bob (Some (lit "10.0.0.8")))
         [PrintNowChatting (JStr (lit "carol")) (lit "10.0.0.8")].
Proof.
  intros bob t data. split; [reflexivity|].
  assert (Hw : within 1000 data = true) by (vm_compute; reflexivity).
  split; [exact Hw|].
  assert (Hne : lit "10.0.0.8" <> []) by discriminate.
  exact (typed_msg_command_runs_at_peer alice_with_bob bob bob_ip 5000 0 t
           (lit "/msg 10.0.0.8") (lit "10.0.0.8") 1000 1730000101
           (fun _ => 0) None (lit "10.0.0.1", 5000)
           (Peer (JStr (lit "carol")) 1730000000)
           eq_refl eq_refl eq_refl eq_refl Hne
           (valid_text_lit "alice") (valid_text_lit "bob")
           (valid_text_lit "10.0.0.8") eq_refl Hw).
Defined.
